(** * AI System Testing Framework: a shallow embedding of
      [archive/05-validation-framework/test_framework_design.py]

    The development follows the layout of the Python module:
    the data classes, [ProductionAISystem] (the call and the validator),
    [AISystemTester] (one trial, the statistical validation, the test
    suite, the two cross-configuration analyses, the summary and the
    report) and the custom validator of the [__main__] block.

    Conventions.
    - Python [float]s are represented by exact rationals ([Q]); comparisons
      with the literals [0.8] and [0.5] and the range statements below do
      not depend on rounding.
    - A Python call that may raise is a computation in the [outcome] monad;
      [Raise] carries [str(e)] of an instance of [Exception] (what
      [except Exception] catches).
    - Library routines whose text is not part of the module ([hashlib.md5],
      [json.loads], [float()], [re.search], [math.sqrt], the [repr] of a
      float, the JSON escaping of a string, percent formatting) are the
      fields of the class [Runtime]. *)

From Stdlib Require Import List String Ascii Bool ZArith QArith Lqa Lia.
From Stdlib Require Import Permutation Sorted OrderedTypeEx DecimalString.
Import ListNotations.

Set Warnings "-register-all".

Open Scope string_scope.
Open Scope Q_scope.

(** ** Exceptions *)

Inductive outcome (A : Type) : Type :=
| Ret (a : A)
| Raise (msg : string).
Arguments Ret {A} a.
Arguments Raise {A} msg.

Definition bind {A B} (m : outcome A) (k : A -> outcome B) : outcome B :=
  match m with
  | Ret a => k a
  | Raise e => Raise e
  end.

(** [try: body except Exception as e: handler(str(e))] *)
Definition try_except {A} (body : outcome A) (handler : string -> outcome A)
  : outcome A :=
  match body with
  | Ret a => Ret a
  | Raise e => handler e
  end.

Notation "x <- m ;; k" := (bind m (fun x => k))
  (at level 61, m at next level, right associativity).

(** ** Python values that occur as inputs and outputs *)

Inductive Value : Type :=
| VNone
| VBool (b : bool)
| VInt (z : Z)
| VStr (s : string).

(** [str(v)] *)
Definition py_str (v : Value) : string :=
  match v with
  | VNone => "None"
  | VBool true => "True"
  | VBool false => "False"
  | VInt z => NilZero.string_of_int (Z.to_int z)
  | VStr s => s
  end.

(** [v is not None] *)
Definition is_not_None (v : Value) : bool :=
  match v with
  | VNone => false
  | _ => true
  end.

(** [x > y] on floats *)
Definition Qgtb (x y : Q) : bool := negb (Qle_bool x y).

Definition default {A} (d : A) (o : option A) : A :=
  match o with
  | Some a => a
  | None => d
  end.

(** [dict.get(k)] on a dictionary kept as the list of its items *)
Fixpoint dict_get {A} (k : string) (d : list (string * A)) : option A :=
  match d with
  | [] => None
  | (k', v) :: t => if (k' =? k)%string then Some v else dict_get k t
  end.

(** ** Library routines *)

Class Runtime : Type := {
  (** [hashlib.md5(s.encode()).hexdigest()] *)
  md5_hexdigest : string -> string;
  (** [float.__repr__] *)
  float_repr : Q -> string;
  (** [json.dumps(s)] for a [str]: the quoted, escaped string *)
  json_quote : string -> string;
  (** [json.loads(s)] returns (does not raise [JSONDecodeError]) *)
  json_loads_ok : string -> bool;
  (** [float(s.strip())] returns (does not raise [ValueError]) *)
  float_ok : string -> bool;
  (** [re.search(pattern, s)] is a match object; raises on a bad pattern *)
  re_search : string -> string -> outcome bool;
  (** [math.sqrt] *)
  py_sqrt : Q -> Q;
  (** [format(x, ".1%")] *)
  format_percent : Q -> string
}.

(** ** JSON-serialisable values

    What [dataclasses.asdict] hands to [json.dumps]. A [dict] is the list of
    its items in insertion order. *)

Inductive json : Type :=
| JNull
| JBool (b : bool)
| JInt (z : Z)
| JFloat (q : Q)
| JStr (s : string)
| JList (l : list json)
| JDict (items : list (string * json)).

Definition json_of_value (v : Value) : json :=
  match v with
  | VNone => JNull
  | VBool b => JBool b
  | VInt z => JInt z
  | VStr s => JStr s
  end.

(** [sorted(items)] on items with string keys: a stable insertion sort on
    the key. *)
Fixpoint insert_item {A} (kv : string * A) (l : list (string * A))
  : list (string * A) :=
  match l with
  | [] => [kv]
  | h :: t =>
      if (fst h <? fst kv)%string then h :: insert_item kv t else kv :: l
  end.

Definition sort_items {A} (l : list (string * A)) : list (string * A) :=
  fold_right insert_item [] l.

Definition dump_item `{Runtime} (kv : string * string) : string :=
  json_quote (fst kv) ++ ": " ++ snd kv.

(** [json.dumps(j, sort_keys=True)] *)
Fixpoint json_dumps `{Runtime} (j : json) : string :=
  match j with
  | JNull => "null"
  | JBool true => "true"
  | JBool false => "false"
  | JInt z => NilZero.string_of_int (Z.to_int z)
  | JFloat q => float_repr q
  | JStr s => json_quote s
  | JList l => "[" ++ concat ", " (map json_dumps l) ++ "]"
  | JDict items =>
      "{" ++ concat ", "
               (map dump_item
                  (sort_items
                     (map (fun kv => let '(k, v) := kv in (k, json_dumps v))
                        items)))
          ++ "}"
  end.

(** ** The data classes *)

Record AIModelConfiguration : Type := {
  model_id : string;
  model_version : string;
  temperature : Q;
  top_k : option Z;
  top_p : option Q;
  max_output_tokens : Z;
  system_instruction : option string;
  response_format : string;
  response_schema : option (list (string * json))
}.

Definition optional {A} (f : A -> json) (o : option A) : json :=
  match o with
  | Some a => f a
  | None => JNull
  end.

(** [asdict(self)]: one item per field, in declaration order. *)
Definition asdict (c : AIModelConfiguration) : list (string * json) :=
  [ ("model_id", JStr (model_id c));
    ("model_version", JStr (model_version c));
    ("temperature", JFloat (temperature c));
    ("top_k", optional JInt (top_k c));
    ("top_p", optional JFloat (top_p c));
    ("max_output_tokens", JInt (max_output_tokens c));
    ("system_instruction", optional JStr (system_instruction c));
    ("response_format", JStr (response_format c));
    ("response_schema", optional JDict (response_schema c)) ].

(** The identifier of an attribute dictionary:
    [hashlib.md5(json.dumps(d, sort_keys=True).encode()).hexdigest()[:8]] *)
Definition hash_of_attributes `{Runtime} (d : list (string * json)) : string :=
  let config_string := json_dumps (JDict d) in
  substring 0 8 (md5_hexdigest config_string).

Definition get_config_hash `{Runtime} (c : AIModelConfiguration) : string :=
  hash_of_attributes (asdict c).

(** What a custom validation function returns: a [dict] with the optional
    keys ["valid"] (its truthiness), ["issues"] and ["quality_multiplier"],
    or any other object (its truthiness). *)
Inductive CustomResult : Type :=
| CustomDict (valid : option bool) (issues : option (list string))
             (quality_multiplier : option Q)
| CustomOther (truthy : bool).

(** The fields of a [TestCase] other than the callable. The callable
    receives the output and these fields. *)
Record TestCaseData : Type := {
  id : string;
  name : string;
  input_data : Value;
  expected_output_pattern : option string;
  expected_output_type : string;
  difficulty_level : string;
  category : string;
  metadata : list (string * json)
}.

Record TestCase : Type := {
  data :> TestCaseData;
  validation_function :
    option (Value -> TestCaseData -> outcome CustomResult)
}.

(** The dictionary built by [validate_output]. *)
Record ValidationResult : Type := {
  vr_valid : bool;
  vr_issues : list string;
  vr_quality_score : Q
}.

Record TestResult : Type := {
  test_case_id : string;
  model_config_hash : string;
  execution_timestamp : string;
  success : bool;
  output : Value;
  execution_time_ms : Q;
  error_message : option string;
  quality_score : option Q;
  validation_details : option ValidationResult
}.

(** The dictionary returned by [call_ai_system]: the truthiness of
    [get("success")], and the items ["output"] and ["error"] when present. *)
Record AIResponse : Type := {
  resp_success : bool;
  resp_output : option Value;
  resp_error : option string
}.

(** ** The interface of a system under test

    [W] is what the outside world does during one call. *)
Class AISystemInterface (W : Type) : Type := {
  call_ai_system : W -> AIModelConfiguration -> Value -> outcome AIResponse;
  validate_output : Value -> TestCase -> outcome ValidationResult
}.

(** ** [class ProductionAISystem(AISystemInterface)] *)

Module ProductionAISystem.

(** What [aiohttp] hands back for one POST. *)
Record HttpResponse : Type := {
  status : Z;
  (** [await response.json()] *)
  response_json : outcome (list (string * Value));
  (** [await response.text()] *)
  response_text : outcome string
}.

(** The outside world of one call: the behaviour of [session.post] on the
    request payload. *)
Definition World : Type := list (string * json) -> outcome HttpResponse.

Definition truthy_str (o : option string) : bool :=
  match o with
  | Some s => negb (s =? "")%string
  | None => false
  end.

Definition truthy_dict {A} (o : option (list A)) : bool :=
  match o with
  | Some (_ :: _) => true
  | _ => false
  end.

Definition payload (config : AIModelConfiguration) (input : Value)
  : list (string * json) :=
  [ ("model", JStr (model_id config));
    ("input", json_of_value input);
    ("temperature", JFloat (temperature config));
    ("max_tokens", JInt (max_output_tokens config)) ]
  ++ match top_k config with Some k => [("top_k", JInt k)] | None => [] end
  ++ match top_p config with Some p => [("top_p", JFloat p)] | None => [] end
  ++ (if truthy_str (system_instruction config)
      then [("system_instruction", optional JStr (system_instruction config))]
      else [])
  ++ (if (response_format config =? "json")%string
      then ("response_format", JDict [("type", JStr "json_object")])
           :: (if truthy_dict (response_schema config)
               then [("response_schema",
                      optional JDict (response_schema config))]
               else [])
      else []).

Definition call_ai_system (post : World) (config : AIModelConfiguration)
    (input : Value) : outcome AIResponse :=
  try_except
    (response <- post (payload config input);;
     if (status response =? 200)%Z then
       result <- response_json response;;
       Ret {| resp_success := true;
              resp_output := Some (default (VStr "") (dict_get "output" result));
              resp_error := None |}
     else
       error_text <- response_text response;;
       Ret {| resp_success := false;
              resp_output := None;
              resp_error :=
                Some ("HTTP " ++ NilZero.string_of_int (Z.to_int (status response))
                              ++ ": " ++ error_text) |})
    (fun e =>
       Ret {| resp_success := false; resp_output := None;
              resp_error := Some e |}).

(** One failed check: [valid = False], an issue appended, the quality
    multiplied. *)
Definition fail_check (vr : ValidationResult) (issue : string) (factor : Q)
  : ValidationResult :=
  {| vr_valid := false;
     vr_issues := vr_issues vr ++ [issue];
     vr_quality_score := vr_quality_score vr * factor |}.

Section Validate.
Context `{Runtime}.

(** "Basic type validation" *)
Definition check_type (output : Value) (test_case : TestCase)
    (vr : ValidationResult) : ValidationResult :=
  if negb (expected_output_type test_case =? "any")%string then
    if (expected_output_type test_case =? "json")%string then
      if json_loads_ok (py_str output) then vr
      else fail_check vr "Output is not valid JSON" 0.5
    else if (expected_output_type test_case =? "numeric")%string then
      if float_ok (py_str output) then vr
      else fail_check vr "Output is not numeric" 0.5
    else vr
  else vr.

(** "Pattern validation" *)
Definition check_pattern (output : Value) (test_case : TestCase)
    (vr : ValidationResult) : outcome ValidationResult :=
  if truthy_str (expected_output_pattern test_case) then
    let pattern := default "" (expected_output_pattern test_case) in
    found <- re_search pattern (py_str output);;
    if negb found then
      Ret (fail_check vr ("Output does not match pattern: " ++ pattern) 0.7)
    else Ret vr
  else Ret vr.

(** "Custom validation function" *)
Definition check_custom (output : Value) (test_case : TestCase)
    (vr : ValidationResult) : ValidationResult :=
  match validation_function test_case with
  | Some f =>
      match f output (data test_case) with
      | Ret (CustomDict valid issues quality_multiplier) =>
          let vr1 :=
            if negb (default true valid) then
              {| vr_valid := false;
                 vr_issues := vr_issues vr ++ default [] issues;
                 vr_quality_score := vr_quality_score vr |}
            else vr in
          {| vr_valid := vr_valid vr1;
             vr_issues := vr_issues vr1;
             vr_quality_score :=
               vr_quality_score vr1 * default 1.0 quality_multiplier |}
      | Ret (CustomOther truthy) =>
          if negb truthy then fail_check vr "Custom validation failed" 0.3
          else vr
      | Raise e =>
          {| vr_valid := vr_valid vr;
             vr_issues := vr_issues vr ++ ["Validation function error: " ++ e];
             vr_quality_score := vr_quality_score vr * 0.8 |}
      end
  | None => vr
  end.

Definition validate_output (output : Value) (test_case : TestCase)
  : outcome ValidationResult :=
  let validation_result :=
    {| vr_valid := true; vr_issues := []; vr_quality_score := 1.0 |} in
  let validation_result := check_type output test_case validation_result in
  validation_result <- check_pattern output test_case validation_result;;
  let validation_result := check_custom output test_case validation_result in
  Ret validation_result.

#[export] Instance production_system : AISystemInterface World := {
  call_ai_system := call_ai_system;
  validate_output := validate_output
}.

End Validate.

End ProductionAISystem.

(** ** The [statistics] module *)

Definition Qsum (l : list Q) : Q := fold_right Qplus 0 l.

Definition Qlen {A} (l : list A) : Q := inject_Z (Z.of_nat (List.length l)).

(** [statistics.mean] *)
Definition mean (l : list Q) : outcome Q :=
  match l with
  | [] => Raise "mean requires at least one data point"
  | _ => Ret (Qsum l / Qlen l)
  end.

(** [statistics.stdev]: the square root of the sample variance *)
Definition stdev `{Runtime} (l : list Q) : outcome Q :=
  match l with
  | [] | [_] => Raise "variance requires at least two data points"
  | _ =>
      let m := Qsum l / Qlen l in
      let ss := Qsum (map (fun x => (x - m) * (x - m)) l) in
      Ret (py_sqrt (ss / (Qlen l - 1)))
  end.

(** ** [class AISystemTester] *)

Module AISystemTester.

(** The clock readings of one trial: [time.time()] at the start, after the
    call returned and in the exception handler, and
    [datetime.utcnow().isoformat()]. *)
Record Clock : Type := {
  t_start : Q;
  t_returned : Q;
  t_handler : Q;
  utcnow : string
}.

(** [d["output"]]: raises [KeyError] when the key is absent *)
Definition getitem_output (r : AIResponse) : outcome Value :=
  match resp_output r with
  | Some v => Ret v
  | None => Raise "'output'"
  end.

Section Tester.
Context `{Runtime} {W : Type} `{AISystemInterface W}.

Definition run_single_test (w : W) (clk : Clock)
    (config : AIModelConfiguration) (test_case : TestCase)
  : outcome TestResult :=
  let start_time := t_start clk in
  try_except
    (ai_response <- call_ai_system w config (input_data test_case);;
     let execution_time := (t_returned clk - start_time) * 1000 in
     if resp_success ai_response then
       out <- getitem_output ai_response;;
       validation_result <- validate_output out test_case;;
       Ret {| test_case_id := id test_case;
              model_config_hash := get_config_hash config;
              execution_timestamp := utcnow clk;
              success := vr_valid validation_result;
              output := out;
              execution_time_ms := execution_time;
              error_message := None;
              quality_score := Some (vr_quality_score validation_result);
              validation_details := Some validation_result |}
     else
       Ret {| test_case_id := id test_case;
              model_config_hash := get_config_hash config;
              execution_timestamp := utcnow clk;
              success := false;
              output := VNone;
              execution_time_ms := execution_time;
              error_message :=
                Some (default "Unknown error" (resp_error ai_response));
              quality_score := None;
              validation_details := None |})
    (fun e =>
       let execution_time := (t_handler clk - start_time) * 1000 in
       Ret {| test_case_id := id test_case;
              model_config_hash := get_config_hash config;
              execution_timestamp := utcnow clk;
              success := false;
              output := VNone;
              execution_time_ms := execution_time;
              error_message := Some e;
              quality_score := None;
              validation_details := None |}).

(** The loop of [run_statistical_validation]: one trial per environment. *)
Fixpoint run_trials (envs : list (W * Clock)) (config : AIModelConfiguration)
    (test_case : TestCase) : outcome (list TestResult) :=
  match envs with
  | [] => Ret []
  | (w, clk) :: rest =>
      result <- run_single_test w clk config test_case;;
      results <- run_trials rest config test_case;;
      Ret (result :: results)
  end.

End Tester.

(** *** "Statistical analysis" *)

(** [sum(1 for r in results if r.success) / len(results)] *)
Definition success_rate_of (results : list TestResult) : outcome Q :=
  match results with
  | [] => Raise "division by zero"
  | _ => Ret (Qlen (filter success results) / Qlen results)
  end.

Definition execution_times (results : list TestResult) : list Q :=
  map execution_time_ms results.

(** [[r.quality_score for r in results if r.quality_score is not None]] *)
Fixpoint quality_scores (results : list TestResult) : list Q :=
  match results with
  | [] => []
  | r :: rest =>
      match quality_score r with
      | Some q => q :: quality_scores rest
      | None => quality_scores rest
      end
  end.

(** [set(str(r.output) for r in results if r.output is not None)], as the
    list of its elements *)
Definition unique_outputs (results : list TestResult) : list string :=
  nodup string_dec
    (map (fun r => py_str (output r))
       (filter (fun r => is_not_None (output r)) results)).

(** [1.0 / len(unique_outputs) if unique_outputs else 0.0] *)
Definition consistency_score_of (results : list TestResult) : Q :=
  match unique_outputs results with
  | [] => 0.0
  | _ :: _ => 1.0 / Qlen (unique_outputs results)
  end.

(** [statistics.mean(l) if l else 0] *)
Definition mean_or_0 (l : list Q) : outcome Q :=
  match l with
  | [] => Ret 0
  | _ => mean l
  end.

(** [statistics.stdev(l) if len(l) > 1 else 0] *)
Definition stdev_or_0 `{Runtime} (l : list Q) : outcome Q :=
  if (1 <? List.length l)%nat then stdev l else Ret 0.

(** The dictionary returned by [run_statistical_validation]. *)
Record Statistics : Type := {
  st_test_case_id : string;
  st_config_hash : string;
  st_num_runs : nat;
  st_success_rate : Q;
  st_avg_execution_time_ms : Q;
  st_execution_time_std : Q;
  st_avg_quality_score : Q;
  st_quality_score_std : Q;
  st_consistency_score : Q;
  st_unique_outputs : nat;
  st_individual_results : list TestResult
}.

Definition statistical_analysis `{Runtime} (config : AIModelConfiguration)
    (test_case : TestCase) (num_runs : nat) (results : list TestResult)
  : outcome Statistics :=
  success_rate <- success_rate_of results;;
  let consistency_score := consistency_score_of results in
  avg_time <- mean_or_0 (execution_times results);;
  time_std <- stdev_or_0 (execution_times results);;
  avg_quality <- mean_or_0 (quality_scores results);;
  quality_std <- stdev_or_0 (quality_scores results);;
  Ret {| st_test_case_id := id test_case;
         st_config_hash := get_config_hash config;
         st_num_runs := num_runs;
         st_success_rate := success_rate;
         st_avg_execution_time_ms := avg_time;
         st_execution_time_std := time_std;
         st_avg_quality_score := avg_quality;
         st_quality_score_std := quality_std;
         st_consistency_score := consistency_score;
         st_unique_outputs := List.length (unique_outputs results);
         st_individual_results := results |}.

(** [env run] is the outside world and the clock of trial number [run]. *)
Definition run_statistical_validation `{Runtime} {W} `{AISystemInterface W}
    (env : nat -> W * Clock) (config : AIModelConfiguration)
    (test_case : TestCase) (num_runs : nat) : outcome Statistics :=
  results <- run_trials (map env (seq 0 num_runs)) config test_case;;
  statistical_analysis config test_case num_runs results.

(** *** The results of a test suite *)

(** One value of [config_results["test_case_results"]]: the dictionary of
    [run_statistical_validation], or the two-key dictionary of a single
    run. *)
Inductive TestCaseEntry : Type :=
| StatisticalEntry (s : Statistics)
| SingleEntry (rate : Q) (individual_results : list TestResult).

(** [entry["success_rate"]] *)
Definition entry_success_rate (e : TestCaseEntry) : Q :=
  match e with
  | StatisticalEntry s => st_success_rate s
  | SingleEntry rate _ => rate
  end.

Record OverallMetrics : Type := {
  overall_success_rate : Q;
  tests_passed : nat;
  tests_failed : nat;
  avg_consistency : Q
}.

Record ConfigResults : Type := {
  configuration : AIModelConfiguration;
  test_case_results : list (string * TestCaseEntry);
  overall_metrics : OverallMetrics
}.

(** [test_suite_results["configuration_results"]]: the items of the
    dictionary keyed by configuration hash, in insertion order. *)
Definition ConfigurationResults : Type := list (string * ConfigResults).

(** *** [_analyze_model_comparison] *)

(** One entry of [config_performance]. *)
Record ConfigPerformance : Type := {
  cp_config_hash : string;
  cp_model_id : string;
  cp_overall_success_rate : Q;
  cp_avg_consistency : Q;
  cp_tests_passed : nat
}.

Definition config_performance_of (item : string * ConfigResults)
  : ConfigPerformance :=
  let '(config_hash, results) := item in
  {| cp_config_hash := config_hash;
     cp_model_id := model_id (configuration results);
     cp_overall_success_rate := overall_success_rate (overall_metrics results);
     cp_avg_consistency := avg_consistency (overall_metrics results);
     cp_tests_passed := tests_passed (overall_metrics results) |}.

(** [l.sort(key=lambda x: x["overall_success_rate"], reverse=True)]: the
    stable sort of the list by decreasing key. An element goes in front of
    the first later element whose key is not greater than its own. *)
Fixpoint insert_by_rate (x : ConfigPerformance) (l : list ConfigPerformance)
  : list ConfigPerformance :=
  match l with
  | [] => [x]
  | h :: t =>
      if Qgtb (cp_overall_success_rate h) (cp_overall_success_rate x)
      then h :: insert_by_rate x t
      else x :: l
  end.

Definition sort_by_rate_desc (l : list ConfigPerformance)
  : list ConfigPerformance :=
  fold_right insert_by_rate [] l.

Definition Qmaximum (x : Q) (l : list Q) : Q :=
  fold_left (fun m y => if Qgtb y m then y else m) l x.

Definition Qminimum (x : Q) (l : list Q) : Q :=
  fold_left (fun m y => if Qgtb m y then y else m) l x.

Record Comparison : Type := {
  best_overall_configuration : option ConfigPerformance;
  configuration_rankings : list ConfigPerformance;
  performance_insights : list string
}.

Definition _analyze_model_comparison `{Runtime}
    (config_results : ConfigurationResults) : Comparison :=
  let config_performance :=
    sort_by_rate_desc (map config_performance_of config_results) in
  match config_performance with
  | [] =>
      {| best_overall_configuration := None;
         configuration_rankings := config_performance;
         performance_insights := [] |}
  | best :: _ =>
      let best_rate := cp_overall_success_rate best in
      let worst_rate := cp_overall_success_rate (last config_performance best) in
      let consistency_scores := map cp_avg_consistency config_performance in
      {| best_overall_configuration := Some best;
         configuration_rankings := config_performance;
         performance_insights :=
           (if Qgtb (best_rate - worst_rate) 0.2
            then [("Significant performance difference: "
                     ++ format_percent best_rate ++ " vs "
                     ++ format_percent worst_rate)%string]
            else [])
           ++ (if Qgtb (Qmaximum (cp_avg_consistency best) consistency_scores
                        - Qminimum (cp_avg_consistency best) consistency_scores)
                       0.3
               then ["Large consistency variations between configurations"]
               else []) |}
  end.

(** *** [_analyze_test_case_difficulty] *)

(** [if k not in d: d[k] = []] followed by [d[k].append(v)] *)
Fixpoint dict_append (k : string) (v : Q) (d : list (string * list Q))
  : list (string * list Q) :=
  match d with
  | [] => [(k, [v])]
  | (k', vs) :: t =>
      if (k' =? k)%string then (k', (vs ++ [v])%list) :: t
      else (k', vs) :: dict_append k v t
  end.

(** "Aggregate results by test case" *)
Definition test_case_performance_of (config_results : ConfigurationResults)
  : list (string * list Q) :=
  fold_left
    (fun perf item =>
       fold_left
         (fun perf entry =>
            dict_append (fst entry) (entry_success_rate (snd entry)) perf)
         (test_case_results (snd item)) perf)
    config_results [].

(** ["easy" if avg > 0.8 else "medium" if avg > 0.5 else "hard"] *)
Definition difficulty_level_of (avg_success_rate : Q) : string :=
  if Qgtb avg_success_rate 0.8 then "easy"
  else if Qgtb avg_success_rate 0.5 then "medium"
  else "hard".

Record DifficultyEntry : Type := {
  avg_success_rate : Q;
  consistency_across_models : Q;
  difficulty_assessment : string;
  success_rates_by_config : list Q
}.

Definition analyze_one `{Runtime} (success_rates : list Q)
  : outcome DifficultyEntry :=
  avg <- mean success_rates;;
  consistency <-
    (if (1 <? List.length success_rates)%nat
     then (sd <- stdev success_rates;; Ret (1.0 - sd))
     else Ret 1.0);;
  let difficulty_level := difficulty_level_of avg in
  Ret {| avg_success_rate := avg;
         consistency_across_models := consistency;
         difficulty_assessment := difficulty_level;
         success_rates_by_config := success_rates |}.

Fixpoint analyze_all `{Runtime} (perf : list (string * list Q))
  : outcome (list (string * DifficultyEntry)) :=
  match perf with
  | [] => Ret []
  | (test_case_id, success_rates) :: rest =>
      entry <- analyze_one success_rates;;
      entries <- analyze_all rest;;
      Ret ((test_case_id, entry) :: entries)
  end.

Definition _analyze_test_case_difficulty `{Runtime}
    (config_results : ConfigurationResults)
  : outcome (list (string * DifficultyEntry)) :=
  analyze_all (test_case_performance_of config_results).

(** *** The tester's state *)

Record Tester : Type := {
  test_results : list TestResult;
  configurations : list AIModelConfiguration;
  test_cases : list TestCase
}.

(** [__init__] *)
Definition new_tester : Tester :=
  {| test_results := []; configurations := []; test_cases := [] |}.

Definition add_configuration (self : Tester) (config : AIModelConfiguration)
  : Tester :=
  {| test_results := test_results self;
     configurations := (configurations self ++ [config])%list;
     test_cases := test_cases self |}.

Definition add_test_case (self : Tester) (test_case : TestCase) : Tester :=
  {| test_results := test_results self;
     configurations := configurations self;
     test_cases := (test_cases self ++ [test_case])%list |}.

(** *** [_calculate_summary_statistics] *)

Record SummaryStatistics : Type := {
  overall_avg_success_rate : Q;
  success_rate_std : Q;
  overall_avg_consistency : Q;
  consistency_std : Q;
  total_tests_executed : nat;
  sm_configurations_tested : nat
}.

Definition _calculate_summary_statistics `{Runtime}
    (config_results : ConfigurationResults) : outcome SummaryStatistics :=
  let all_success_rates :=
    map (fun item => overall_success_rate (overall_metrics (snd item)))
      config_results in
  let all_consistency_scores :=
    map (fun item => avg_consistency (overall_metrics (snd item)))
      config_results in
  avg_rate <- mean_or_0 all_success_rates;;
  rate_std <- stdev_or_0 all_success_rates;;
  avg_cons <- mean_or_0 all_consistency_scores;;
  cons_std <- stdev_or_0 all_consistency_scores;;
  Ret {| overall_avg_success_rate := avg_rate;
         success_rate_std := rate_std;
         overall_avg_consistency := avg_cons;
         consistency_std := cons_std;
         total_tests_executed :=
           fold_right Nat.add 0%nat
             (map (fun item => List.length (test_case_results (snd item)))
                config_results);
         sm_configurations_tested := List.length config_results |}.

(** *** [run_comprehensive_test_suite] *)

(** [d[k] = v]: the value of an existing key is replaced in place, a new
    key is added at the end. *)
Fixpoint dict_set {A} (k : string) (v : A) (d : list (string * A))
  : list (string * A) :=
  match d with
  | [] => [(k, v)]
  | (k', v') :: t =>
      if (k' =? k)%string then (k', v) :: t else (k', v') :: dict_set k v t
  end.

(** [r.get("consistency_score", 0)] *)
Definition entry_consistency (e : TestCaseEntry) : Q :=
  match e with
  | StatisticalEntry s => st_consistency_score s
  | SingleEntry _ _ => 0
  end.

(** "Calculate overall metrics for this configuration" *)
Definition overall_metrics_of (test_results : list (string * TestCaseEntry))
  : outcome OverallMetrics :=
  let rates := map (fun item => entry_success_rate (snd item)) test_results in
  overall_success_rate <- mean rates;;
  avg_consistency <-
    mean (map (fun item => entry_consistency (snd item)) test_results);;
  Ret {| overall_success_rate := overall_success_rate;
         tests_passed := List.length (filter (fun r => Qle_bool 0.8 r) rates);
         tests_failed := List.length (filter (fun r => Qgtb 0.8 r) rates);
         avg_consistency := avg_consistency |}.

Record TestMetadata : Type := {
  md_start_time : string;
  md_configurations_tested : nat;
  md_test_cases : nat;
  md_statistical_runs_per_test : Z;
  md_end_time : string
}.

Record TestSuiteResults : Type := {
  test_metadata : TestMetadata;
  configuration_results : ConfigurationResults;
  test_case_analysis : list (string * DifficultyEntry);
  model_comparison : Comparison;
  summary_statistics : SummaryStatistics
}.

Section Suite.
Context `{Runtime} {W : Type} `{AISystemInterface W}.

(** The body of the loop over test cases: [env run] is the outside world
    and the clock of trial number [run] for this configuration and test
    case. The first component is the new value of [self.test_results]. *)
Definition run_test_case (env : nat -> W * Clock) (statistical_runs : Z)
    (config : AIModelConfiguration) (test_case : TestCase)
    (recorded : list TestResult)
  : list TestResult * outcome TestCaseEntry :=
  if (1 <? statistical_runs)%Z then
    (recorded,
     statistical_result <-
       run_statistical_validation env config test_case
         (Z.to_nat statistical_runs);;
     Ret (StatisticalEntry statistical_result))
  else
    match run_single_test (fst (env 0%nat)) (snd (env 0%nat)) config test_case
    with
    | Ret single_result =>
        ((recorded ++ [single_result])%list,
         Ret (SingleEntry (if success single_result then 1.0 else 0.0)
                [single_result]))
    | Raise e => (recorded, Raise e)
    end.

(** "Test each test case with this configuration": the test cases from
    index [i] on. *)
Fixpoint run_test_cases (env : nat -> nat -> W * Clock) (statistical_runs : Z)
    (config : AIModelConfiguration) (cases : list TestCase) (i : nat)
    (results : list (string * TestCaseEntry)) (recorded : list TestResult)
  : list TestResult * outcome (list (string * TestCaseEntry)) :=
  match cases with
  | [] => (recorded, Ret results)
  | test_case :: rest =>
      match run_test_case (env i) statistical_runs config test_case recorded
      with
      | (recorded', Ret entry) =>
          run_test_cases env statistical_runs config rest (S i)
            (dict_set (id test_case) entry results) recorded'
      | (recorded', Raise e) => (recorded', Raise e)
      end
  end.

(** "Test each configuration": the configurations from index [c] on. *)
Fixpoint run_configurations (env : nat -> nat -> nat -> W * Clock)
    (statistical_runs : Z) (cases : list TestCase)
    (configs : list AIModelConfiguration) (c : nat)
    (config_results : ConfigurationResults) (recorded : list TestResult)
  : list TestResult * outcome ConfigurationResults :=
  match configs with
  | [] => (recorded, Ret config_results)
  | config :: rest =>
      match run_test_cases (env c) statistical_runs config cases 0%nat []
              recorded
      with
      | (recorded', Ret results) =>
          match overall_metrics_of results with
          | Ret metrics =>
              run_configurations env statistical_runs cases rest (S c)
                (dict_set (get_config_hash config)
                   {| configuration := config;
                      test_case_results := results;
                      overall_metrics := metrics |}
                   config_results)
                recorded'
          | Raise e => (recorded', Raise e)
          end
      | (recorded', Raise e) => (recorded', Raise e)
      end
  end.

(** [env c t run] is the outside world and the clock of trial [run] of
    test case number [t] under configuration number [c]; [start_time] and
    [end_time] are the two readings of [datetime.utcnow().isoformat()]. The
    first component of the result is the final [self.test_results]. *)
Definition run_comprehensive_test_suite (env : nat -> nat -> nat -> W * Clock)
    (start_time end_time : string) (self : Tester) (statistical_runs : Z)
  : list TestResult * outcome TestSuiteResults :=
  match run_configurations env statistical_runs (test_cases self)
          (configurations self) 0%nat [] (test_results self)
  with
  | (recorded, Ret config_results) =>
      (recorded,
       let comparison := _analyze_model_comparison config_results in
       analysis <- _analyze_test_case_difficulty config_results;;
       summary <- _calculate_summary_statistics config_results;;
       Ret {| test_metadata :=
                {| md_start_time := start_time;
                   md_configurations_tested :=
                     List.length (configurations self);
                   md_test_cases := List.length (test_cases self);
                   md_statistical_runs_per_test := statistical_runs;
                   md_end_time := end_time |};
              configuration_results := config_results;
              test_case_analysis := analysis;
              model_comparison := comparison;
              summary_statistics := summary |})
  | (recorded, Raise e) => (recorded, Raise e)
  end.

End Suite.

(** *** [generate_test_report] *)

Definition str_of_nat (n : nat) : string :=
  NilZero.string_of_int (Z.to_int (Z.of_nat n)).

(** [s * n] *)
Fixpoint str_repeat (s : string) (n : nat) : string :=
  match n with
  | O => EmptyString
  | S m => (s ++ str_repeat s m)%string
  end.

(** [["🥇", "🥈", "🥉"][i] if i < 3 else f"{i+1}."] *)
Definition rank_emoji (i : nat) : string :=
  match i with
  | 0%nat => "🥇"
  | 1%nat => "🥈"
  | 2%nat => "🥉"
  | _ => (str_of_nat (i + 1) ++ ".")%string
  end.

(** [[tid for tid, data in difficulty.items()
      if data["difficulty_assessment"] == level]] *)
Definition tests_assessed (level : string)
    (difficulty : list (string * DifficultyEntry)) : list string :=
  map fst
    (filter (fun item => (difficulty_assessment (snd item) =? level)%string)
       difficulty).

(** [f"({len(tests)}): {', '.join(tests[:3])}{'...' if len(tests) > 3 else ''}"] *)
Definition tests_summary (tests : list string) : string :=
  ("(" ++ str_of_nat (List.length tests) ++ "): "
       ++ concat ", " (firstn 3 tests)
       ++ (if (3 <? List.length tests)%nat then "..." else ""))%string.

Fixpoint ranking_lines `{Runtime} (i : nat) (rankings : list ConfigPerformance)
  : list string :=
  match rankings with
  | [] => []
  | config :: rest =>
      (rank_emoji i ++ " " ++ cp_model_id config
         ++ " (" ++ cp_config_hash config ++ "): "
         ++ format_percent (cp_overall_success_rate config) ++ " success, "
         ++ format_percent (cp_avg_consistency config) ++ " consistency")%string
      :: ranking_lines (S i) rest
  end.

Definition report_lines `{Runtime} (test_suite_results : TestSuiteResults)
  : list string :=
  let metadata := test_metadata test_suite_results in
  let summary := summary_statistics test_suite_results in
  let comparison := model_comparison test_suite_results in
  let difficulty := test_case_analysis test_suite_results in
  [ "🧪 AI SYSTEM TESTING REPORT";
    str_repeat "=" 50;
    "";
    "📊 SUMMARY STATISTICS";
    ("Test Duration: " ++ md_start_time metadata ++ " to "
       ++ md_end_time metadata)%string;
    ("Configurations Tested: "
       ++ str_of_nat (sm_configurations_tested summary))%string;
    ("Total Tests Executed: "
       ++ str_of_nat (total_tests_executed summary))%string;
    ("Overall Success Rate: "
       ++ format_percent (overall_avg_success_rate summary))%string;
    ("Average Consistency: "
       ++ format_percent (overall_avg_consistency summary))%string;
    "";
    "🏆 MODEL COMPARISON RESULTS" ]
  ++ ranking_lines 0 (configuration_rankings comparison)
  ++ [ "" ]
  ++ match performance_insights comparison with
     | [] => []
     | insights =>
         "💡 KEY INSIGHTS"
         :: map (fun insight => ("• " ++ insight)%string) insights ++ [ "" ]
     end
  ++ [ "📈 TEST CASE DIFFICULTY ANALYSIS";
       ("✅ Easy Tests " ++ tests_summary (tests_assessed "easy" difficulty))%string;
       ("⚠️  Medium Tests "
          ++ tests_summary (tests_assessed "medium" difficulty))%string;
       ("❌ Hard Tests " ++ tests_summary (tests_assessed "hard" difficulty))%string ].

(** The returned report; writing it to [output_file] is not modelled. *)
Definition generate_test_report `{Runtime}
    (test_suite_results : TestSuiteResults) : string :=
  concat (String (ascii_of_nat 10) EmptyString) (report_lines test_suite_results).

End AISystemTester.

(** ** The [__main__] block *)

Module Main.

(** [needle in s] *)
Definition str_contains (needle s : string) : bool :=
  match index 0 needle s with
  | Some _ => true
  | None => false
  end.

(** The custom validation function for mathematical outputs.
    [re.findall(p, s)] is non-empty exactly when [re.search(p, s)] finds a
    match; whatever the search raises is swallowed by the bare [except]. *)
Definition validate_mathematical_output `{Runtime} (output : Value)
    (test_case : TestCaseData) : outcome CustomResult :=
  let output_str := py_str output in
  let issues : list string := [] in
  let quality_multiplier := 1.0 in
  let '(issues, quality_multiplier) :=
    if str_contains "x /. First[" output_str
    then ((issues ++ ["Contains unevaluated Wolfram expressions"])%list,
          quality_multiplier * 0.5)
    else (issues, quality_multiplier) in
  let '(issues, quality_multiplier) :=
    match re_search "-?\d+\.?\d*" output_str with
    | Ret false =>
        ((issues ++ ["No numeric values found in output"])%list,
         quality_multiplier * 0.7)
    | _ => (issues, quality_multiplier)
    end in
  Ret (CustomDict (Some (List.length issues =? 0)%nat) (Some issues)
         (Some quality_multiplier)).

Definition test_case_of `{Runtime} (id name input : string)
    (pattern : option string) (type category : string) : TestCase :=
  {| data := {| id := id; name := name; input_data := VStr input;
                expected_output_pattern := pattern;
                expected_output_type := type;
                difficulty_level := "medium";
                category := category;
                metadata := [] |};
     validation_function := Some validate_mathematical_output |}.

Definition sample_test_cases `{Runtime} : list TestCase :=
  [ test_case_of "mathematical_distance" "Distance Calculation"
      "Calculate distance between points A(2,3) and B(8,7)"
      (Some "\d+\.?\d*") "numeric" "geometry";
    test_case_of "quadratic_optimization" "Quadratic Function Maximum"
      "Find maximum value of f(x) = -x² + 6x + 2"
      None "numeric" "calculus";
    test_case_of "equation_solving" "Linear Equation System"
      "Solve: 2x + 3y = 7 and x - y = 1"
      (Some "\{.*\}") "any" "algebra" ].

Definition configuration_of (model_id model_version : string)
  : AIModelConfiguration :=
  {| model_id := model_id;
     model_version := model_version;
     temperature := 0.3;
     top_k := Some 40%Z;
     top_p := Some 0.95;
     max_output_tokens := 3000;
     system_instruction := None;
     response_format := "text";
     response_schema := None |}.

Definition sample_configurations : list AIModelConfiguration :=
  [ configuration_of "ai-model-pro" "v1.0";
    configuration_of "ai-model-flash" "v1.0";
    configuration_of "ai-model-flash-lite" "preview-06-17" ].

End Main.

(** * The vocabulary of the properties *)

Import AISystemTester.

(** ** Configuration identifier *)

(** The order of [sorted] on keys. *)
Definition key_le {A} (a b : string * A) : Prop :=
  (fst a <=? fst b)%string = true.

(** The two configurations agree on every field. *)
Definition same_attributes (c1 c2 : AIModelConfiguration) : Prop :=
  model_id c1 = model_id c2
  /\ model_version c1 = model_version c2
  /\ temperature c1 = temperature c2
  /\ top_k c1 = top_k c2
  /\ top_p c1 = top_p c2
  /\ max_output_tokens c1 = max_output_tokens c2
  /\ system_instruction c1 = system_instruction c2
  /\ response_format c1 = response_format c2
  /\ response_schema c1 = response_schema c2.

(** Equality of JSON values as Python compares them, for values of the
    same shape: two dictionaries are equal when they hold the same items,
    in whatever order they were inserted. *)
Inductive json_equiv : json -> json -> Prop :=
| equiv_refl j : json_equiv j j
| equiv_list l l' : Forall2 json_equiv l l' -> json_equiv (JList l) (JList l')
| equiv_dict d d' d'' :
    Forall2 (fun a b => fst a = fst b /\ json_equiv (snd a) (snd b)) d d' ->
    Permutation d' d'' ->
    json_equiv (JDict d) (JDict d'').

(** Every dictionary inside [j] has pairwise distinct keys (as every Python
    [dict] does). *)
Fixpoint unique_keys (j : json) : Prop :=
  match j with
  | JList l => fold_right (fun x acc => unique_keys x /\ acc) True l
  | JDict d =>
      NoDup (map fst d)
      /\ fold_right (fun kv acc => unique_keys (snd kv) /\ acc) True d
  | _ => True
  end.

(** The two configurations agree on every field, the schemas as Python
    compares dictionaries. *)
Definition equal_attributes (c1 c2 : AIModelConfiguration) : Prop :=
  model_id c1 = model_id c2
  /\ model_version c1 = model_version c2
  /\ temperature c1 = temperature c2
  /\ top_k c1 = top_k c2
  /\ top_p c1 = top_p c2
  /\ max_output_tokens c1 = max_output_tokens c2
  /\ system_instruction c1 = system_instruction c2
  /\ response_format c1 = response_format c2
  /\ json_equiv (optional JDict (response_schema c1))
       (optional JDict (response_schema c2)).

(** ** Outcome validator *)

Section ValidatorVocabulary.
Context `{Runtime}.

(** The type check finds nothing to object to. *)
Definition type_check_passes (output : Value) (test_case : TestCase) : bool :=
  if (expected_output_type test_case =? "json")%string
  then json_loads_ok (py_str output)
  else if (expected_output_type test_case =? "numeric")%string
       then float_ok (py_str output)
       else true.

(** The verdict of the pattern check: [true] when no pattern is given. *)
Definition pattern_found (output : Value) (test_case : TestCase)
  : outcome bool :=
  if ProductionAISystem.truthy_str (expected_output_pattern test_case)
  then re_search (default "" (expected_output_pattern test_case))
         (py_str output)
  else Ret true.

(** The multipliers the three checks contribute to the quality score. *)
Definition type_multiplier (output : Value) (test_case : TestCase) : Q :=
  if type_check_passes output test_case then 1 else 0.5.

Definition pattern_multiplier (found : bool) : Q :=
  if found then 1 else 0.7.

Definition custom_multiplier (output : Value) (test_case : TestCase) : Q :=
  match validation_function test_case with
  | None => 1
  | Some f =>
      match f output (data test_case) with
      | Ret (CustomDict _ _ quality_multiplier) => default 1 quality_multiplier
      | Ret (CustomOther truthy) => if truthy then 1 else 0.3
      | Raise _ => 0.8
      end
  end.

(** The verdict of the custom validation: a dictionary decides by its
    ["valid"] item (absent counts as true), any other object by its
    truthiness; no function, or a function that raises, objects to
    nothing. *)
Definition custom_accepts (output : Value) (test_case : TestCase) : bool :=
  match validation_function test_case with
  | None => true
  | Some f =>
      match f output (data test_case) with
      | Ret (CustomDict valid _ _) => default true valid
      | Ret (CustomOther truthy) => truthy
      | Raise _ => true
      end
  end.

End ValidatorVocabulary.

(** ** One trial *)

Section TrialVocabulary.
Context `{Runtime}.

(** The result recorded for a failure with reason [e], measured at [t]. *)
Definition failure_result (clk : Clock) (config : AIModelConfiguration)
    (test_case : TestCase) (t : Q) (e : string) : TestResult :=
  {| test_case_id := id test_case;
     model_config_hash := get_config_hash config;
     execution_timestamp := utcnow clk;
     success := false;
     output := VNone;
     execution_time_ms := (t - t_start clk) * 1000;
     error_message := Some e;
     quality_score := None;
     validation_details := None |}.

(** The result recorded when the call succeeded with output [out] and the
    validator returned [vr]. *)
Definition validated_result (clk : Clock) (config : AIModelConfiguration)
    (test_case : TestCase) (out : Value) (vr : ValidationResult)
  : TestResult :=
  {| test_case_id := id test_case;
     model_config_hash := get_config_hash config;
     execution_timestamp := utcnow clk;
     success := vr_valid vr;
     output := out;
     execution_time_ms := (t_returned clk - t_start clk) * 1000;
     error_message := None;
     quality_score := Some (vr_quality_score vr);
     validation_details := Some vr |}.

End TrialVocabulary.

(** ** Statistical analysis *)

(** [u] lists, without repetition, the stringified outputs of the trials
    that have an output. *)
Definition distinct_outputs (results : list TestResult) (u : list string)
  : Prop :=
  NoDup u
  /\ forall s, In s u <->
       exists r, In r results /\ output r <> VNone /\ py_str (output r) = s.

(** [u] lists, without repetition, the stringified outputs of the
    successful trials. *)
Definition distinct_successful_outputs (results : list TestResult)
    (u : list string) : Prop :=
  NoDup u
  /\ forall s, In s u <->
       exists r, In r results /\ success r = true /\ py_str (output r) = s.

(** [q is not None] *)
Definition is_defined (o : option Q) : bool :=
  match o with
  | Some _ => true
  | None => false
  end.

(** [qs] lists the quality values of the trials whose quality is defined,
    in trial order. *)
Definition defined_qualities (results : list TestResult) (qs : list Q)
  : Prop :=
  map Some qs = filter is_defined (map quality_score results).

(** ** Comparative analysis *)

(** [a] may stand in front of [b]: its success rate is not lower. *)
Definition ranks_before (a b : ConfigPerformance) : Prop :=
  cp_overall_success_rate b <= cp_overall_success_rate a.

(** The entries whose success rate equals [r], in list order. *)
Definition with_rate (r : Q) (l : list ConfigPerformance)
  : list ConfigPerformance :=
  filter (fun c => Qeq_bool (cp_overall_success_rate c) r) l.

(** The entries of all configurations, in iteration order. *)
Definition all_entries (config_results : ConfigurationResults)
  : list (string * TestCaseEntry) :=
  flat_map (fun item => test_case_results (snd item)) config_results.

(** The success rates recorded for test case [tid] among the entries. *)
Definition rates_in (tid : string) (entries : list (string * TestCaseEntry))
  : list Q :=
  map (fun e => entry_success_rate (snd e))
    (filter (fun e => (fst e =? tid)%string) entries).

(** The success rates of test case [tid] across all configurations. *)
Definition success_rates_of (tid : string)
    (config_results : ConfigurationResults) : list Q :=
  rates_in tid (all_entries config_results).

(** The order [hard < medium < easy]. *)
Definition difficulty_rank (level : string) : nat :=
  if (level =? "hard")%string then 0
  else if (level =? "medium")%string then 1
  else 2.

(** ** The test suite *)

(** The shape of an entry the suite records when it is asked for
    [statistical_runs] runs per test: the summary of that many trials when
    the number exceeds 1, a single trial otherwise. *)
Definition entry_of_mode (statistical_runs : Z) (e : TestCaseEntry) : Prop :=
  match e with
  | StatisticalEntry s =>
      (1 < statistical_runs)%Z
      /\ st_num_runs s = Z.to_nat statistical_runs
      /\ List.length (st_individual_results s) = Z.to_nat statistical_runs
  | SingleEntry rate individual =>
      (statistical_runs <= 1)%Z
      /\ exists r, individual = [r] /\ rate = (if success r then 1.0 else 0.0)
  end.

(** The success rate and the consistency of the entry lie in [0,1]. *)
Definition entry_in_range (e : TestCaseEntry) : Prop :=
  0 <= entry_success_rate e <= 1 /\ 0 <= entry_consistency e <= 1.

(** The identifiers of the test cases, in order. *)
Definition test_case_ids (cases : list TestCase) : list string :=
  map (fun test_case : TestCase => id test_case) cases.

(** What the suite records for one configuration out of [configs], run
    against the test cases [cases]. *)
Definition recorded_for `{Runtime} (statistical_runs : Z)
    (cases : list TestCase) (configs : list AIModelConfiguration)
    (item : string * ConfigResults) : Prop :=
  (exists config,
     In config configs
     /\ configuration (snd item) = config
     /\ fst item = get_config_hash config)
  /\ NoDup (map fst (test_case_results (snd item)))
  /\ (forall tid, In tid (map fst (test_case_results (snd item)))
                  <-> In tid (test_case_ids cases))
  /\ (forall e, In e (test_case_results (snd item)) ->
         entry_of_mode statistical_runs (snd e) /\ entry_in_range (snd e))
  /\ (tests_passed (overall_metrics (snd item))
      + tests_failed (overall_metrics (snd item)))%nat
     = List.length (test_case_results (snd item))
  /\ mean (map (fun e => entry_success_rate (snd e))
             (test_case_results (snd item)))
     = Ret (overall_success_rate (overall_metrics (snd item)))
  /\ 0 <= overall_success_rate (overall_metrics (snd item)) <= 1
  /\ 0 <= avg_consistency (overall_metrics (snd item)) <= 1
  /\ ((statistical_runs <= 1)%Z ->
      avg_consistency (overall_metrics (snd item)) == 0).

(** * Sample data

    The configurations of the module's [__main__] block, a test case, and
    small systems under test, for evaluating the definitions above. *)

Module Samples.

Import AISystemTester.

Definition all_digits (s : string) : bool :=
  negb (s =? "")%string
  && forallb (fun a => (48 <=? nat_of_ascii a)%nat && (nat_of_ascii a <=? 57)%nat)
       (list_ascii_of_string s).

Definition dquote : string := String (ascii_of_nat 34) EmptyString.

(** A runtime for the examples: [re.search] for patterns without
    metacharacters is substring search, digit strings parse as numbers and
    as JSON. The remaining routines are not reached by the examples. *)
Definition sample_runtime : Runtime := {|
  md5_hexdigest := fun s => s;
  float_repr := fun _ => "0.0";
  json_quote := fun s => dquote ++ s ++ dquote;
  json_loads_ok := all_digits;
  float_ok := all_digits;
  re_search := fun pattern s =>
    Ret (match index 0 pattern s with Some _ => true | None => false end);
  py_sqrt := fun q => q;
  format_percent := fun _ => "%"
|}.

Definition model_pro : AIModelConfiguration := {|
  model_id := "ai-model-pro";
  model_version := "v1.0";
  temperature := 0.3;
  top_k := Some 40%Z;
  top_p := Some 0.95;
  max_output_tokens := 3000;
  system_instruction := None;
  response_format := "text";
  response_schema := None
|}.

Definition model_flash : AIModelConfiguration := {|
  model_id := "ai-model-flash";
  model_version := "v1.0";
  temperature := 0.3;
  top_k := Some 40%Z;
  top_p := Some 0.95;
  max_output_tokens := 3000;
  system_instruction := None;
  response_format := "text";
  response_schema := None
|}.

Definition addition_data : TestCaseData := {|
  id := "addition";
  name := "Addition";
  input_data := VStr "What is 2 + 2?";
  expected_output_pattern := Some "4";
  expected_output_type := "numeric";
  difficulty_level := "medium";
  category := "general";
  metadata := []
|}.

(** The output must be numeric and contain [4]. *)
Definition addition : TestCase := {|
  data := addition_data;
  validation_function := None
|}.

(** No type or pattern expectation, and a custom function that raises. *)
Definition crashing_case : TestCase := {|
  data := {| id := "crash"; name := "Crashing validator";
             input_data := VStr "ping";
             expected_output_pattern := None;
             expected_output_type := "any";
             difficulty_level := "medium"; category := "general";
             metadata := [] |};
  validation_function := Some (fun _ _ => Raise "division by zero")
|}.

(** A custom function that returns a quality multiplier of 2. *)
Definition generous_case : TestCase := {|
  data := {| id := "generous"; name := "Generous validator";
             input_data := VStr "ping";
             expected_output_pattern := None;
             expected_output_type := "any";
             difficulty_level := "medium"; category := "general";
             metadata := [] |};
  validation_function :=
    Some (fun _ _ => Ret (CustomDict (Some true) None (Some 2.0)))
|}.

(** The service answers 200 with the given output. *)
Definition answers (out : string) : ProductionAISystem.World :=
  fun _ =>
    Ret {| ProductionAISystem.status := 200;
           ProductionAISystem.response_json := Ret [("output", VStr out)];
           ProductionAISystem.response_text := Ret "" |}.

(** The request times out. *)
Definition times_out : ProductionAISystem.World :=
  fun _ => Raise "TimeoutError".

(** The service rejects the request. *)
Definition rejects : ProductionAISystem.World :=
  fun _ =>
    Ret {| ProductionAISystem.status := 429;
           ProductionAISystem.response_json := Raise "not JSON";
           ProductionAISystem.response_text := Ret "rate limited" |}.

Definition clock : Clock :=
  {| t_start := 10; t_returned := 10.25; t_handler := 10.5;
     utcnow := "2024-01-01T00:00:00" |}.

(** Three trials answering [4], [5], [4]. *)
Definition env_4_5_4 (run : nat) : ProductionAISystem.World * Clock :=
  (answers (match run with 1%nat => "5" | _ => "4" end), clock).

(** Every trial times out. *)
Definition env_down (run : nat) : ProductionAISystem.World * Clock :=
  (times_out, clock).

(** A system under test whose call raises. *)
Definition raising_system : AISystemInterface unit := {|
  call_ai_system := fun _ _ _ => Raise "connection reset";
  validate_output := fun _ _ =>
    Ret {| vr_valid := true; vr_issues := []; vr_quality_score := 1.0 |}
|}.

Definition result_of (out : string) (ok : bool) (issues : list string)
    (q : Q) : TestResult :=
  {| test_case_id := "addition";
     model_config_hash := @get_config_hash sample_runtime model_pro;
     execution_timestamp := "2024-01-01T00:00:00";
     success := ok;
     output := VStr out;
     execution_time_ms := (10.25 - 10) * 1000;
     error_message := None;
     quality_score := Some q;
     validation_details :=
       Some {| vr_valid := ok; vr_issues := issues; vr_quality_score := q |} |}.

(** The results of the three trials of [env_4_5_4] on [addition]: the
    answer [5] is rejected by the pattern check. *)
Definition results_4_5_4 : list TestResult :=
  [ result_of "4" true [] 1.0;
    result_of "5" false ["Output does not match pattern: 4"] (1.0 * 0.7);
    result_of "4" true [] 1.0 ].

Definition failed_result : TestResult :=
  {| test_case_id := "addition";
     model_config_hash := @get_config_hash sample_runtime model_pro;
     execution_timestamp := "2024-01-01T00:00:00";
     success := false;
     output := VNone;
     execution_time_ms := (10.25 - 10) * 1000;
     error_message := Some "TimeoutError";
     quality_score := None;
     validation_details := None |}.

(** The results of three trials that all time out. *)
Definition results_down : list TestResult :=
  [failed_result; failed_result; failed_result].

Definition metrics (rate consistency : Q) (passed failed : nat)
  : OverallMetrics :=
  {| overall_success_rate := rate; tests_passed := passed;
     tests_failed := failed; avg_consistency := consistency |}.

(** Two configurations with the same success rate; the second one is the
    more consistent. *)
Definition tied_results : ConfigurationResults :=
  [ ("aaaaaaaa",
     {| configuration := model_pro;
        test_case_results := [("addition", SingleEntry 1.0 [])];
        overall_metrics := metrics 1.0 0.5 1 0 |});
    ("bbbbbbbb",
     {| configuration := model_flash;
        test_case_results := [("addition", SingleEntry 1.0 [])];
        overall_metrics := metrics 1.0 1.0 1 0 |}) ].

(** Two configurations; the test case succeeds always under the first and
    never under the second: its mean success rate is 0.5. *)
Definition split_results : ConfigurationResults :=
  [ ("aaaaaaaa",
     {| configuration := model_pro;
        test_case_results := [("addition", SingleEntry 1.0 [])];
        overall_metrics := metrics 1.0 0 1 0 |});
    ("bbbbbbbb",
     {| configuration := model_flash;
        test_case_results := [("addition", SingleEntry 0.0 [])];
        overall_metrics := metrics 0.0 0 0 1 |}) ].

(** A test case whose expected output type is none of the known ones. *)
Definition structured_case : TestCase := {|
  data := {| id := "structured"; name := "Structured output";
             input_data := VStr "ping";
             expected_output_pattern := Some EmptyString;
             expected_output_type := "structured";
             difficulty_level := "medium"; category := "general";
             metadata := [] |};
  validation_function := None
|}.

Definition has_digit (s : string) : bool :=
  existsb (fun a => (48 <=? nat_of_ascii a)%nat && (nat_of_ascii a <=? 57)%nat)
    (list_ascii_of_string s).

(** As [sample_runtime], with the two number patterns of the [__main__]
    block: on ASCII text they match exactly when the text has a digit. *)
Definition math_runtime : Runtime := {|
  md5_hexdigest := fun s => s;
  float_repr := fun _ => "0.0";
  json_quote := fun s => dquote ++ s ++ dquote;
  json_loads_ok := all_digits;
  float_ok := all_digits;
  re_search := fun pattern s =>
    if (pattern =? "-?\d+\.?\d*")%string || (pattern =? "\d+\.?\d*")%string
    then Ret (has_digit s)
    else Ret (match index 0 pattern s with Some _ => true | None => false end);
  py_sqrt := fun q => q;
  format_percent := fun _ => "%"
|}.

(** The first test case of the [__main__] block. *)
Definition mathematical_distance : TestCase :=
  @Main.test_case_of math_runtime "mathematical_distance"
    "Distance Calculation"
    "Calculate distance between points A(2,3) and B(8,7)"
    (Some "\d+\.?\d*") "numeric" "geometry".

(** As [sample_runtime], with an identifier routine that tells the two
    sample configurations apart (a slice of the serialised model name). *)
Definition suite_runtime : Runtime := {|
  md5_hexdigest := fun s => substring 50 3 s;
  float_repr := fun _ => "0.0";
  json_quote := fun s => dquote ++ s ++ dquote;
  json_loads_ok := all_digits;
  float_ok := all_digits;
  re_search := fun pattern s =>
    Ret (match index 0 pattern s with Some _ => true | None => false end);
  py_sqrt := fun q => q;
  format_percent := fun _ => "%"
|}.

(** A tester with the two sample configurations and the test case
    [addition]. *)
Definition sample_tester : Tester :=
  add_test_case
    (add_configuration (add_configuration new_tester model_pro) model_flash)
    addition.

(** The service answers [4] under the first configuration and [5] under
    every other one. *)
Definition suite_env (c t run : nat) : ProductionAISystem.World * Clock :=
  (answers (match c with 0%nat => "4" | _ => "5" end), clock).

End Samples.

(** * Properties *)

(** ** Comparisons *)

Lemma Qgtb_lt x y : Qgtb x y = true <-> y < x.
Proof.
  unfold Qgtb. rewrite negb_true_iff.
  destruct (Qle_bool x y) eqn:E.
  - apply Qle_bool_iff in E. split; [discriminate | intro; lra].
  - split; [intros _ | reflexivity].
    apply Qnot_le_lt. intro H. apply Qle_bool_iff in H. congruence.
Qed.

Lemma Qgtb_le x y : Qgtb x y = false <-> x <= y.
Proof.
  unfold Qgtb. rewrite negb_false_iff. apply Qle_bool_iff.
Qed.

(** ** Difficulty classification *)

Lemma difficulty_level_cases (m : Q) :
  (0.8 < m /\ difficulty_level_of m = "easy")
  \/ (0.5 < m /\ m <= 0.8 /\ difficulty_level_of m = "medium")
  \/ (m <= 0.5 /\ difficulty_level_of m = "hard").
Proof.
  unfold difficulty_level_of.
  destruct (Qgtb m 0.8) eqn:E1.
  - left. apply Qgtb_lt in E1. auto.
  - apply Qgtb_le in E1. destruct (Qgtb m 0.5) eqn:E2.
    + right; left. apply Qgtb_lt in E2. auto.
    + right; right. apply Qgtb_le in E2. auto.
Qed.

Lemma difficulty_level_iff (m : Q) :
  (difficulty_level_of m = "easy" <-> 0.8 < m)
  /\ (difficulty_level_of m = "medium" <-> 0.5 < m /\ m <= 0.8)
  /\ (difficulty_level_of m = "hard" <-> m <= 0.5).
Proof.
  destruct (difficulty_level_cases m) as [[H E] | [(H1 & H2 & E) | [H E]]];
    rewrite E; repeat split; intros; try discriminate; try lra; auto.
Qed.

Section Grouping.

Let step (perf : list (string * list Q)) (e : string * TestCaseEntry) :=
  dict_append (fst e) (entry_success_rate (snd e)) perf.

Lemma test_case_performance_flat (config_results : ConfigurationResults) :
  test_case_performance_of config_results
  = fold_left step (all_entries config_results) [].
Proof.
  unfold test_case_performance_of, all_entries.
  generalize (@nil (string * list Q)) as acc.
  induction config_results as [| item rest IH]; intro acc; simpl.
  - reflexivity.
  - rewrite fold_left_app. apply IH.
Qed.

Lemma dict_get_append_same k v d :
  dict_get k (dict_append k v d) = Some (default [] (dict_get k d) ++ [v])%list.
Proof.
  induction d as [| [k' vs] t IH]; simpl.
  - rewrite String.eqb_refl. reflexivity.
  - destruct (k' =? k)%string eqn:E; simpl; rewrite E; auto.
Qed.

Lemma dict_get_append_other k k' v d :
  k' <> k -> dict_get k' (dict_append k v d) = dict_get k' d.
Proof.
  intro Hne. induction d as [| [k0 vs] t IH]; simpl.
  - apply String.eqb_neq in Hne. rewrite String.eqb_sym, Hne. reflexivity.
  - destruct (k0 =? k)%string eqn:E; simpl.
    + apply String.eqb_eq in E. subst k0.
      apply String.eqb_neq in Hne. rewrite String.eqb_sym, Hne. reflexivity.
    + destruct (k0 =? k')%string; auto.
Qed.

Lemma dict_append_keys k v d k' :
  In k' (map fst (dict_append k v d)) <-> k' = k \/ In k' (map fst d).
Proof.
  induction d as [| [k0 vs] t IH]; simpl.
  - intuition.
  - destruct (k0 =? k)%string eqn:E; simpl.
    + apply String.eqb_eq in E. subst. intuition.
    + rewrite IH. intuition.
Qed.

Lemma dict_append_NoDup k v d :
  NoDup (map fst d) -> NoDup (map fst (dict_append k v d)).
Proof.
  induction d as [| [k0 vs] t IH]; simpl; intro Hnd.
  - constructor; [intros [] | constructor].
  - inversion Hnd as [| ? ? Hnotin Hnd']; subst.
    destruct (k0 =? k)%string eqn:E; simpl.
    + constructor; assumption.
    + constructor; [| auto].
      rewrite dict_append_keys. intros [-> | Hin]; [| contradiction].
      rewrite String.eqb_refl in E. discriminate.
Qed.

Lemma dict_get_In {A} k (vs : A) d :
  NoDup (map fst d) -> (In (k, vs) d <-> dict_get k d = Some vs).
Proof.
  induction d as [| [k0 v0] t IH]; simpl; intro Hnd.
  - split; [intros [] | discriminate].
  - inversion Hnd as [| ? ? Hnotin Hnd']; subst.
    destruct (k0 =? k)%string eqn:E.
    + apply String.eqb_eq in E. subst k0. split.
      * intros [Heq | Hin]; [congruence |].
        exfalso. apply Hnotin. apply (in_map fst) in Hin. exact Hin.
      * intros [= ->]. auto.
    + apply String.eqb_neq in E. rewrite <- (IH Hnd'). split.
      * intros [[= ? ?] | Hin]; [contradiction | assumption].
      * auto.
Qed.

Lemma grouped_NoDup entries d :
  NoDup (map fst d) -> NoDup (map fst (fold_left step entries d)).
Proof.
  revert d. induction entries as [| e rest IH]; intros d Hnd; simpl; auto.
  apply IH. apply dict_append_NoDup. assumption.
Qed.

Lemma grouped_keys entries d k :
  In k (map fst (fold_left step entries d))
  <-> In k (map fst entries) \/ In k (map fst d).
Proof.
  revert d. induction entries as [| e rest IH]; intro d; simpl.
  - intuition.
  - rewrite IH. unfold step. rewrite dict_append_keys. intuition.
Qed.

Lemma grouped_get entries d k :
  dict_get k (fold_left step entries d)
  = match rates_in k entries with
    | [] => dict_get k d
    | rs => Some (default [] (dict_get k d) ++ rs)%list
    end.
Proof.
  revert d. induction entries as [| e rest IH]; intro d; simpl.
  - reflexivity.
  - rewrite IH. unfold rates_in. simpl.
    destruct (fst e =? k)%string eqn:E; simpl.
    + apply String.eqb_eq in E. subst k. unfold step.
      rewrite dict_get_append_same.
      destruct (map _ (filter _ rest)); simpl; [reflexivity |].
      rewrite <- app_assoc. reflexivity.
    + apply String.eqb_neq in E. unfold step.
      rewrite dict_get_append_other by congruence. reflexivity.
Qed.

(** Each test case that has an entry gets exactly one list: its success
    rates across the configurations, in iteration order. *)
Lemma test_case_performance_spec (config_results : ConfigurationResults) :
  NoDup (map fst (test_case_performance_of config_results))
  /\ (forall tid, In tid (map fst (all_entries config_results))
                  -> In tid (map fst (test_case_performance_of config_results)))
  /\ (forall tid rs, In (tid, rs) (test_case_performance_of config_results)
                     -> rs = success_rates_of tid config_results /\ rs <> []).
Proof.
  rewrite test_case_performance_flat.
  assert (Hnd : NoDup (map fst (fold_left step (all_entries config_results) []))).
  { apply grouped_NoDup. constructor. }
  split; [exact Hnd | split].
  - intros tid Hin. apply grouped_keys. auto.
  - intros tid rs Hin. apply (dict_get_In _ _ _ Hnd) in Hin.
    rewrite grouped_get in Hin. unfold success_rates_of.
    destruct (rates_in tid (all_entries config_results)) eqn:E.
    + discriminate.
    + simpl in Hin. injection Hin as <-. split; [reflexivity | discriminate].
Qed.

End Grouping.

Section Difficulty.
Context `{Runtime}.

Lemma analyze_one_returns (success_rates : list Q) :
  success_rates <> [] ->
  exists entry,
    analyze_one success_rates = Ret entry
    /\ mean success_rates = Ret (avg_success_rate entry)
    /\ difficulty_assessment entry = difficulty_level_of (avg_success_rate entry)
    /\ success_rates_by_config entry = success_rates.
Proof.
  intro Hne. unfold analyze_one.
  destruct success_rates as [| x [| y rest]]; [congruence | |];
    simpl; eexists; repeat split.
Qed.

Lemma analyze_all_returns (perf : list (string * list Q)) :
  (forall tid rs, In (tid, rs) perf -> rs <> []) ->
  exists analysis,
    analyze_all perf = Ret analysis
    /\ map fst analysis = map fst perf
    /\ forall tid entry, In (tid, entry) analysis ->
         exists rs, In (tid, rs) perf /\ analyze_one rs = Ret entry.
Proof.
  induction perf as [| [tid rs] rest IH]; intro Hne.
  - exists []. simpl. repeat split. intros ? ? [].
  - destruct IH as (analysis & Hall & Hkeys & Hentries).
    { intros t r Hin. apply (Hne t r). right. exact Hin. }
    destruct (analyze_one_returns rs) as (entry & Hone & _).
    { apply (Hne tid). left. reflexivity. }
    exists ((tid, entry) :: analysis). simpl.
    rewrite Hone, Hall. simpl. repeat split.
    + f_equal. exact Hkeys.
    + intros t e [[= <- <-] | Hin].
      * exists rs. auto.
      * destruct (Hentries t e Hin) as (rs' & Hin' & Hone').
        exists rs'. auto.
Qed.

(** C6. For every test case of the analysis, the recorded mean is the mean
    of its success rates across all configurations, and the assessment is
    [easy] exactly when the mean is above 0.8, [medium] exactly when it is
    in (0.5, 0.8], and [hard] exactly when it is at most 0.5. The analysis
    always returns and covers every test case that has an entry. *)
Theorem difficulty_classification (config_results : ConfigurationResults) :
  exists analysis,
    _analyze_test_case_difficulty config_results = Ret analysis
    /\ (forall tid, In tid (map fst (all_entries config_results))
                    -> In tid (map fst analysis))
    /\ forall tid entry, In (tid, entry) analysis ->
         mean (success_rates_of tid config_results)
           = Ret (avg_success_rate entry)
         /\ (difficulty_assessment entry = "easy"
             <-> 0.8 < avg_success_rate entry)
         /\ (difficulty_assessment entry = "medium"
             <-> 0.5 < avg_success_rate entry /\ avg_success_rate entry <= 0.8)
         /\ (difficulty_assessment entry = "hard"
             <-> avg_success_rate entry <= 0.5).
Proof.
  destruct (test_case_performance_spec config_results) as (_ & Hcover & Hspec).
  destruct (analyze_all_returns (test_case_performance_of config_results))
    as (analysis & Hall & Hkeys & Hentries).
  { intros tid rs Hin. apply (Hspec tid rs Hin). }
  exists analysis. split; [exact Hall | split].
  - intros tid Hin. rewrite Hkeys. auto.
  - intros tid entry Hin.
    destruct (Hentries tid entry Hin) as (rs & Hin' & Hone).
    destruct (Hspec tid rs Hin') as (-> & Hne).
    destruct (analyze_one_returns _ Hne) as (entry' & Hone' & Hmean & Hlevel & _).
    assert (entry' = entry) by congruence. subst entry'.
    split; [exact Hmean |].
    rewrite Hlevel. apply difficulty_level_iff.
Qed.

End Difficulty.

(** C6, at the sample suite [split_results]: the one test case has mean
    success rate 0.5 and is assessed [hard]. *)
Lemma difficulty_classification_witness :
  exists analysis,
    @_analyze_test_case_difficulty Samples.sample_runtime Samples.split_results
      = Ret analysis
    /\ forall entry, In ("addition", entry) analysis ->
         (difficulty_assessment entry = "hard"
          <-> avg_success_rate entry <= 0.5).
Proof.
  destruct (@difficulty_classification Samples.sample_runtime
              Samples.split_results) as (analysis & Hret & _ & Hall).
  exists analysis. split; [exact Hret |].
  intros entry Hin. apply (Hall "addition" entry Hin).
Defined.

(** A test case that always succeeds under one configuration and never
    under the other has mean success rate 0.5 and is assessed [hard]. *)
Example split_results_are_hard :
  exists entry,
    @_analyze_test_case_difficulty Samples.sample_runtime Samples.split_results
    = Ret [("addition", entry)]
    /\ avg_success_rate entry == 0.5
    /\ difficulty_assessment entry = "hard"
    /\ success_rates_by_config entry = [1.0; 0.0].
Proof.
  eexists. split; [vm_compute; reflexivity |]. simpl. repeat split.
Qed.

(** C7, as stated, fails at the boundary 0.5: the comparison is strict, so
    a mean of exactly 0.5 is assessed [hard], not [medium]. *)
Lemma boundary_half_is_not_medium :
  difficulty_level_of 0.5 = "hard" /\ difficulty_level_of 0.5 <> "medium".
Proof.
  split; [reflexivity | discriminate].
Qed.

(** C7 (amended). A mean of exactly 0.5 is assessed [hard], a mean of
    exactly 0.8 [medium], a mean of 0.8001 [easy]; the assessment is
    monotonic in the mean for the order hard < medium < easy. *)
Theorem difficulty_boundaries_monotone :
  difficulty_level_of 0.5 = "hard"
  /\ difficulty_level_of 0.8 = "medium"
  /\ difficulty_level_of 0.8001 = "easy"
  /\ forall m1 m2 : Q, m1 <= m2 ->
       (difficulty_rank (difficulty_level_of m1)
        <= difficulty_rank (difficulty_level_of m2))%nat.
Proof.
  repeat split.
  intros m1 m2 Hle.
  destruct (difficulty_level_cases m1) as [[H1 E1] | [(H1 & H1' & E1) | [H1 E1]]];
    destruct (difficulty_level_cases m2) as [[H2 E2] | [(H2 & H2' & E2) | [H2 E2]]];
    rewrite E1, E2; vm_compute; first [lia | exfalso; lra].
Qed.

(** C7 (amended), applied: raising the mean from 0.4 to 0.6 does not lower
    the assessment. *)
Lemma difficulty_boundaries_monotone_witness :
  0.4 <= 0.6
  /\ (difficulty_rank (difficulty_level_of 0.4)
      <= difficulty_rank (difficulty_level_of 0.6))%nat.
Proof.
  assert (Hle : 0.4 <= 0.6) by (vm_compute; discriminate).
  split; [exact Hle |].
  exact (proj2 (proj2 (proj2 difficulty_boundaries_monotone)) 0.4 0.6 Hle).
Defined.

(** ** Configuration ranking *)

Lemma insert_by_rate_perm x l : Permutation (x :: l) (insert_by_rate x l).
Proof.
  induction l as [| h t IH]; simpl.
  - apply Permutation_refl.
  - destruct (Qgtb _ _).
    + eapply perm_trans; [apply perm_swap |]. apply perm_skip. exact IH.
    + apply Permutation_refl.
Qed.

Lemma sort_by_rate_perm l : Permutation l (sort_by_rate_desc l).
Proof.
  induction l as [| x t IH]; simpl.
  - constructor.
  - eapply perm_trans; [| apply insert_by_rate_perm].
    apply perm_skip. exact IH.
Qed.

Lemma insert_by_rate_sorted x l :
  StronglySorted ranks_before l ->
  StronglySorted ranks_before (insert_by_rate x l).
Proof.
  induction l as [| h t IH]; simpl; intro Hs.
  - repeat constructor.
  - inversion Hs as [| ? ? Hst Hall]; subst.
    destruct (Qgtb _ _) eqn:E.
    + apply Qgtb_lt in E. constructor; [auto |].
      eapply Permutation_Forall; [apply insert_by_rate_perm |].
      constructor; [unfold ranks_before; lra | exact Hall].
    + apply Qgtb_le in E. constructor; [exact Hs |].
      constructor; [exact E |].
      eapply Forall_impl; [| exact Hall].
      unfold ranks_before. intros b Hb. lra.
Qed.

Lemma sort_by_rate_sorted l : StronglySorted ranks_before (sort_by_rate_desc l).
Proof.
  induction l as [| x t IH]; simpl.
  - constructor.
  - apply insert_by_rate_sorted. exact IH.
Qed.

Lemma insert_by_rate_stable r x l :
  with_rate r (insert_by_rate x l) = with_rate r (x :: l).
Proof.
  induction l as [| h t IH]; [reflexivity |].
  simpl insert_by_rate. destruct (Qgtb _ _) eqn:E; [| reflexivity].
  apply Qgtb_lt in E. unfold with_rate in *. simpl in *. rewrite IH.
  destruct (Qeq_bool (cp_overall_success_rate x) r) eqn:Ex; [| reflexivity].
  destruct (Qeq_bool (cp_overall_success_rate h) r) eqn:Eh; [| reflexivity].
  apply Qeq_bool_iff in Ex, Eh. lra.
Qed.

Lemma sort_by_rate_stable r l :
  with_rate r (sort_by_rate_desc l) = with_rate r l.
Proof.
  induction l as [| x t IH]; [reflexivity |].
  simpl sort_by_rate_desc. rewrite insert_by_rate_stable.
  unfold with_rate in *. simpl. rewrite IH. reflexivity.
Qed.

Section Ranking.
Context `{Runtime}.

Lemma rankings_are_sorted_input (config_results : ConfigurationResults) :
  configuration_rankings (_analyze_model_comparison config_results)
  = sort_by_rate_desc (map config_performance_of config_results)
  /\ best_overall_configuration (_analyze_model_comparison config_results)
     = hd_error (sort_by_rate_desc (map config_performance_of config_results)).
Proof.
  unfold _analyze_model_comparison.
  destruct (sort_by_rate_desc (map config_performance_of config_results));
    split; reflexivity.
Qed.

(** C8 (amended). The ranking is the list of configurations sorted by
    decreasing mean success rate alone: it is a permutation of the
    configurations in which no entry has a higher success rate than an entry
    in front of it, and configurations with equal success rate keep their
    insertion order, whatever their consistency. The best configuration is
    the first entry. *)
Theorem ranking_by_success_rate_stable (config_results : ConfigurationResults) :
  let ranking :=
    configuration_rankings (_analyze_model_comparison config_results) in
  Permutation (map config_performance_of config_results) ranking
  /\ StronglySorted ranks_before ranking
  /\ (forall r, with_rate r ranking
                = with_rate r (map config_performance_of config_results))
  /\ best_overall_configuration (_analyze_model_comparison config_results)
     = hd_error ranking.
Proof.
  destruct (rankings_are_sorted_input config_results) as [-> ->].
  cbv zeta. repeat split.
  - apply sort_by_rate_perm.
  - apply sort_by_rate_sorted.
  - intro r. apply sort_by_rate_stable.
Qed.

End Ranking.

(** C8, as stated, fails on [tied_results]: both configurations have
    success rate 1.0, the second one has the higher consistency, and the
    ranking keeps the first one in front. *)
Lemma tie_not_broken_by_consistency :
  let ranking :=
    configuration_rankings
      (@_analyze_model_comparison Samples.sample_runtime Samples.tied_results) in
  map cp_config_hash ranking = ["aaaaaaaa"; "bbbbbbbb"]
  /\ map cp_overall_success_rate ranking = [1.0; 1.0]
  /\ map cp_avg_consistency ranking = [0.5; 1.0]
  /\ ~ (forall a b rest, ranking = a :: b :: rest ->
          cp_overall_success_rate a == cp_overall_success_rate b ->
          cp_avg_consistency b <= cp_avg_consistency a).
Proof.
  cbv zeta. split; [reflexivity | split; [reflexivity | split; [reflexivity |]]].
  intro Hclaim.
  specialize (Hclaim _ _ _ eq_refl). cbn in Hclaim.
  assert (Habs : 1.0 <= 0.5) by (apply Hclaim; reflexivity).
  vm_compute in Habs. apply Habs. reflexivity.
Qed.

(** ** One trial *)

Section Trial.
Context `{Runtime} {W : Type} `{AISystemInterface W}.

(** The paths of [run_single_test], one equation each. *)
Lemma run_single_test_paths w clk config test_case :
  run_single_test w clk config test_case
  = Ret
      match call_ai_system w config (input_data test_case) with
      | Raise e => failure_result clk config test_case (t_handler clk) e
      | Ret resp =>
          if resp_success resp then
            match resp_output resp with
            | None =>
                failure_result clk config test_case (t_handler clk) "'output'"
            | Some out =>
                match validate_output out test_case with
                | Ret vr => validated_result clk config test_case out vr
                | Raise e =>
                    failure_result clk config test_case (t_handler clk) e
                end
            end
          else
            failure_result clk config test_case (t_returned clk)
              (default "Unknown error" (resp_error resp))
      end.
Proof.
  unfold run_single_test.
  destruct (call_ai_system w config (input_data test_case)) as [resp | e];
    simpl; [| reflexivity].
  destruct (resp_success resp); [| reflexivity].
  unfold getitem_output.
  destruct (resp_output resp) as [out |]; simpl; [| reflexivity].
  destruct (validate_output out test_case); reflexivity.
Qed.

Lemma run_trials_returns envs config test_case :
  exists results,
    run_trials envs config test_case = Ret results
    /\ List.length results = List.length envs.
Proof.
  induction envs as [| [w clk] rest (results & Hrest & Hlen)]; simpl.
  - exists []. auto.
  - rewrite run_single_test_paths, Hrest. simpl.
    eexists. split; [reflexivity |]. simpl. congruence.
Qed.

(** C2. The success flag of a trial's result is true only if the call
    succeeded and the validator judged its output valid; when the validator
    rejects the output of a successful call, the result is not successful. *)
Theorem success_requires_call_and_validation w clk config test_case r :
  run_single_test w clk config test_case = Ret r ->
  (success r = true ->
     exists resp vr,
       call_ai_system w config (input_data test_case) = Ret resp
       /\ resp_success resp = true
       /\ resp_output resp = Some (output r)
       /\ validate_output (output r) test_case = Ret vr
       /\ vr_valid vr = true)
  /\ (forall resp out vr,
        call_ai_system w config (input_data test_case) = Ret resp ->
        resp_output resp = Some out ->
        validate_output out test_case = Ret vr ->
        vr_valid vr = false ->
        success r = false).
Proof.
  rewrite run_single_test_paths. intros [= <-]. split.
  - destruct (call_ai_system w config (input_data test_case)) as [resp | e];
      [| discriminate].
    destruct (resp_success resp) eqn:Hs; [| discriminate].
    destruct (resp_output resp) as [out |] eqn:Ho; [| discriminate].
    destruct (validate_output out test_case) as [vr | e] eqn:Hv;
      [| discriminate].
    simpl. intro Hvalid. exists resp, vr. auto.
  - intros resp out vr -> Ho Hv Hvalid.
    destruct (resp_success resp); [| reflexivity].
    rewrite Ho, Hv. exact Hvalid.
Qed.

(** C3. [run_single_test] always returns a result. When the call raises,
    the result is unsuccessful, has no output, and records the exception
    text; when the call reports failure, the result is unsuccessful, has no
    output, and records the reported error (or "Unknown error"); an
    exception of the validator is recorded in the same way. *)
Theorem run_single_test_captures_failures w clk config test_case :
  exists r,
    run_single_test w clk config test_case = Ret r
    /\ (forall e,
          call_ai_system w config (input_data test_case) = Raise e ->
          success r = false /\ output r = VNone /\ error_message r = Some e)
    /\ (forall resp,
          call_ai_system w config (input_data test_case) = Ret resp ->
          resp_success resp = false ->
          success r = false /\ output r = VNone
          /\ error_message r = Some (default "Unknown error" (resp_error resp)))
    /\ (forall resp out e,
          call_ai_system w config (input_data test_case) = Ret resp ->
          resp_success resp = true ->
          resp_output resp = Some out ->
          validate_output out test_case = Raise e ->
          success r = false /\ output r = VNone /\ error_message r = Some e).
Proof.
  eexists. split; [apply run_single_test_paths |].
  split; [| split].
  - intros e ->. repeat split.
  - intros resp -> ->. repeat split.
  - intros resp out e -> -> -> ->. repeat split.
Qed.

End Trial.

(** C2, applied to a trial of the sample service that answers [4] to the
    test case [addition]. *)
Lemma success_requires_call_and_validation_witness :
  exists resp vr,
    ProductionAISystem.call_ai_system (Samples.answers "4") Samples.model_pro
      (input_data Samples.addition) = Ret resp
    /\ resp_success resp = true
    /\ resp_output resp = Some (VStr "4")
    /\ @ProductionAISystem.validate_output Samples.sample_runtime (VStr "4")
         Samples.addition = Ret vr
    /\ vr_valid vr = true.
Proof.
  refine (proj1
            (@success_requires_call_and_validation Samples.sample_runtime _
               (@ProductionAISystem.production_system Samples.sample_runtime)
               (Samples.answers "4") Samples.clock Samples.model_pro
               Samples.addition (Samples.result_of "4" true [] 1.0) _) _).
  - vm_compute. reflexivity.
  - reflexivity.
Defined.

(** C3, applied to a system whose call raises. *)
Lemma run_single_test_captures_failures_witness :
  exists r,
    @run_single_test Samples.sample_runtime unit Samples.raising_system tt
      Samples.clock Samples.model_pro Samples.addition = Ret r
    /\ success r = false /\ output r = VNone
    /\ error_message r = Some "connection reset".
Proof.
  destruct (@run_single_test_captures_failures Samples.sample_runtime unit
              Samples.raising_system tt Samples.clock Samples.model_pro
              Samples.addition) as (r & Hr & Hraise & _).
  exists r. split; [exact Hr |]. apply Hraise. reflexivity.
Defined.

#[local] Existing Instance ProductionAISystem.production_system.

(** The production system's call never raises: every failure of the
    request comes back as a response with a false success flag. *)
Lemma production_call_never_raises
    (post : ProductionAISystem.World) config input :
  exists resp,
    ProductionAISystem.call_ai_system post config input = Ret resp
    /\ (resp_success resp = true -> exists out, resp_output resp = Some out).
Proof.
  unfold ProductionAISystem.call_ai_system.
  destruct (post (ProductionAISystem.payload config input)) as [response | e];
    simpl; [| eexists; split; [reflexivity | discriminate]].
  destruct (ProductionAISystem.status response =? 200)%Z.
  - destruct (ProductionAISystem.response_json response); simpl;
      eexists; (split; [reflexivity |]);
      [intros _; eexists; reflexivity | discriminate].
  - destruct (ProductionAISystem.response_text response); simpl;
      eexists; (split; [reflexivity | discriminate]).
Qed.

(** For the production system, a request that raises (a timeout, a
    transport error) and a request answered with a status other than 200
    both end in an unsuccessful result that records the reason. *)
Lemma production_failures_are_results `{Runtime}
    (post : ProductionAISystem.World) clk config (test_case : TestCase) :
  (forall e,
     post (ProductionAISystem.payload config (input_data test_case)) = Raise e ->
     run_single_test post clk config test_case
     = Ret (failure_result clk config test_case (t_returned clk) e))
  /\ (forall response text,
        post (ProductionAISystem.payload config (input_data test_case))
          = Ret response ->
        ProductionAISystem.status response <> 200%Z ->
        ProductionAISystem.response_text response = Ret text ->
        run_single_test post clk config test_case
        = Ret (failure_result clk config test_case (t_returned clk)
                 ("HTTP "
                    ++ NilZero.string_of_int
                         (Z.to_int (ProductionAISystem.status response))
                    ++ ": " ++ text))).
Proof.
  split.
  - intros e He. rewrite run_single_test_paths. simpl.
    unfold ProductionAISystem.call_ai_system. rewrite He. reflexivity.
  - intros response text Hpost Hstatus Htext.
    rewrite run_single_test_paths. simpl.
    unfold ProductionAISystem.call_ai_system. rewrite Hpost. simpl.
    apply Z.eqb_neq in Hstatus. rewrite Hstatus, Htext. reflexivity.
Qed.

Example timed_out_trial :
  @run_single_test Samples.sample_runtime _
    (@ProductionAISystem.production_system Samples.sample_runtime)
    Samples.times_out Samples.clock Samples.model_pro Samples.addition
  = Ret Samples.failed_result.
Proof. vm_compute. reflexivity. Qed.

Example rejected_request_trial :
  exists r,
    @run_single_test Samples.sample_runtime _
      (@ProductionAISystem.production_system Samples.sample_runtime)
      Samples.rejects Samples.clock Samples.model_pro Samples.addition
    = Ret r
    /\ success r = false /\ output r = VNone
    /\ error_message r = Some "HTTP 429: rate limited".
Proof. eexists. split; [vm_compute; reflexivity |]. repeat split. Qed.

(** ** The outcome validator *)

Section Validator.
Context `{Runtime}.

Lemma check_type_quality output test_case vr :
  vr_quality_score (ProductionAISystem.check_type output test_case vr)
  == vr_quality_score vr * type_multiplier output test_case.
Proof.
  unfold ProductionAISystem.check_type, type_multiplier, type_check_passes.
  destruct (expected_output_type test_case =? "any")%string eqn:Eany.
  - apply String.eqb_eq in Eany. rewrite Eany. simpl. lra.
  - simpl.
    destruct (expected_output_type test_case =? "json")%string.
    + destruct (json_loads_ok _); simpl; lra.
    + destruct (expected_output_type test_case =? "numeric")%string;
        [destruct (float_ok _) |]; simpl; lra.
Qed.

Lemma check_type_passes output test_case vr :
  type_check_passes output test_case = true ->
  ProductionAISystem.check_type output test_case vr = vr.
Proof.
  unfold ProductionAISystem.check_type, type_check_passes.
  destruct (negb _); [| reflexivity].
  destruct (expected_output_type test_case =? "json")%string.
  - intros ->. reflexivity.
  - destruct (expected_output_type test_case =? "numeric")%string;
      [intros -> |]; reflexivity.
Qed.

Lemma check_pattern_returns output test_case vr found :
  pattern_found output test_case = Ret found ->
  exists vr',
    ProductionAISystem.check_pattern output test_case vr = Ret vr'
    /\ vr_quality_score vr' == vr_quality_score vr * pattern_multiplier found
    /\ (found = true -> vr' = vr).
Proof.
  unfold pattern_found, ProductionAISystem.check_pattern, pattern_multiplier.
  destruct (ProductionAISystem.truthy_str _).
  - intros ->. simpl. destruct found; simpl; eexists;
      (split; [reflexivity | split; [simpl; lra | auto; discriminate]]).
  - intros [= <-]. exists vr. split; [reflexivity | split; [lra | auto]].
Qed.

Lemma check_custom_quality output test_case vr :
  vr_quality_score (ProductionAISystem.check_custom output test_case vr)
  == vr_quality_score vr * custom_multiplier output test_case.
Proof.
  unfold ProductionAISystem.check_custom, custom_multiplier.
  destruct (validation_function test_case) as [f |]; [| lra].
  destruct (f output (data test_case)) as [[valid issues qm | truthy] | e].
  - destruct (negb (default true valid)); simpl; destruct qm; simpl; lra.
  - destruct truthy; simpl; lra.
  - simpl. lra.
Qed.

End Validator.

Section ValidatorClaims.
Context `{Runtime}.

(** C4 (amended). The returned quality score is the product of the
    multipliers of the applicable checks (type, pattern, custom), with no
    clamping; it lies in [0,1] whenever the multiplier contributed by the
    custom validation lies in [0,1]. The validator returns whenever the
    pattern search does. *)
Theorem quality_is_product_of_multipliers
    (out : Value) (test_case : TestCase) (found : bool) :
  pattern_found out test_case = Ret found ->
  exists vr,
    ProductionAISystem.validate_output out test_case = Ret vr
    /\ vr_quality_score vr
       == type_multiplier out test_case * pattern_multiplier found
          * custom_multiplier out test_case
    /\ (0 <= custom_multiplier out test_case <= 1 ->
        0 <= vr_quality_score vr <= 1).
Proof.
  intro Hfound. unfold ProductionAISystem.validate_output.
  destruct (check_pattern_returns out test_case
              (ProductionAISystem.check_type out test_case
                 {| vr_valid := true; vr_issues := []; vr_quality_score := 1.0 |})
              found Hfound) as (vr' & Hpat & Hq & _).
  rewrite Hpat. simpl. eexists. split; [reflexivity |].
  assert (Hprod :
            vr_quality_score (ProductionAISystem.check_custom out test_case vr')
            == type_multiplier out test_case * pattern_multiplier found
               * custom_multiplier out test_case).
  { rewrite check_custom_quality, Hq, check_type_quality. simpl. lra. }
  split; [exact Hprod |].
  intros [Hlo Hhi]. rewrite Hprod.
  assert (Ht : 0 <= type_multiplier out test_case <= 1).
  { unfold type_multiplier. destruct (type_check_passes _ _); lra. }
  assert (Hp : 0 <= pattern_multiplier found <= 1).
  { unfold pattern_multiplier. destruct found; lra. }
  destruct Ht as [Ht0 Ht1], Hp as [Hp0 Hp1].
  assert (Htp0 : 0 <= type_multiplier out test_case * pattern_multiplier found)
    by (apply Qmult_le_0_compat; assumption).
  assert (Htp1 : type_multiplier out test_case * pattern_multiplier found <= 1).
  { setoid_replace 1 with (1 * 1) by reflexivity.
    apply Qmult_le_compat_nonneg; split; assumption. }
  split.
  - apply Qmult_le_0_compat; assumption.
  - setoid_replace 1 with (1 * 1) by reflexivity.
    apply Qmult_le_compat_nonneg; split; assumption.
Qed.

(** C10. When the type check and the pattern check pass and the custom
    validation function raises, the validator returns [valid = true], with
    the exception recorded as the only issue and a quality of 0.8; a trial
    whose call succeeded with that output is then successful. *)
Theorem crashing_validator_still_valid
    (out : Value) (test_case : TestCase)
    (f : Value -> TestCaseData -> outcome CustomResult) (e : string) :
  type_check_passes out test_case = true ->
  pattern_found out test_case = Ret true ->
  validation_function test_case = Some f ->
  f out (data test_case) = Raise e ->
  (exists vr,
     ProductionAISystem.validate_output out test_case = Ret vr
     /\ vr_valid vr = true
     /\ vr_issues vr = ["Validation function error: " ++ e]
     /\ vr_quality_score vr == 0.8)
  /\ (forall (post : ProductionAISystem.World) clk config resp,
        ProductionAISystem.call_ai_system post config (input_data test_case)
          = Ret resp ->
        resp_success resp = true ->
        resp_output resp = Some out ->
        exists r,
          run_single_test post clk config test_case = Ret r
          /\ success r = true /\ output r = out).
Proof.
  intros Htype Hfound Hf He.
  assert (Hval :
            ProductionAISystem.validate_output out test_case
            = Ret {| vr_valid := true;
                     vr_issues := ["Validation function error: " ++ e];
                     vr_quality_score := 1.0 * 0.8 |}).
  { unfold ProductionAISystem.validate_output.
    rewrite (check_type_passes _ _ _ Htype).
    destruct (check_pattern_returns out test_case
                {| vr_valid := true; vr_issues := []; vr_quality_score := 1.0 |}
                true Hfound) as (vr' & Hpat & _ & Hsame).
    rewrite Hpat, (Hsame eq_refl). simpl.
    unfold ProductionAISystem.check_custom. rewrite Hf, He. reflexivity. }
  split.
  - eexists. split; [exact Hval |]. simpl.
    split; [reflexivity | split; [reflexivity | lra]].
  - intros post clk config resp Hcall Hs Ho.
    rewrite run_single_test_paths. simpl. rewrite Hcall, Hs, Ho, Hval.
    eexists. split; [reflexivity |]. split; reflexivity.
Qed.

End ValidatorClaims.

(** C4, as stated, fails on [generous_case]: its custom function returns a
    quality multiplier of 2, and the returned quality is 2. *)
Lemma quality_not_clamped :
  exists vr,
    @ProductionAISystem.validate_output Samples.sample_runtime (VStr "pong")
      Samples.generous_case = Ret vr
    /\ vr_valid vr = true
    /\ vr_quality_score vr == 2
    /\ ~ vr_quality_score vr <= 1.
Proof.
  eexists. split; [vm_compute; reflexivity |]. simpl.
  split; [reflexivity | split; [reflexivity |]].
  intro Hle. vm_compute in Hle. apply Hle. reflexivity.
Qed.

(** C4 (amended), applied to the answer [5] for [addition]: the pattern
    check fails and the quality is 0.7. *)
Lemma quality_is_product_of_multipliers_witness :
  exists vr,
    @ProductionAISystem.validate_output Samples.sample_runtime (VStr "5")
      Samples.addition = Ret vr
    /\ vr_quality_score vr
       == @type_multiplier Samples.sample_runtime (VStr "5") Samples.addition
          * pattern_multiplier false
          * custom_multiplier (VStr "5") Samples.addition
    /\ (0 <= custom_multiplier (VStr "5") Samples.addition <= 1 ->
        0 <= vr_quality_score vr <= 1).
Proof.
  apply (@quality_is_product_of_multipliers Samples.sample_runtime
           (VStr "5") Samples.addition false).
  vm_compute. reflexivity.
Defined.

(** C10, applied to [crashing_case]: the answer [pong] is judged valid
    although the custom function raised, and the trial is successful. *)
Lemma crashing_validator_still_valid_witness :
  (exists vr,
     @ProductionAISystem.validate_output Samples.sample_runtime (VStr "pong")
       Samples.crashing_case = Ret vr
     /\ vr_valid vr = true
     /\ vr_issues vr = ["Validation function error: division by zero"]
     /\ vr_quality_score vr == 0.8)
  /\ exists r,
       @run_single_test Samples.sample_runtime _
         (@ProductionAISystem.production_system Samples.sample_runtime)
         (Samples.answers "pong") Samples.clock Samples.model_pro
         Samples.crashing_case = Ret r
       /\ success r = true /\ output r = VStr "pong".
Proof.
  destruct (@crashing_validator_still_valid Samples.sample_runtime
              (VStr "pong") Samples.crashing_case
              (fun _ _ => Raise "division by zero") "division by zero"
              eq_refl eq_refl eq_refl eq_refl) as [Hvalid Htrial].
  split; [exact Hvalid |].
  apply (Htrial (Samples.answers "pong") Samples.clock Samples.model_pro
           {| resp_success := true; resp_output := Some (VStr "pong");
              resp_error := None |});
    reflexivity.
Defined.

(** ** Statistical analysis *)

Lemma is_not_None_iff (v : Value) : is_not_None v = true <-> v <> VNone.
Proof.
  destruct v; simpl; split; congruence.
Qed.

Lemma unique_outputs_distinct (results : list TestResult) :
  distinct_outputs results (unique_outputs results).
Proof.
  unfold distinct_outputs, unique_outputs. split.
  - apply NoDup_nodup.
  - intro s. rewrite nodup_In, in_map_iff. split.
    + intros (r & Hs & Hin). apply filter_In in Hin as [Hin Hnone].
      exists r. rewrite <- is_not_None_iff. auto.
    + intros (r & Hin & Hnone & Hs). exists r. split; [exact Hs |].
      apply filter_In. rewrite is_not_None_iff. auto.
Qed.

Lemma distinct_outputs_length results u :
  distinct_outputs results u ->
  List.length u = List.length (unique_outputs results).
Proof.
  intros [Hnd Hu].
  destruct (unique_outputs_distinct results) as [Hnd' Hu'].
  apply Permutation_length. apply NoDup_Permutation; auto.
  intro s. rewrite Hu, Hu'. reflexivity.
Qed.

Lemma reciprocal_bounds (n : nat) :
  (0 < n)%nat ->
  0 < 1.0 / inject_Z (Z.of_nat n) /\ 1.0 / inject_Z (Z.of_nat n) <= 1.
Proof.
  intro Hn.
  assert (Hx : 1 <= inject_Z (Z.of_nat n)).
  { unfold Qle. simpl. lia. }
  split.
  - apply Qlt_shift_div_l; lra.
  - apply Qle_shift_div_r; lra.
Qed.

Lemma consistency_score_cases (results : list TestResult) :
  (unique_outputs results = [] /\ consistency_score_of results == 0)
  \/ (unique_outputs results <> []
      /\ consistency_score_of results == 1 / Qlen (unique_outputs results)
      /\ 0 < consistency_score_of results <= 1).
Proof.
  unfold consistency_score_of.
  destruct (unique_outputs results) as [| s u] eqn:E.
  - left. split; reflexivity.
  - right. split; [discriminate |].
    assert (Hpos : (0 < List.length (s :: u))%nat) by (simpl; lia).
    destruct (reciprocal_bounds _ Hpos) as [Hlo Hhi].
    unfold Qlen. split; [| split; assumption].
    unfold Qdiv. reflexivity.
Qed.

Lemma quality_scores_defined results qs :
  defined_qualities results qs -> quality_scores results = qs.
Proof.
  unfold defined_qualities. revert qs.
  induction results as [| r rest IH]; intros qs Hqs; simpl in *.
  - destruct qs; [reflexivity | discriminate].
  - destruct (quality_score r) as [q |]; simpl in Hqs.
    + destruct qs as [| q' qs']; [discriminate |].
      injection Hqs as -> Hrest. f_equal. apply IH. exact Hrest.
    + apply IH. exact Hqs.
Qed.

Lemma quality_scores_skip before r after :
  quality_score r = None ->
  quality_scores (before ++ r :: after) = quality_scores (before ++ after).
Proof.
  intro Hnone. induction before as [| b rest IH]; simpl.
  - rewrite Hnone. reflexivity.
  - rewrite IH. reflexivity.
Qed.

Section Statistics.
Context `{Runtime}.

Lemma mean_or_0_returns l : exists m, mean_or_0 l = Ret m.
Proof.
  destruct l; simpl; eexists; reflexivity.
Qed.

Lemma stdev_or_0_returns l : exists sd, stdev_or_0 l = Ret sd.
Proof.
  unfold stdev_or_0. destruct l as [| x [| y rest]]; simpl; eexists; reflexivity.
Qed.

(** The analysis returns on every non-empty list of results, and its
    fields are the values of the corresponding expressions. *)
Lemma statistical_analysis_returns config test_case num_runs results :
  results <> [] ->
  exists st,
    statistical_analysis config test_case num_runs results = Ret st
    /\ st_individual_results st = results
    /\ st_consistency_score st = consistency_score_of results
    /\ st_unique_outputs st = List.length (unique_outputs results)
    /\ mean_or_0 (quality_scores results) = Ret (st_avg_quality_score st)
    /\ stdev_or_0 (quality_scores results) = Ret (st_quality_score_std st).
Proof.
  intro Hne. unfold statistical_analysis.
  destruct results as [| r rest]; [congruence |].
  unfold success_rate_of.
  destruct (mean_or_0_returns (execution_times (r :: rest))) as [m1 ->].
  destruct (stdev_or_0_returns (execution_times (r :: rest))) as [s1 ->].
  destruct (mean_or_0_returns (quality_scores (r :: rest))) as [m2 ->].
  destruct (stdev_or_0_returns (quality_scores (r :: rest))) as [s2 ->].
  simpl. eexists. repeat split.
Qed.

Lemma statistical_analysis_fields config test_case num_runs results st :
  statistical_analysis config test_case num_runs results = Ret st ->
  st_individual_results st = results
  /\ st_consistency_score st = consistency_score_of results
  /\ st_unique_outputs st = List.length (unique_outputs results)
  /\ mean_or_0 (quality_scores results) = Ret (st_avg_quality_score st)
  /\ stdev_or_0 (quality_scores results) = Ret (st_quality_score_std st).
Proof.
  intro Hst.
  destruct results as [| r rest]; [discriminate |].
  destruct (statistical_analysis_returns config test_case num_runs (r :: rest))
    as (st' & Hst' & Hfields); [discriminate |].
  assert (st' = st) by congruence. subst st'. exact Hfields.
Qed.

End Statistics.

Section StatisticsClaims.
Context `{Runtime} {W : Type} `{AISystemInterface W}.

(** With at least one run, [run_statistical_validation] returns the
    analysis of the results of its trials, one result per run. *)
Lemma run_statistical_validation_returns
    (env : nat -> W * Clock) (config : AIModelConfiguration)
    (test_case : TestCase) (num_runs : nat) :
  (0 < num_runs)%nat ->
  exists results st,
    run_trials (map env (seq 0 num_runs)) config test_case = Ret results
    /\ List.length results = num_runs
    /\ statistical_analysis config test_case num_runs results = Ret st
    /\ run_statistical_validation env config test_case num_runs = Ret st.
Proof.
  intro Hruns.
  destruct (run_trials_returns (map env (seq 0 num_runs)) config test_case)
    as (results & Hresults & Hlen).
  rewrite length_map, length_seq in Hlen.
  assert (Hne : results <> []).
  { intros ->. simpl in Hlen. lia. }
  destruct (statistical_analysis_returns config test_case num_runs results Hne)
    as (st & Hst & _).
  exists results, st. unfold run_statistical_validation.
  rewrite Hresults. simpl. auto.
Qed.

(** C1 (amended). For every non-empty sequence of trial results, the
    analysis returns, and its consistency score is 1/U when U >= 1 and 0
    when U = 0, where U is the number of distinct stringified outputs among
    the trials whose output is not None (a trial whose call failed has no
    output; a trial whose output the validator rejected keeps it and
    counts). The score lies in [0,1], and in (0,1] when U >= 1. *)
Theorem consistency_is_reciprocal_of_distinct_outputs
    (config : AIModelConfiguration) (test_case : TestCase) (num_runs : nat)
    (results : list TestResult) :
  results <> [] ->
  exists st,
    statistical_analysis config test_case num_runs results = Ret st
    /\ 0 <= st_consistency_score st <= 1
    /\ forall u, distinct_outputs results u ->
         st_unique_outputs st = List.length u
         /\ (u = [] -> st_consistency_score st == 0)
         /\ (u <> [] ->
             st_consistency_score st == 1 / Qlen u
             /\ 0 < st_consistency_score st).
Proof.
  intro Hne.
  destruct (statistical_analysis_returns config test_case num_runs results Hne)
    as (st & Hst & Hind & Hcons & Huniq & _).
  exists st. split; [exact Hst |]. rewrite Hcons, Huniq.
  destruct (consistency_score_cases results)
    as [[Hnil Hzero] | (Hcons' & Hrecip & Hlo & Hhi)].
  - split; [rewrite Hzero; lra |].
    intros u Hu. apply distinct_outputs_length in Hu.
    rewrite Hnil in Hu |- *. split; [symmetry; exact Hu |].
    split; [intros _; exact Hzero |].
    intro Hu'. destruct u; [congruence | discriminate].
  - split; [lra |].
    intros u Hu. apply distinct_outputs_length in Hu.
    split; [symmetry; exact Hu |]. split.
    + intros ->. simpl in Hu.
      destruct (unique_outputs results); [congruence | discriminate].
    + intros _. unfold Qlen in *. rewrite Hu. auto.
Qed.

(** C9. The mean and the standard deviation of the quality score are
    computed over the quality values that are defined, in trial order; a
    trial whose quality is undefined changes neither of them. *)
Theorem quality_statistics_over_defined_values
    (config : AIModelConfiguration) (test_case : TestCase) (num_runs : nat)
    (results : list TestResult) (st : Statistics) (qs : list Q) :
  statistical_analysis config test_case num_runs results = Ret st ->
  defined_qualities results qs ->
  mean_or_0 qs = Ret (st_avg_quality_score st)
  /\ stdev_or_0 qs = Ret (st_quality_score_std st)
  /\ forall before after r n' st',
       results = (before ++ after)%list ->
       quality_score r = None ->
       statistical_analysis config test_case n' (before ++ r :: after)
         = Ret st' ->
       st_avg_quality_score st' = st_avg_quality_score st
       /\ st_quality_score_std st' = st_quality_score_std st.
Proof.
  intros Hst Hqs.
  apply statistical_analysis_fields in Hst as (_ & _ & _ & Hmean & Hstd).
  apply quality_scores_defined in Hqs. rewrite Hqs in Hmean, Hstd.
  split; [exact Hmean | split; [exact Hstd |]].
  intros before after r n' st' -> Hnone Hst'.
  apply statistical_analysis_fields in Hst' as (_ & _ & _ & Hmean' & Hstd').
  rewrite (quality_scores_skip _ _ _ Hnone), Hqs in Hmean', Hstd'.
  split; congruence.
Qed.

End StatisticsClaims.

(** The three trials of [env_4_5_4] on [addition] produce [results_4_5_4]:
    the second answer is rejected by the pattern check and keeps its
    output. *)
Example trials_4_5_4 :
  @run_trials Samples.sample_runtime _
    (@ProductionAISystem.production_system Samples.sample_runtime)
    (map Samples.env_4_5_4 (seq 0 3)) Samples.model_pro Samples.addition
  = Ret Samples.results_4_5_4.
Proof. vm_compute. reflexivity. Qed.

Example trials_down :
  @run_trials Samples.sample_runtime _
    (@ProductionAISystem.production_system Samples.sample_runtime)
    (map Samples.env_down (seq 0 3)) Samples.model_pro Samples.addition
  = Ret Samples.results_down.
Proof. vm_compute. reflexivity. Qed.

(** Three trials answering 4, 5, 4 against a test case that expects 4:
    success rate 2/3, two distinct outputs, consistency 1/2. *)
Example statistics_4_5_4 :
  exists st,
    @run_statistical_validation Samples.sample_runtime _
      (@ProductionAISystem.production_system Samples.sample_runtime)
      Samples.env_4_5_4 Samples.model_pro Samples.addition 3 = Ret st
    /\ st_success_rate st == 2 / 3
    /\ st_unique_outputs st = 2%nat
    /\ st_consistency_score st == 1 / 2
    /\ st_avg_quality_score st == 0.9.
Proof.
  eexists. split; [vm_compute; reflexivity |]. simpl. repeat split.
Qed.

(** Three trials that time out are three failed results: success rate 0,
    no output, consistency 0, and no quality value. *)
Example statistics_down :
  exists st,
    @run_statistical_validation Samples.sample_runtime _
      (@ProductionAISystem.production_system Samples.sample_runtime)
      Samples.env_down Samples.model_pro Samples.addition 3 = Ret st
    /\ List.length (st_individual_results st) = 3%nat
    /\ st_success_rate st == 0
    /\ st_unique_outputs st = 0%nat
    /\ st_consistency_score st == 0
    /\ st_avg_quality_score st == 0.
Proof.
  eexists. split; [vm_compute; reflexivity |]. simpl. repeat split.
Qed.

(** No run at all is an error of the analysis. *)
Example statistics_of_no_run :
  @run_statistical_validation Samples.sample_runtime _
    (@ProductionAISystem.production_system Samples.sample_runtime)
    Samples.env_4_5_4 Samples.model_pro Samples.addition 0
  = Raise "division by zero".
Proof. reflexivity. Qed.

(** C1, as stated, fails in two ways. On [results_4_5_4] the successful
    trials have one distinct output, but the score is 1/2: the rejected
    answer counts. On [results_down] no trial has an output and the score
    is 0, outside (0,1]. *)
Lemma consistency_counts_rejected_outputs_and_can_be_zero :
  (distinct_successful_outputs Samples.results_4_5_4 ["4"]
   /\ consistency_score_of Samples.results_4_5_4 == 1 / 2
   /\ ~ consistency_score_of Samples.results_4_5_4 == 1 / Qlen ["4"])
  /\ (distinct_successful_outputs Samples.results_down []
      /\ consistency_score_of Samples.results_down == 0
      /\ ~ 0 < consistency_score_of Samples.results_down).
Proof.
  split; split.
  - split; [repeat constructor; intros [] |].
    intro s. split.
    + intros [<- | []]. exists (Samples.result_of "4" true [] 1.0).
      simpl. auto.
    + intros (r & Hin & Hok & Hs). simpl in Hin.
      destruct Hin as [<- | [<- | [<- | []]]]; simpl in *;
        first [discriminate | auto].
  - split; [reflexivity |]. intro Heq. vm_compute in Heq. discriminate.
  - split; [constructor |].
    intro s. split; [intros [] |].
    intros (r & Hin & Hok & _). simpl in Hin.
    destruct Hin as [<- | [<- | [<- | []]]]; discriminate.
  - split; [reflexivity |]. intro Hlt. vm_compute in Hlt. discriminate.
Qed.

(** C1 (amended), applied to the results of the three trials of
    [env_4_5_4]. *)
Lemma consistency_is_reciprocal_of_distinct_outputs_witness :
  exists st,
    @statistical_analysis Samples.sample_runtime Samples.model_pro
      Samples.addition 3 Samples.results_4_5_4 = Ret st
    /\ 0 <= st_consistency_score st <= 1
    /\ forall u, distinct_outputs Samples.results_4_5_4 u ->
         st_unique_outputs st = List.length u
         /\ (u = [] -> st_consistency_score st == 0)
         /\ (u <> [] ->
             st_consistency_score st == 1 / Qlen u
             /\ 0 < st_consistency_score st).
Proof.
  apply (@consistency_is_reciprocal_of_distinct_outputs
           Samples.sample_runtime Samples.model_pro Samples.addition 3
           Samples.results_4_5_4).
  discriminate.
Defined.

(** C9, applied to one accepted answer followed by a timed-out trial: the
    mean quality is that of the accepted answer alone. *)
Lemma quality_statistics_over_defined_values_witness :
  exists st,
    @statistical_analysis Samples.sample_runtime Samples.model_pro
      Samples.addition 2
      [Samples.result_of "4" true [] 1.0; Samples.failed_result] = Ret st
    /\ @mean_or_0 [1.0] = Ret (st_avg_quality_score st)
    /\ @stdev_or_0 Samples.sample_runtime [1.0]
       = Ret (st_quality_score_std st).
Proof.
  eexists. split; [vm_compute; reflexivity |].
  refine (let H :=
            @quality_statistics_over_defined_values Samples.sample_runtime
              Samples.model_pro Samples.addition 2
              [Samples.result_of "4" true [] 1.0; Samples.failed_result]
              _ [1.0] _ _ in
          conj (proj1 H) (proj1 (proj2 H))).
  - vm_compute. reflexivity.
  - reflexivity.
Defined.

(** ** The configuration identifier *)

Lemma string_ltb_leb s1 s2 : (s1 <? s2)%string = true -> (s1 <=? s2)%string = true.
Proof.
  unfold String.ltb, String.leb. destruct (s1 ?= s2)%string; simpl; auto.
Qed.

Lemma string_not_ltb_leb s1 s2 :
  (s1 <? s2)%string = false -> (s2 <=? s1)%string = true.
Proof.
  unfold String.ltb, String.leb. rewrite (String.compare_antisym s2 s1).
  destruct (s1 ?= s2)%string; simpl; auto; discriminate.
Qed.

Lemma string_leb_trans s1 s2 s3 :
  (s1 <=? s2)%string = true -> (s2 <=? s3)%string = true ->
  (s1 <=? s3)%string = true.
Proof.
  unfold String.leb.
  destruct (s1 ?= s2)%string eqn:E12; [| | discriminate]; intros _.
  - apply String.compare_eq_iff in E12. subst. auto.
  - destruct (s2 ?= s3)%string eqn:E23; [| | discriminate]; intros _.
    + apply String.compare_eq_iff in E23. subst. rewrite E12. reflexivity.
    + apply String_as_OT.cmp_lt in E12, E23.
      pose proof (String_as_OT.lt_trans _ _ _ E12 E23) as Hlt.
      apply String_as_OT.cmp_lt in Hlt. unfold String_as_OT.cmp in Hlt.
      rewrite Hlt. reflexivity.
Qed.

Section SortItems.
Context {A : Type}.

Lemma insert_item_perm (kv : string * A) l :
  Permutation (kv :: l) (insert_item kv l).
Proof.
  induction l as [| h t IH]; simpl.
  - apply Permutation_refl.
  - destruct (fst h <? fst kv)%string.
    + eapply perm_trans; [apply perm_swap |]. apply perm_skip. exact IH.
    + apply Permutation_refl.
Qed.

Lemma sort_items_perm (l : list (string * A)) : Permutation l (sort_items l).
Proof.
  induction l as [| x t IH]; simpl.
  - constructor.
  - eapply perm_trans; [| apply insert_item_perm]. apply perm_skip. exact IH.
Qed.

Lemma insert_item_sorted (kv : string * A) l :
  StronglySorted key_le l -> StronglySorted key_le (insert_item kv l).
Proof.
  induction l as [| h t IH]; simpl; intro Hs.
  - repeat constructor.
  - inversion Hs as [| ? ? Hst Hall]; subst.
    destruct (fst h <? fst kv)%string eqn:E.
    + constructor; [auto |].
      eapply Permutation_Forall; [apply insert_item_perm |].
      constructor; [apply string_ltb_leb; exact E | exact Hall].
    + apply string_not_ltb_leb in E. constructor; [exact Hs |].
      constructor; [exact E |].
      eapply Forall_impl; [| exact Hall].
      intros b Hb. eapply string_leb_trans; eassumption.
Qed.

Lemma sort_items_sorted (l : list (string * A)) :
  StronglySorted key_le (sort_items l).
Proof.
  induction l as [| x t IH]; simpl.
  - constructor.
  - apply insert_item_sorted. exact IH.
Qed.

(** Two sorted lists of items with pairwise distinct keys and the same
    items are the same list. *)
Lemma sorted_items_unique (l1 l2 : list (string * A)) :
  StronglySorted key_le l1 -> StronglySorted key_le l2 ->
  NoDup (map fst l1) -> Permutation l1 l2 -> l1 = l2.
Proof.
  revert l2. induction l1 as [| a t1 IH]; intros l2 Hs1 Hs2 Hnd Hperm.
  - apply Permutation_nil in Hperm. auto.
  - destruct l2 as [| b t2].
    { apply Permutation_sym, Permutation_nil in Hperm. discriminate. }
    inversion Hs1 as [| ? ? Hst1 Hall1]; subst.
    inversion Hs2 as [| ? ? Hst2 Hall2]; subst.
    inversion Hnd as [| ? ? Hnotin Hnd']; subst.
    assert (Hab : a = b).
    { assert (Ha : In a (b :: t2)).
      { eapply Permutation_in; [exact Hperm | left; reflexivity]. }
      assert (Hb : In b (a :: t1)).
      { eapply Permutation_in;
          [apply Permutation_sym; exact Hperm | left; reflexivity]. }
      destruct Ha as [Ha | Ha]; [auto |].
      destruct Hb as [Hb | Hb]; [auto |].
      exfalso. apply Hnotin.
      rewrite Forall_forall in Hall1, Hall2.
      rewrite (String.leb_antisym _ _ (Hall1 _ Hb) (Hall2 _ Ha)).
      apply in_map. exact Hb. }
    subst b. f_equal.
    apply IH; auto. eapply Permutation_cons_inv. exact Hperm.
Qed.

(** [sorted] does not depend on the order in which a dictionary was
    assembled. *)
Lemma sort_items_canonical (l1 l2 : list (string * A)) :
  NoDup (map fst l1) -> Permutation l1 l2 -> sort_items l1 = sort_items l2.
Proof.
  intros Hnd Hperm.
  apply sorted_items_unique; try apply sort_items_sorted.
  - eapply Permutation_NoDup; [| exact Hnd].
    apply Permutation_map. apply sort_items_perm.
  - eapply perm_trans; [apply Permutation_sym, sort_items_perm |].
    eapply perm_trans; [exact Hperm |]. apply sort_items_perm.
Qed.

End SortItems.

Lemma asdict_keys (c : AIModelConfiguration) :
  map fst (asdict c)
  = ["model_id"; "model_version"; "temperature"; "top_k"; "top_p";
     "max_output_tokens"; "system_instruction"; "response_format";
     "response_schema"].
Proof. reflexivity. Qed.

Lemma asdict_keys_NoDup (c : AIModelConfiguration) : NoDup (map fst (asdict c)).
Proof.
  rewrite asdict_keys.
  repeat (constructor; [simpl; intuition discriminate |]). constructor.
Qed.

Section ConfigHash.
Context `{Runtime}.

Lemma json_dumps_dict_canonical (d1 d2 : list (string * json)) :
  NoDup (map fst d1) -> Permutation d1 d2 ->
  json_dumps (JDict d1) = json_dumps (JDict d2).
Proof.
  intros Hnd Hperm. simpl. do 4 f_equal.
  apply sort_items_canonical.
  - rewrite map_map.
    erewrite map_ext; [exact Hnd |]. intros [k v]. reflexivity.
  - apply Permutation_map. exact Hperm.
Qed.

Section JsonInduction.
Variable P : json -> Prop.
Hypothesis HNull : P JNull.
Hypothesis HBool : forall b, P (JBool b).
Hypothesis HInt : forall z, P (JInt z).
Hypothesis HFloat : forall q, P (JFloat q).
Hypothesis HStr : forall s, P (JStr s).
Hypothesis HList : forall l, Forall P l -> P (JList l).
Hypothesis HDict : forall d, Forall (fun kv => P (snd kv)) d -> P (JDict d).

(** Induction on JSON values, with the hypothesis for every element of a
    list and every value of a dictionary. *)
Fixpoint json_induction (j : json) : P j :=
  match j with
  | JNull => HNull
  | JBool b => HBool b
  | JInt z => HInt z
  | JFloat q => HFloat q
  | JStr s => HStr s
  | JList l =>
      HList l
        ((fix go (l : list json) : Forall P l :=
            match l with
            | [] => Forall_nil P
            | x :: t => Forall_cons x (json_induction x) (go t)
            end) l)
  | JDict d =>
      HDict d
        ((fix go (d : list (string * json)) : Forall (fun kv => P (snd kv)) d :=
            match d with
            | [] => Forall_nil _
            | kv :: t =>
                Forall_cons (P := fun kv => P (snd kv)) kv
                  (json_induction (snd kv)) (go t)
            end) d)
  end.

End JsonInduction.

(** Equal JSON values serialise to the same string, at any nesting depth. *)
Lemma json_dumps_equiv (j : json) :
  forall j', unique_keys j -> json_equiv j j' -> json_dumps j = json_dumps j'.
Proof.
  induction j as [| b | z | q | s | l IH | d IH] using json_induction;
    intros j' Hwf Heq; inversion Heq; subst; try reflexivity.
  - (* lists *)
    match goal with Hall : Forall2 json_equiv l ?l' |- _ =>
      rename Hall into Hitems; rename l' into lm end.
    assert (Hmap : map json_dumps l = map json_dumps lm).
    { clear Heq.
      induction Hitems as [| x y t t' Hxy Htt IHt]; [reflexivity |].
      inversion IH; subst. destruct Hwf as [Hx Ht]. simpl. f_equal; auto. }
    simpl. rewrite Hmap. reflexivity.
  - (* dictionaries *)
    destruct Hwf as [Hnd Hvals].
    match goal with
    | Hall : Forall2 _ d ?d', Hperm : Permutation ?d' _ |- _ =>
        rename Hall into Hitems; rename Hperm into Hp; rename d' into dm
    end.
    assert (Hmap :
              map (fun kv : string * json => let '(k, v) := kv in (k, json_dumps v)) d
              = map (fun kv : string * json => let '(k, v) := kv in (k, json_dumps v)) dm).
    { clear Hnd Heq Hp.
      induction Hitems as [| [k v] [k' v'] t t' [Hk Hv] Htt IHt];
        [reflexivity |].
      inversion IH; subst. destruct Hvals as [Hv0 Ht0]. simpl in *. subst k'.
      f_equal; [f_equal; auto | apply IHt; auto]. }
    assert (Hkeys : map fst d = map fst dm).
    { clear - Hitems.
      induction Hitems as [| a b t t' [Hk _] _ IHt]; [reflexivity |].
      simpl. congruence. }
    simpl. do 4 f_equal. rewrite Hmap.
    apply sort_items_canonical.
    + rewrite map_map.
      erewrite map_ext; [rewrite <- Hkeys; exact Hnd |].
      intros [k v]. reflexivity.
    + apply Permutation_map. exact Hp.
Qed.

(** The identifier does not depend on the insertion order of the schema's
    keys either, at any depth. *)
Lemma config_hash_schema_order (c1 c2 : AIModelConfiguration) :
  unique_keys (optional JDict (response_schema c1)) ->
  equal_attributes c1 c2 ->
  get_config_hash c1 = get_config_hash c2.
Proof.
  intros Hwf Heq. unfold get_config_hash, hash_of_attributes. cbv zeta.
  do 2 f_equal. apply json_dumps_equiv.
  - split; [apply asdict_keys_NoDup |].
    simpl. repeat split; try (destruct (top_k c1); exact I);
      try (destruct (top_p c1); exact I);
      try (destruct (system_instruction c1); exact I).
    exact Hwf.
  - destruct Heq as (Hid & Hver & Htemp & Hk & Hp & Hmax & Hsys & Hfmt & Hschema).
    eapply equiv_dict; [| apply Permutation_refl].
    unfold asdict. rewrite Hid, Hver, Htemp, Hk, Hp, Hmax, Hsys, Hfmt.
    repeat (constructor; [split; [reflexivity | simpl; try apply equiv_refl] |]);
      [exact Hschema | constructor].
Qed.

(** C5. The identifier is a function of the attribute values alone: two
    configurations that agree on every field have the same identifier, and
    the identifier computed from their attribute dictionaries is the same
    in whatever order the fields of either dictionary were assembled. *)
Theorem config_hash_independent_of_field_order
    (c1 c2 : AIModelConfiguration) (d1 d2 : list (string * json)) :
  same_attributes c1 c2 ->
  Permutation (asdict c1) d1 ->
  Permutation (asdict c2) d2 ->
  get_config_hash c1 = get_config_hash c2
  /\ hash_of_attributes d1 = get_config_hash c1
  /\ hash_of_attributes d2 = get_config_hash c2.
Proof.
  intros Hsame Hp1 Hp2.
  assert (Heq : c1 = c2).
  { destruct c1, c2. unfold same_attributes in Hsame. simpl in Hsame.
    destruct Hsame as (-> & -> & -> & -> & -> & -> & -> & -> & ->).
    reflexivity. }
  subst c2. unfold get_config_hash, hash_of_attributes. cbv zeta.
  rewrite <- (json_dumps_dict_canonical _ _ (asdict_keys_NoDup c1) Hp1).
  rewrite <- (json_dumps_dict_canonical _ _ (asdict_keys_NoDup c1) Hp2).
  repeat split.
Qed.

End ConfigHash.

(** C5, applied to the sample configuration and its attribute dictionary
    assembled in reverse field order. *)
Lemma config_hash_independent_of_field_order_witness :
  @get_config_hash Samples.sample_runtime Samples.model_pro
  = @get_config_hash Samples.sample_runtime Samples.model_pro
  /\ @hash_of_attributes Samples.sample_runtime (rev (asdict Samples.model_pro))
     = @get_config_hash Samples.sample_runtime Samples.model_pro
  /\ @hash_of_attributes Samples.sample_runtime (asdict Samples.model_pro)
     = @get_config_hash Samples.sample_runtime Samples.model_pro.
Proof.
  apply (@config_hash_independent_of_field_order Samples.sample_runtime
           Samples.model_pro Samples.model_pro
           (rev (asdict Samples.model_pro)) (asdict Samples.model_pro)).
  - repeat split.
  - apply Permutation_rev.
  - apply Permutation_refl.
Defined.

(** * Further properties of the code *)

(** ** [ProductionAISystem.call_ai_system] and its request payload *)


(** X2. The request payload always carries the model, the input, the
    temperature and the token limit under distinct keys. [top_k] and
    [top_p] are sent exactly when they are set, the system instruction
    exactly when it is a non-empty string, a response format exactly when
    the format is [json], and the schema only together with that format
    and only when it is a non-empty dictionary. *)
Theorem payload_contents (config : AIModelConfiguration) (input : Value) :
  let p := ProductionAISystem.payload config input in
  NoDup (map fst p)
  /\ dict_get "model" p = Some (JStr (model_id config))
  /\ dict_get "input" p = Some (json_of_value input)
  /\ dict_get "temperature" p = Some (JFloat (temperature config))
  /\ dict_get "max_tokens" p = Some (JInt (max_output_tokens config))
  /\ dict_get "top_k" p = option_map JInt (top_k config)
  /\ dict_get "top_p" p = option_map JFloat (top_p config)
  /\ dict_get "system_instruction" p
     = (if ProductionAISystem.truthy_str (system_instruction config)
        then option_map JStr (system_instruction config) else None)
  /\ dict_get "response_format" p
     = (if (response_format config =? "json")%string
        then Some (JDict [("type", JStr "json_object")]) else None)
  /\ dict_get "response_schema" p
     = (if (response_format config =? "json")%string
           && ProductionAISystem.truthy_dict (response_schema config)
        then option_map JDict (response_schema config) else None).
Proof.
  unfold ProductionAISystem.payload. cbv zeta.
  destruct (top_k config) as [k |], (top_p config) as [tp |],
    (system_instruction config) as [si |],
    (response_format config =? "json")%string,
    (response_schema config) as [[| item schema] |];
    simpl; try destruct (si =? "")%string; simpl;
    (split;
     [repeat (constructor; [simpl; intuition discriminate |]); constructor
     | repeat split]).
Qed.

(** ** [ProductionAISystem.validate_output] *)

Section ValidatorFurther.
Context `{Runtime}.

Lemma check_type_verdict out test_case vr :
  vr_valid (ProductionAISystem.check_type out test_case vr)
  = vr_valid vr && type_check_passes out test_case
  /\ exists added,
       vr_issues (ProductionAISystem.check_type out test_case vr)
       = (vr_issues vr ++ added)%list
       /\ (added = [] <-> type_check_passes out test_case = true)
       /\ (List.length added <= 1)%nat.
Proof.
  unfold ProductionAISystem.check_type, type_check_passes.
  destruct (expected_output_type test_case =? "any")%string eqn:Eany.
  - apply String.eqb_eq in Eany. rewrite Eany. simpl.
    rewrite andb_true_r. split; [reflexivity |].
    exists []. rewrite app_nil_r. repeat split; auto.
  - simpl.
    destruct (expected_output_type test_case =? "json")%string;
      [destruct (json_loads_ok _) |
       destruct (expected_output_type test_case =? "numeric")%string;
       [destruct (float_ok _) |]];
      simpl; rewrite ?andb_true_r, ?andb_false_r; (split; [reflexivity |]);
      first [ exists []; rewrite app_nil_r; repeat split; auto; fail
            | eexists; split; [reflexivity |]; split; [| simpl; lia];
              split; discriminate ].
Qed.

Lemma check_pattern_verdict out test_case vr :
  match pattern_found out test_case with
  | Ret found =>
      exists vr',
        ProductionAISystem.check_pattern out test_case vr = Ret vr'
        /\ vr_valid vr' = vr_valid vr && found
        /\ vr_quality_score vr'
           == vr_quality_score vr * pattern_multiplier found
        /\ exists added,
             vr_issues vr' = (vr_issues vr ++ added)%list
             /\ (added = [] <-> found = true)
             /\ (List.length added <= 1)%nat
  | Raise e => ProductionAISystem.check_pattern out test_case vr = Raise e
  end.
Proof.
  unfold pattern_found, ProductionAISystem.check_pattern, pattern_multiplier.
  destruct (ProductionAISystem.truthy_str _).
  - destruct (re_search _ _) as [[|] | e]; simpl; [| | reflexivity].
    + exists vr. rewrite andb_true_r. repeat split; try lra.
      exists []. rewrite app_nil_r. repeat split; auto.
    + eexists. split; [reflexivity |]. simpl. rewrite andb_false_r.
      repeat split; try lra.
      eexists. split; [reflexivity |]. split; [| simpl; lia].
      split; discriminate.
  - exists vr. rewrite andb_true_r. repeat split; try lra.
    exists []. rewrite app_nil_r. repeat split; auto.
Qed.

Lemma check_custom_verdict out test_case vr :
  vr_valid (ProductionAISystem.check_custom out test_case vr)
  = vr_valid vr && custom_accepts out test_case.
Proof.
  unfold ProductionAISystem.check_custom, custom_accepts.
  destruct (validation_function test_case) as [f |];
    [| rewrite andb_true_r; reflexivity].
  destruct (f out (data test_case)) as [[valid issues qm | truthy] | e].
  - destruct (default true valid); simpl;
      rewrite ?andb_true_r, ?andb_false_r; reflexivity.
  - destruct truthy; simpl; rewrite ?andb_true_r, ?andb_false_r; reflexivity.
  - simpl. rewrite andb_true_r. reflexivity.
Qed.

(** X3. The validator raises exactly when the pattern search raises (a
    malformed pattern), with the same exception. Otherwise it returns, and
    its verdict is the conjunction of the type check, the pattern check and
    the custom validation; a custom function that raises does not make the
    output invalid. *)
Theorem verdict_is_conjunction_of_checks
    (out : Value) (test_case : TestCase) :
  match pattern_found out test_case with
  | Ret found =>
      exists vr,
        ProductionAISystem.validate_output out test_case = Ret vr
        /\ vr_valid vr
           = type_check_passes out test_case && found
             && custom_accepts out test_case
  | Raise e => ProductionAISystem.validate_output out test_case = Raise e
  end.
Proof.
  unfold ProductionAISystem.validate_output.
  pose proof (check_pattern_verdict out test_case
                (ProductionAISystem.check_type out test_case
                   {| vr_valid := true; vr_issues := [];
                      vr_quality_score := 1.0 |})) as Hpat.
  destruct (pattern_found out test_case) as [found | e].
  - destruct Hpat as (vr' & -> & Hvalid & _). simpl.
    eexists. split; [reflexivity |].
    rewrite check_custom_verdict, Hvalid.
    destruct (check_type_verdict out test_case
                {| vr_valid := true; vr_issues := [];
                   vr_quality_score := 1.0 |}) as [-> _].
    reflexivity.
  - rewrite Hpat. reflexivity.
Qed.

(** X4. For a test case without a custom validation function, the returned
    verdict is valid exactly when no issue was recorded, and exactly when
    the quality is 1; at most two issues are recorded and the quality is
    never below 0.35. *)
Theorem verdict_without_custom_function
    (out : Value) (test_case : TestCase) (vr : ValidationResult) :
  validation_function test_case = None ->
  ProductionAISystem.validate_output out test_case = Ret vr ->
  (vr_valid vr = true <-> vr_issues vr = [])
  /\ (vr_valid vr = true <-> vr_quality_score vr == 1)
  /\ (List.length (vr_issues vr) <= 2)%nat
  /\ 0.35 <= vr_quality_score vr <= 1.
Proof.
  intros Hnone. unfold ProductionAISystem.validate_output.
  set (vr0 := {| vr_valid := true; vr_issues := []; vr_quality_score := 1.0 |}).
  pose proof (check_pattern_verdict out test_case
                (ProductionAISystem.check_type out test_case vr0)) as Hpat.
  destruct (check_type_verdict out test_case vr0)
    as (Hv1 & added1 & Hi1 & Hadded1 & Hlen1).
  pose proof (check_type_quality out test_case vr0) as Hq1.
  destruct (pattern_found out test_case) as [found | e];
    [| rewrite Hpat; discriminate].
  destruct Hpat as (vr' & -> & Hv2 & Hq2 & added2 & Hi2 & Hadded2 & Hlen2).
  simpl. unfold ProductionAISystem.check_custom. rewrite Hnone.
  intros [= <-]. rewrite Hv2, Hv1, Hi2, Hi1, Hq2, Hq1.
  unfold type_multiplier, pattern_multiplier. simpl.
  destruct (type_check_passes out test_case) eqn:Ht; destruct found eqn:Hf;
    simpl.
  all: assert (Ha1 : added1 = [] \/ added1 <> [])
         by (destruct added1; [left | right]; congruence).
  all: assert (Ha2 : added2 = [] \/ added2 <> [])
         by (destruct added2; [left | right]; congruence).
  all: rewrite length_app.
  all: repeat split; try lra; try lia; try discriminate; try reflexivity.
  all: try (intros _; destruct Hadded1 as [_ Hb1], Hadded2 as [_ Hb2];
            try rewrite (Hb1 eq_refl); try rewrite (Hb2 eq_refl); reflexivity).
  all: try (intro Hnil; apply app_eq_nil in Hnil as [Hn1 Hn2];
            first [ apply Hadded1 in Hn1; discriminate
                  | apply Hadded2 in Hn2; discriminate ]).
  all: try (intro Hq; vm_compute in Hq; discriminate).
Qed.

(** X5. An expected output type other than [json] and [numeric] applies no
    type check, and a missing or empty pattern no pattern check: without a
    custom function such a test case accepts every output, with no issue
    and quality 1. *)
Theorem no_applicable_check_accepts_everything
    (out : Value) (test_case : TestCase) :
  expected_output_type test_case <> "json" ->
  expected_output_type test_case <> "numeric" ->
  expected_output_pattern test_case = None
    \/ expected_output_pattern test_case = Some "" ->
  validation_function test_case = None ->
  ProductionAISystem.validate_output out test_case
  = Ret {| vr_valid := true; vr_issues := []; vr_quality_score := 1.0 |}.
Proof.
  intros Hjson Hnum Hpat Hnone.
  unfold ProductionAISystem.validate_output, ProductionAISystem.check_type,
    ProductionAISystem.check_pattern, ProductionAISystem.check_custom.
  apply String.eqb_neq in Hjson, Hnum. rewrite Hjson, Hnum, Hnone.
  destruct (negb _); destruct Hpat as [-> | ->]; reflexivity.
Qed.

End ValidatorFurther.

(** X4, applied to the answer [5] for [addition]: invalid, one issue,
    quality 0.7. *)
Lemma verdict_without_custom_function_witness :
  let vr :=
    {| vr_valid := false;
       vr_issues := ["Output does not match pattern: 4"];
       vr_quality_score := 1.0 * 0.7 |} in
  (vr_valid vr = true <-> vr_issues vr = [])
  /\ (vr_valid vr = true <-> vr_quality_score vr == 1)
  /\ (List.length (vr_issues vr) <= 2)%nat
  /\ 0.35 <= vr_quality_score vr <= 1.
Proof.
  apply (@verdict_without_custom_function Samples.sample_runtime (VStr "5")
           Samples.addition).
  - reflexivity.
  - vm_compute. reflexivity.
Defined.

(** X5, applied to a test case that expects a [structured] output. *)
Lemma no_applicable_check_accepts_everything_witness :
  @ProductionAISystem.validate_output Samples.sample_runtime (VStr "anything")
    Samples.structured_case
  = Ret {| vr_valid := true; vr_issues := []; vr_quality_score := 1.0 |}.
Proof.
  apply (@no_applicable_check_accepts_everything Samples.sample_runtime).
  - discriminate.
  - discriminate.
  - right. reflexivity.
  - reflexivity.
Defined.

(** ** The custom validation function of the [__main__] block *)

Section MathematicalValidator.
Context `{Runtime}.

(** X6. The mathematical validator never raises, also when the number
    search does. It reports the Wolfram issue exactly when the output
    contains [x /. First[], the missing-number issue exactly when the search
    ran and found nothing, and no other issue; its verdict is valid exactly
    when it reports no issue and exactly when its multiplier is 1, and the
    multiplier is never below 0.35. *)
Theorem mathematical_validator_result (out : Value) (test_case : TestCaseData) :
  exists valid issues q,
    Main.validate_mathematical_output out test_case
    = Ret (CustomDict (Some valid) (Some issues) (Some q))
    /\ (valid = true <-> issues = [])
    /\ (valid = true <-> q == 1)
    /\ 0.35 <= q <= 1
    /\ (forall issue, In issue issues <->
          (issue = "Contains unevaluated Wolfram expressions"
           /\ Main.str_contains "x /. First[" (py_str out) = true)
          \/ (issue = "No numeric values found in output"
              /\ re_search "-?\d+\.?\d*" (py_str out) = Ret false)).
Proof.
  unfold Main.validate_mathematical_output.
  destruct (Main.str_contains "x /. First[" (py_str out));
    destruct (re_search "-?\d+\.?\d*" (py_str out)) as [[|] | e];
    simpl; do 3 eexists; (split; [reflexivity |]); simpl;
    repeat split; try lra; try discriminate; try reflexivity.
  all: try (intro Hq; vm_compute in Hq; discriminate).
  all: try (intros [[_ Hfalse] | [_ Hfalse]]; discriminate).
  all: try (intros [<- | [<- | []]]; auto; fail).
  all: try (intros [<- | []]; auto; fail).
  all: try (intros []; fail).
  all: try (intros [[-> _] | [-> _]]; simpl; auto; discriminate).
  all: try (intros [[-> _] | [_ Hfalse]]; simpl; auto; discriminate).
  all: try (intros [[_ Hfalse] | [-> _]]; simpl; auto; discriminate).
Qed.

End MathematicalValidator.

Section MathematicalTestCase.
Context `{Runtime}.



End MathematicalTestCase.


Example mathematical_distance_answer :
  @ProductionAISystem.validate_output Samples.math_runtime
    (VStr "7.2 units") Samples.mathematical_distance
  = Ret {| vr_valid := false; vr_issues := ["Output is not numeric"];
           vr_quality_score := 1.0 * 0.5 * 1.0 |}.
Proof. vm_compute. reflexivity. Qed.

(** ** [AISystemTester.run_single_test] *)

Section TrialFurther.
Context `{Runtime} {W : Type} `{AISystemInterface W}.

(** X8. Every result of a trial is of one of two shapes. Either it carries
    an error message, and then it is unsuccessful, has no output, no
    quality score and no validation details; or it carries no error
    message, and then it has the validator's details, its success flag is
    the validator's verdict and its quality score the validator's quality.
    In both shapes it names the test case and the configuration's
    identifier, and its latency is measured from the start of the trial. *)
Theorem trial_result_shape w clk config (test_case : TestCase) r :
  run_single_test w clk config test_case = Ret r ->
  test_case_id r = id test_case
  /\ model_config_hash r = get_config_hash config
  /\ execution_timestamp r = utcnow clk
  /\ ((exists e,
         error_message r = Some e
         /\ success r = false /\ output r = VNone
         /\ quality_score r = None /\ validation_details r = None
         /\ (execution_time_ms r = (t_returned clk - t_start clk) * 1000
             \/ execution_time_ms r = (t_handler clk - t_start clk) * 1000))
      \/ (exists vr,
            error_message r = None
            /\ validation_details r = Some vr
            /\ success r = vr_valid vr
            /\ quality_score r = Some (vr_quality_score vr)
            /\ validate_output (output r) test_case = Ret vr
            /\ execution_time_ms r = (t_returned clk - t_start clk) * 1000)).
Proof.
  rewrite run_single_test_paths. intros [= <-].
  destruct (call_ai_system w config (input_data test_case)) as [resp | e].
  - destruct (resp_success resp).
    + destruct (resp_output resp) as [out |].
      * destruct (validate_output out test_case) as [vr | e] eqn:Hv.
        -- repeat split. right. exists vr. simpl. auto 10.
        -- repeat split. left. exists e. simpl. auto 10.
      * repeat split. left. eexists. simpl. auto 10.
    + repeat split. left. eexists. simpl. auto 10.
  - repeat split. left. exists e. simpl. auto 10.
Qed.

End TrialFurther.

(** X8, applied to the trial of the sample service that answers [5] to
    [addition]: the answer is rejected, and the result still has no error
    message. *)
Lemma trial_result_shape_witness :
  let r :=
    Samples.result_of "5" false ["Output does not match pattern: 4"]
      (1.0 * 0.7) in
  error_message r = None /\ success r = false /\ output r = VStr "5".
Proof.
  pose proof (@trial_result_shape Samples.sample_runtime _
                (@ProductionAISystem.production_system Samples.sample_runtime)
                (Samples.answers "5") Samples.clock Samples.model_pro
                Samples.addition
                (Samples.result_of "5" false
                   ["Output does not match pattern: 4"] (1.0 * 0.7))) as Hshape.
  assert (Hrun :
            @run_single_test Samples.sample_runtime _
              (@ProductionAISystem.production_system Samples.sample_runtime)
              (Samples.answers "5") Samples.clock Samples.model_pro
              Samples.addition
            = Ret (Samples.result_of "5" false
                     ["Output does not match pattern: 4"] (1.0 * 0.7)))
    by (vm_compute; reflexivity).
  destruct (Hshape Hrun) as (_ & _ & _ & [(e & He & _) | (vr & He & _)]).
  - discriminate He.
  - cbv zeta. split; [exact He | split; reflexivity].
Defined.

(** ** [AISystemTester.run_statistical_validation] *)

Lemma Qsum_bounds (a b : Q) (l : list Q) :
  (forall x, In x l -> a <= x <= b) ->
  a * Qlen l <= Qsum l <= b * Qlen l.
Proof.
  unfold Qlen. induction l as [| x t IH]; intro Hall.
  - simpl. unfold inject_Z. lra.
  - assert (Hx : a <= x <= b) by (apply Hall; left; reflexivity).
    assert (Ht : a * inject_Z (Z.of_nat (List.length t)) <= Qsum t
                 <= b * inject_Z (Z.of_nat (List.length t))).
    { apply IH. intros y Hy. apply Hall. right. exact Hy. }
    assert (Hlen : inject_Z (Z.of_nat (List.length (x :: t)))
                   == inject_Z (Z.of_nat (List.length t)) + 1).
    { simpl List.length. rewrite Nat2Z.inj_succ. unfold Z.succ.
      rewrite inject_Z_plus. reflexivity. }
    rewrite Hlen. simpl Qsum. lra.
Qed.

Lemma Qlen_pos {A} (l : list A) : l <> [] -> 0 < Qlen l.
Proof.
  intro Hne. destruct l; [congruence |].
  unfold Qlen, Qlt. simpl. lia.
Qed.

(** The mean of a non-empty list lies between any bounds of its
    elements. *)
Lemma mean_bounds (a b : Q) (l : list Q) :
  l <> [] ->
  (forall x, In x l -> a <= x <= b) ->
  exists m, mean l = Ret m /\ a <= m <= b.
Proof.
  intros Hne Hall. destruct l as [| x t]; [congruence |].
  eexists. split; [reflexivity |].
  destruct (Qsum_bounds a b (x :: t) Hall) as [Hlo Hhi].
  pose proof (Qlen_pos (x :: t) Hne) as Hpos.
  split.
  - apply Qle_shift_div_l; assumption.
  - apply Qle_shift_div_r; assumption.
Qed.

Lemma ratio_bounds (k n : nat) :
  (k <= n)%nat -> (0 < n)%nat ->
  0 <= inject_Z (Z.of_nat k) / inject_Z (Z.of_nat n) <= 1.
Proof.
  intros Hkn Hn.
  assert (Hpos : 0 < inject_Z (Z.of_nat n)) by (unfold Qlt; simpl; lia).
  assert (Hk : 0 <= inject_Z (Z.of_nat k)) by (unfold Qle; simpl; lia).
  assert (Hle : inject_Z (Z.of_nat k) <= inject_Z (Z.of_nat n)).
  { rewrite <- Zle_Qle. lia. }
  split.
  - apply Qle_shift_div_l; [exact Hpos | lra].
  - apply Qle_shift_div_r; [exact Hpos | lra].
Qed.

Section StatisticsFurther.
Context `{Runtime}.

Lemma statistical_analysis_header config test_case num_runs results st :
  statistical_analysis config test_case num_runs results = Ret st ->
  results <> []
  /\ st_test_case_id st = id test_case
  /\ st_config_hash st = get_config_hash config
  /\ st_num_runs st = num_runs
  /\ st_success_rate st = Qlen (filter success results) / Qlen results
  /\ mean_or_0 (execution_times results) = Ret (st_avg_execution_time_ms st)
  /\ stdev_or_0 (execution_times results) = Ret (st_execution_time_std st).
Proof.
  unfold statistical_analysis.
  destruct results as [| r rest]; [discriminate |].
  unfold success_rate_of.
  destruct (mean_or_0_returns (execution_times (r :: rest))) as [m1 Hm1].
  destruct (stdev_or_0_returns (execution_times (r :: rest))) as [s1 Hs1].
  destruct (mean_or_0_returns (quality_scores (r :: rest))) as [m2 Hm2].
  destruct (stdev_or_0_returns (quality_scores (r :: rest))) as [s2 Hs2].
  rewrite Hm1, Hs1, Hm2, Hs2. simpl. intros [= <-]. simpl.
  repeat split; auto. discriminate.
Qed.

End StatisticsFurther.

Section ValidationRuns.
Context `{Runtime} {W : Type} `{AISystemInterface W}.

(** X9. A statistical validation with no run raises a division by zero.
    With at least one run it returns: it holds one result per run, in run
    order, records the number of runs, the test case and the
    configuration's identifier, and its success rate is the number of
    successful results divided by the number of runs, between 0 and 1. *)
Theorem statistical_validation_runs
    (env : nat -> W * Clock) (config : AIModelConfiguration)
    (test_case : TestCase) (num_runs : nat) :
  (num_runs = 0%nat ->
   run_statistical_validation env config test_case num_runs
   = Raise "division by zero")
  /\ ((0 < num_runs)%nat ->
      exists st,
        run_statistical_validation env config test_case num_runs = Ret st
        /\ run_trials (map env (seq 0 num_runs)) config test_case
           = Ret (st_individual_results st)
        /\ List.length (st_individual_results st) = num_runs
        /\ st_num_runs st = num_runs
        /\ st_test_case_id st = id test_case
        /\ st_config_hash st = get_config_hash config
        /\ st_success_rate st
           == Qlen (filter success (st_individual_results st))
              / inject_Z (Z.of_nat num_runs)
        /\ 0 <= st_success_rate st <= 1).
Proof.
  split.
  - intros ->. reflexivity.
  - intro Hruns.
    destruct (run_statistical_validation_returns env config test_case
                num_runs Hruns) as (results & st & Htrials & Hlen & Hst & Hrun).
    exists st. split; [exact Hrun |].
    destruct (statistical_analysis_fields _ _ _ _ _ Hst) as (Hind & _).
    destruct (statistical_analysis_header _ _ _ _ _ Hst)
      as (_ & Hid & Hhash & Hn & Hrate & _).
    rewrite Hind, Hrate. unfold Qlen. rewrite Hlen.
    repeat split; auto; try reflexivity.
    + apply ratio_bounds; [| exact Hruns].
      rewrite <- Hlen. apply filter_length_le.
    + apply ratio_bounds; [| exact Hruns].
      rewrite <- Hlen. apply filter_length_le.
Qed.

End ValidationRuns.

Lemma quality_scores_none results :
  (forall r, In r results -> quality_score r = None) ->
  quality_scores results = [].
Proof.
  induction results as [| r rest IH]; intro Hall; [reflexivity |].
  simpl. rewrite (Hall r) by (left; reflexivity).
  apply IH. intros r' Hin. apply Hall. right. exact Hin.
Qed.

Lemma quality_scores_In results q :
  In q (quality_scores results) <->
  exists r, In r results /\ quality_score r = Some q.
Proof.
  induction results as [| r rest IH]; simpl.
  - split; [intros [] | intros (r & [] & _)].
  - destruct (quality_score r) as [q' |] eqn:E; simpl; rewrite ?IH; split.
    + intros [<- | (r' & Hin & Hq)]; eauto.
    + intros (r' & [<- | Hin] & Hq); [left; congruence | right; eauto].
    + intros (r' & Hin & Hq). eauto.
    + intros (r' & [<- | Hin] & Hq); [congruence | eauto].
Qed.

Lemma reciprocal_is_one (n : nat) :
  (0 < n)%nat -> (1.0 / inject_Z (Z.of_nat n) == 1 <-> n = 1%nat).
Proof.
  intro Hn. split.
  - intro Hq. destruct (Nat.eq_dec n 1) as [| Hne]; [assumption | exfalso].
    assert (Hbig : 2 <= inject_Z (Z.of_nat n)).
    { change 2 with (inject_Z 2). rewrite <- Zle_Qle. lia. }
    assert (Hhalf : 1.0 / inject_Z (Z.of_nat n) <= 0.5).
    { apply Qle_shift_div_r; lra. }
    rewrite Hq in Hhalf. vm_compute in Hhalf. apply Hhalf. reflexivity.
  - intros ->. reflexivity.
Qed.

Section StatisticsEdges.
Context `{Runtime}.

(** X10. In the analysis of a single trial both standard deviations are 0
    and the mean latency is the latency of that trial. When no trial has a
    quality score (every call failed) the mean quality and its standard
    deviation are reported as 0. When all defined quality scores lie in
    [0,1], so does their mean. *)
Theorem statistics_edge_cases
    (config : AIModelConfiguration) (test_case : TestCase) (num_runs : nat)
    (results : list TestResult) (st : Statistics) :
  statistical_analysis config test_case num_runs results = Ret st ->
  (forall r, results = [r] ->
     st_execution_time_std st = 0
     /\ st_quality_score_std st = 0
     /\ st_avg_execution_time_ms st == execution_time_ms r)
  /\ ((forall r, In r results -> quality_score r = None) ->
      st_avg_quality_score st = 0 /\ st_quality_score_std st = 0)
  /\ ((forall r q, In r results -> quality_score r = Some q -> 0 <= q <= 1) ->
      0 <= st_avg_quality_score st <= 1).
Proof.
  intro Hst.
  destruct (statistical_analysis_fields _ _ _ _ _ Hst)
    as (_ & _ & _ & Hmean & Hstd).
  destruct (statistical_analysis_header _ _ _ _ _ Hst)
    as (_ & _ & _ & _ & _ & Htmean & Htstd).
  split; [| split].
  - intros r ->. simpl in Htmean, Htstd, Hstd.
    unfold stdev_or_0 in Htstd, Hstd. simpl in Htstd.
    injection Htmean as <-. injection Htstd as <-.
    destruct (quality_score r); simpl in Hstd; injection Hstd as <-.
    + repeat split. unfold Qlen. simpl. field.
    + repeat split. unfold Qlen. simpl. field.
  - intro Hnone. rewrite (quality_scores_none _ Hnone) in Hmean, Hstd.
    simpl in Hmean. unfold stdev_or_0 in Hstd. simpl in Hstd.
    split; congruence.
  - intro Hrange.
    destruct (quality_scores results) as [| q qs] eqn:Eqs.
    + simpl in Hmean. injection Hmean as <-. lra.
    + destruct (mean_bounds 0 1 (q :: qs)) as (m & Hm & Hbounds);
        [discriminate | |].
      * intros x Hx. rewrite <- Eqs in Hx.
        apply quality_scores_In in Hx as (r & Hin & Hq). eauto.
      * simpl in Hmean. simpl in Hm. congruence.
Qed.

Lemma unique_outputs_length_le results :
  (List.length (unique_outputs results) <= List.length results)%nat.
Proof.
  unfold unique_outputs.
  eapply Nat.le_trans; [apply NoDup_incl_length |].
  - apply NoDup_nodup.
  - intros s Hs. apply nodup_In in Hs. exact Hs.
  - rewrite length_map. apply filter_length_le.
Qed.

(** X11. The number of distinct outputs never exceeds the number of
    trials. The consistency score is 1 exactly when there is exactly one
    distinct output, that is, when some trial has an output and all the
    outputs that exist read the same; there is no distinct output exactly
    when no trial has an output. *)
Theorem perfect_consistency
    (config : AIModelConfiguration) (test_case : TestCase) (num_runs : nat)
    (results : list TestResult) (st : Statistics) :
  statistical_analysis config test_case num_runs results = Ret st ->
  (st_unique_outputs st <= List.length results)%nat
  /\ (st_consistency_score st == 1 <-> st_unique_outputs st = 1%nat)
  /\ (st_unique_outputs st = 1%nat <->
      (exists r, In r results /\ output r <> VNone)
      /\ forall r1 r2, In r1 results -> In r2 results ->
           output r1 <> VNone -> output r2 <> VNone ->
           py_str (output r1) = py_str (output r2))
  /\ (st_unique_outputs st = 0%nat <->
      forall r, In r results -> output r = VNone).
Proof.
  intro Hst.
  destruct (statistical_analysis_fields _ _ _ _ _ Hst)
    as (_ & Hcons & Huniq & _).
  rewrite Hcons, Huniq.
  destruct (unique_outputs_distinct results) as [Hnd Hin].
  split; [apply unique_outputs_length_le | split; [| split]].
  - unfold consistency_score_of, Qlen.
    destruct (unique_outputs results) as [| s u] eqn:Eu.
    + split; [intro Hq; vm_compute in Hq; discriminate | discriminate].
    + apply reciprocal_is_one. simpl. lia.
  - split.
    + intro Hone.
      destruct (unique_outputs results) as [| s [| s' u]]; try discriminate.
      split.
      * destruct (proj1 (Hin s) (or_introl eq_refl)) as (r & Hr & Hnone & _).
        eauto.
      * intros r1 r2 H1 H2 Hn1 Hn2.
        assert (I1 : In (py_str (output r1)) [s]) by (apply Hin; eauto).
        assert (I2 : In (py_str (output r2)) [s]) by (apply Hin; eauto).
        destruct I1 as [<- | []], I2 as [<- | []]. reflexivity.
    + intros [(r & Hr & Hnone) Hsame].
      destruct (unique_outputs results) as [| s [| s' u]] eqn:Eu.
      * exfalso. apply (proj2 (Hin (py_str (output r)))). eauto.
      * reflexivity.
      * exfalso.
        destruct (proj1 (Hin s) (or_introl eq_refl)) as (r1 & H1 & Hn1 & E1).
        destruct (proj1 (Hin s') (or_intror (or_introl eq_refl)))
          as (r2 & H2 & Hn2 & E2).
        inversion Hnd as [| x l' Hnotin Hnd'].
        apply Hnotin. left. rewrite <- E1, <- E2.
        symmetry. apply Hsame; assumption.
  - split.
    + intros Hzero r Hr.
      destruct (unique_outputs results) as [| s u]; [| discriminate].
      destruct (output r) eqn:Eo; [reflexivity | exfalso ..];
        apply (proj2 (Hin (py_str (output r))));
        exists r; rewrite Eo; repeat split; auto; discriminate.
    + intro Hall.
      destruct (unique_outputs results) as [| s u]; [reflexivity |].
      destruct (proj1 (Hin s) (or_introl eq_refl)) as (r & Hr & Hnone & _).
      exfalso. apply Hnone. apply Hall. exact Hr.
Qed.

End StatisticsEdges.

Lemma Qsum_perm (l l' : list Q) : Permutation l l' -> Qsum l == Qsum l'.
Proof.
  induction 1; simpl; lra.
Qed.

Lemma filter_perm {A} (f : A -> bool) (l l' : list A) :
  Permutation l l' -> Permutation (filter f l) (filter f l').
Proof.
  induction 1 as [| x l l' Hp IH | x y l | l l' l'' H1 IH1 H2 IH2]; simpl.
  - constructor.
  - destruct (f x); [apply perm_skip |]; exact IH.
  - destruct (f x), (f y); try apply perm_swap; apply Permutation_refl.
  - eapply perm_trans; eassumption.
Qed.

Lemma quality_scores_perm results results' :
  Permutation results results' ->
  Permutation (quality_scores results) (quality_scores results').
Proof.
  induction 1 as [| r l l' Hp IH | r1 r2 l | l l' l'' H1 IH1 H2 IH2]; simpl.
  - constructor.
  - destruct (quality_score r); [apply perm_skip |]; exact IH.
  - destruct (quality_score r1), (quality_score r2);
      try apply perm_swap; apply Permutation_refl.
  - eapply perm_trans; eassumption.
Qed.

Lemma unique_outputs_perm results results' :
  Permutation results results' ->
  List.length (unique_outputs results) = List.length (unique_outputs results').
Proof.
  intro Hp.
  destruct (unique_outputs_distinct results) as [Hnd Hin].
  destruct (unique_outputs_distinct results') as [Hnd' Hin'].
  apply Permutation_length. apply NoDup_Permutation; auto.
  intro s. rewrite Hin, Hin'. split; intros (r & Hr & Hrest);
    exists r; (split; [| exact Hrest]).
  - eapply Permutation_in; eassumption.
  - eapply Permutation_in; [apply Permutation_sym |]; eassumption.
Qed.

Lemma mean_or_0_perm (l l' : list Q) m m' :
  Permutation l l' -> mean_or_0 l = Ret m -> mean_or_0 l' = Ret m' -> m == m'.
Proof.
  intros Hp Hm Hm'.
  pose proof (Qsum_perm _ _ Hp) as Hsum.
  pose proof (Permutation_length Hp) as Hlen.
  destruct l as [| x t], l' as [| x' t']; try discriminate Hlen.
  - simpl in Hm, Hm'. injection Hm as <-. injection Hm' as <-. reflexivity.
  - simpl in Hm, Hm'. injection Hm as <-. injection Hm' as <-.
    unfold Qlen. rewrite Hlen. simpl in Hsum. simpl Qsum. rewrite Hsum.
    reflexivity.
Qed.

Section OrderOfTrials.
Context `{Runtime}.

(** X12. The success rate, the number of distinct outputs, the consistency
    score, the mean latency and the mean quality do not depend on the order
    of the trials. *)
Theorem statistics_independent_of_trial_order
    (config : AIModelConfiguration) (test_case : TestCase) (num_runs : nat)
    (results results' : list TestResult) (st st' : Statistics) :
  Permutation results results' ->
  statistical_analysis config test_case num_runs results = Ret st ->
  statistical_analysis config test_case num_runs results' = Ret st' ->
  st_success_rate st == st_success_rate st'
  /\ st_unique_outputs st = st_unique_outputs st'
  /\ st_consistency_score st == st_consistency_score st'
  /\ st_avg_execution_time_ms st == st_avg_execution_time_ms st'
  /\ st_avg_quality_score st == st_avg_quality_score st'.
Proof.
  intros Hp Hst Hst'.
  destruct (statistical_analysis_fields _ _ _ _ _ Hst)
    as (_ & Hcons & Huniq & Hmean & _).
  destruct (statistical_analysis_fields _ _ _ _ _ Hst')
    as (_ & Hcons' & Huniq' & Hmean' & _).
  destruct (statistical_analysis_header _ _ _ _ _ Hst)
    as (_ & _ & _ & _ & Hrate & Htime & _).
  destruct (statistical_analysis_header _ _ _ _ _ Hst')
    as (_ & _ & _ & _ & Hrate' & Htime' & _).
  pose proof (unique_outputs_perm _ _ Hp) as Hu.
  repeat split.
  - rewrite Hrate, Hrate'. unfold Qlen.
    rewrite (Permutation_length Hp).
    rewrite (Permutation_length (filter_perm success _ _ Hp)).
    reflexivity.
  - congruence.
  - rewrite Hcons, Hcons'. unfold consistency_score_of, Qlen.
    destruct (unique_outputs results), (unique_outputs results');
      try discriminate Hu; [reflexivity |].
    rewrite Hu. reflexivity.
  - eapply mean_or_0_perm; [| exact Htime | exact Htime'].
    apply Permutation_map. exact Hp.
  - eapply mean_or_0_perm; [| exact Hmean | exact Hmean'].
    apply quality_scores_perm. exact Hp.
Qed.

End OrderOfTrials.

(** X10, applied to the analysis of three timed-out trials: no quality is
    defined, and the quality fields read 0. *)
Lemma statistics_edge_cases_witness :
  exists st,
    @statistical_analysis Samples.sample_runtime Samples.model_pro
      Samples.addition 3 Samples.results_down = Ret st
    /\ st_avg_quality_score st = 0 /\ st_quality_score_std st = 0.
Proof.
  eexists. split; [vm_compute; reflexivity |].
  refine (proj1 (proj2
            (@statistics_edge_cases Samples.sample_runtime Samples.model_pro
               Samples.addition 3 Samples.results_down _ _)) _).
  - vm_compute. reflexivity.
  - intros r [<- | [<- | [<- | []]]]; reflexivity.
Defined.

(** X11, applied to the results 4, 5, 4: two distinct outputs, not more
    than the three trials. *)
Lemma perfect_consistency_witness :
  exists st,
    @statistical_analysis Samples.sample_runtime Samples.model_pro
      Samples.addition 3 Samples.results_4_5_4 = Ret st
    /\ (st_unique_outputs st <= 3)%nat
    /\ (st_consistency_score st == 1 <-> st_unique_outputs st = 1%nat).
Proof.
  eexists. split; [vm_compute; reflexivity |].
  refine (let H :=
            @perfect_consistency Samples.sample_runtime Samples.model_pro
              Samples.addition 3 Samples.results_4_5_4 _ _ in
          conj (proj1 H) (proj1 (proj2 H))).
  vm_compute. reflexivity.
Defined.

(** X12, applied to the results 4, 5, 4 and the same results in reverse
    order. *)
Lemma statistics_independent_of_trial_order_witness :
  exists st st',
    @statistical_analysis Samples.sample_runtime Samples.model_pro
      Samples.addition 3 Samples.results_4_5_4 = Ret st
    /\ @statistical_analysis Samples.sample_runtime Samples.model_pro
         Samples.addition 3 (rev Samples.results_4_5_4) = Ret st'
    /\ st_success_rate st == st_success_rate st'
    /\ st_consistency_score st == st_consistency_score st'.
Proof.
  do 2 eexists. split; [vm_compute; reflexivity |].
  split; [vm_compute; reflexivity |].
  refine (let H :=
            @statistics_independent_of_trial_order Samples.sample_runtime
              Samples.model_pro Samples.addition 3 Samples.results_4_5_4
              (rev Samples.results_4_5_4) _ _ (Permutation_rev _) _ _ in
          conj (proj1 H) (proj1 (proj2 (proj2 H)))).
  - vm_compute. reflexivity.
  - vm_compute. reflexivity.
Defined.

(** ** [AISystemTester._analyze_model_comparison] *)





Lemma sorted_head_is_highest (h : ConfigPerformance) (t : list ConfigPerformance) :
  StronglySorted ranks_before (h :: t) ->
  forall c, In c (h :: t) ->
    cp_overall_success_rate c <= cp_overall_success_rate h.
Proof.
  intros Hs c [<- | Hc]; [lra |].
  inversion Hs as [| ? ? _ Hall]; subst.
  rewrite Forall_forall in Hall. apply (Hall _ Hc).
Qed.

Section Comparison.
Context `{Runtime}.

(** X13. With no configuration the comparison is empty: no best
    configuration, no ranking, no insight. Otherwise the best configuration
    is one of the configurations, no configuration has a higher mean
    success rate, and among the configurations with that rate it is the one
    inserted first. *)
Theorem best_configuration (config_results : ConfigurationResults) :
  let comparison := _analyze_model_comparison config_results in
  let input := map config_performance_of config_results in
  (config_results = [] ->
   best_overall_configuration comparison = None
   /\ configuration_rankings comparison = []
   /\ performance_insights comparison = [])
  /\ (config_results <> [] ->
      exists best,
        best_overall_configuration comparison = Some best
        /\ In best input
        /\ (forall c, In c input ->
              cp_overall_success_rate c <= cp_overall_success_rate best)
        /\ hd_error (with_rate (cp_overall_success_rate best) input)
           = Some best).
Proof.
  cbv zeta. split.
  - intros ->. repeat split.
  - intro Hne.
    destruct (rankings_are_sorted_input config_results) as [_ Hbest].
    rewrite Hbest.
    pose proof (sort_by_rate_perm (map config_performance_of config_results))
      as Hperm.
    pose proof (sort_by_rate_sorted (map config_performance_of config_results))
      as Hsorted.
    pose proof (fun r =>
                  sort_by_rate_stable r
                    (map config_performance_of config_results)) as Hstable.
    destruct (sort_by_rate_desc (map config_performance_of config_results))
      as [| best rest] eqn:Esort.
    + apply Permutation_sym, Permutation_nil in Hperm.
      destruct config_results; [congruence | discriminate].
    + exists best. split; [reflexivity | split; [| split]].
      * eapply Permutation_in; [apply Permutation_sym; exact Hperm |].
        left. reflexivity.
      * intros c Hc. apply (sorted_head_is_highest best rest Hsorted).
        eapply Permutation_in; eassumption.
      * rewrite <- Hstable. unfold with_rate. simpl.
        rewrite (proj2 (Qeq_bool_iff _ _) (Qeq_refl _)). reflexivity.
Qed.


End Comparison.

(** ** [AISystemTester._analyze_test_case_difficulty] *)

Section DifficultyFurther.
Context `{Runtime}.

Lemma analyze_one_consistency (success_rates : list Q) entry :
  analyze_one success_rates = Ret entry ->
  success_rates_by_config entry = success_rates
  /\ (List.length success_rates = 1%nat ->
      consistency_across_models entry = 1.0)
  /\ ((1 < List.length success_rates)%nat ->
      exists sd,
        stdev success_rates = Ret sd
        /\ consistency_across_models entry = 1.0 - sd).
Proof.
  unfold analyze_one.
  destruct success_rates as [| x [| y rest]]; simpl.
  - discriminate.
  - intros [= <-]. simpl. repeat split. intro Hlt. lia.
  - intros [= <-]. simpl. repeat split.
    + discriminate.
    + intros _. eexists. split; reflexivity.
Qed.

(** X15. The difficulty analysis never raises. It holds exactly one entry
    for every test case that has a result under some configuration. The
    entry lists the test case's success rates in configuration order; its
    consistency across models is 1.0 when there is a single rate, and 1.0
    minus the standard deviation of the rates otherwise. *)
Theorem difficulty_analysis_structure (config_results : ConfigurationResults) :
  exists analysis,
    _analyze_test_case_difficulty config_results = Ret analysis
    /\ NoDup (map fst analysis)
    /\ (forall tid,
          In tid (map fst analysis)
          <-> In tid (map fst (all_entries config_results)))
    /\ (forall tid entry, In (tid, entry) analysis ->
          success_rates_by_config entry
          = success_rates_of tid config_results
          /\ success_rates_by_config entry <> []
          /\ (List.length (success_rates_by_config entry) = 1%nat ->
              consistency_across_models entry = 1.0)
          /\ ((1 < List.length (success_rates_by_config entry))%nat ->
              exists sd,
                stdev (success_rates_by_config entry) = Ret sd
                /\ consistency_across_models entry = 1.0 - sd)).
Proof.
  destruct (test_case_performance_spec config_results) as (Hnd & Hcover & Hspec).
  destruct (analyze_all_returns (test_case_performance_of config_results))
    as (analysis & Hall & Hkeys & Hentries).
  { intros tid rs Hin. apply (Hspec tid rs Hin). }
  exists analysis. split; [exact Hall |].
  rewrite Hkeys. split; [exact Hnd | split].
  - intro tid. split; [| apply Hcover].
    rewrite test_case_performance_flat. intro Hin.
    apply grouped_keys in Hin as [Hin | []]. exact Hin.
  - intros tid entry Hin.
    destruct (Hentries tid entry Hin) as (rs & Hin' & Hone).
    destruct (Hspec tid rs Hin') as (Hrs & Hne).
    destruct (analyze_one_consistency rs entry Hone) as (Hby & H1 & H2).
    rewrite Hby. subst rs. auto.
Qed.

End DifficultyFurther.

(** ** [AISystemTester.run_comprehensive_test_suite] *)

Section DictSet.
Context {A : Type}.

Lemma dict_set_keys k (v : A) d k' :
  In k' (map fst (dict_set k v d)) <-> k' = k \/ In k' (map fst d).
Proof.
  induction d as [| [k0 v0] t IH]; simpl.
  - intuition.
  - destruct (k0 =? k)%string eqn:E; simpl.
    + apply String.eqb_eq in E. subst. intuition.
    + rewrite IH. intuition.
Qed.

Lemma dict_set_NoDup k (v : A) d :
  NoDup (map fst d) -> NoDup (map fst (dict_set k v d)).
Proof.
  induction d as [| [k0 v0] t IH]; simpl; intro Hnd.
  - constructor; [intros [] | constructor].
  - inversion Hnd as [| ? ? Hnotin Hnd']; subst.
    destruct (k0 =? k)%string eqn:E; simpl.
    + constructor; assumption.
    + constructor; [| auto].
      rewrite dict_set_keys. intros [-> | Hin]; [| contradiction].
      rewrite String.eqb_refl in E. discriminate.
Qed.

Lemma dict_set_In k (v : A) d k' v' :
  In (k', v') (dict_set k v d) -> (k' = k /\ v' = v) \/ In (k', v') d.
Proof.
  induction d as [| [k0 v0] t IH]; simpl.
  - intros [[= <- <-] | []]. auto.
  - destruct (k0 =? k)%string eqn:E; simpl.
    + apply String.eqb_eq in E. subst k0.
      intros [[= <- <-] | Hin]; auto.
    + intros [Heq | Hin]; [auto |].
      destruct (IH Hin) as [Hnew | Hold]; auto.
Qed.

Lemma dict_set_length k (v : A) d :
  (List.length d <= List.length (dict_set k v d) <= S (List.length d))%nat
  /\ (~ In k (map fst d) ->
      List.length (dict_set k v d) = S (List.length d)).
Proof.
  induction d as [| [k0 v0] t [IHle IHnew]]; simpl.
  - split; [lia | reflexivity].
  - destruct (k0 =? k)%string eqn:E; simpl.
    + apply String.eqb_eq in E. subst k0. split; [lia |].
      intro Hnot. exfalso. apply Hnot. left. reflexivity.
    + split; [lia |]. intro Hnot. rewrite IHnew; [reflexivity |].
      intro Hin. apply Hnot. right. exact Hin.
Qed.

End DictSet.

Lemma filter_complement_length (l : list Q) :
  (List.length (filter (fun r => Qle_bool 0.8 r) l)
   + List.length (filter (fun r => Qgtb 0.8 r) l))%nat
  = List.length l.
Proof.
  induction l as [| x t IH]; [reflexivity |].
  simpl. unfold Qgtb in *. destruct (Qle_bool 0.8 x); simpl; lia.
Qed.

(** The metrics of a configuration exist exactly when it has at least one
    test case entry. *)
Lemma overall_metrics_of_returns (results : list (string * TestCaseEntry)) :
  results <> [] ->
  (forall item, In item results -> entry_in_range (snd item)) ->
  exists metrics,
    overall_metrics_of results = Ret metrics
    /\ (tests_passed metrics + tests_failed metrics)%nat = List.length results
    /\ mean (map (fun item => entry_success_rate (snd item)) results)
       = Ret (overall_success_rate metrics)
    /\ 0 <= overall_success_rate metrics <= 1
    /\ 0 <= avg_consistency metrics <= 1
    /\ ((forall item, In item results -> entry_consistency (snd item) = 0) ->
        avg_consistency metrics == 0).
Proof.
  intros Hne Hrange. unfold overall_metrics_of.
  destruct (mean_bounds 0 1
              (map (fun item => entry_success_rate (snd item)) results))
    as (m & Hm & Hmb).
  { destruct results; [congruence | discriminate]. }
  { intros x Hx. apply in_map_iff in Hx as (item & <- & Hin).
    apply (Hrange item Hin). }
  destruct (mean_bounds 0 1
              (map (fun item => entry_consistency (snd item)) results))
    as (c & Hc & Hcb).
  { destruct results; [congruence | discriminate]. }
  { intros x Hx. apply in_map_iff in Hx as (item & <- & Hin).
    apply (Hrange item Hin). }
  rewrite Hm, Hc. simpl. eexists. split; [reflexivity |]. simpl.
  split; [rewrite filter_complement_length; apply length_map |].
  split; [reflexivity | split; [exact Hmb | split; [exact Hcb |]]].
  intro Hzero.
  destruct (mean_bounds 0 0
              (map (fun item => entry_consistency (snd item)) results))
    as (c' & Hc' & Hcb').
  { destruct results; [congruence | discriminate]. }
  { intros x Hx. apply in_map_iff in Hx as (item & <- & Hin).
    rewrite (Hzero item Hin). lra. }
  assert (c' = c) by congruence. subst c'. lra.
Qed.

Lemma overall_metrics_of_empty :
  overall_metrics_of [] = Raise "mean requires at least one data point".
Proof. reflexivity. Qed.

Section SuiteSteps.
Context `{Runtime} {W : Type} `{AISystemInterface W}.

Lemma statistical_entry_in_range config test_case num_runs results st :
  statistical_analysis config test_case num_runs results = Ret st ->
  entry_in_range (StatisticalEntry st).
Proof.
  intro Hst. unfold entry_in_range. simpl.
  destruct (statistical_analysis_header _ _ _ _ _ Hst)
    as (Hne & _ & _ & _ & Hrate & _).
  destruct (statistical_analysis_fields _ _ _ _ _ Hst) as (_ & Hcons & _).
  split.
  - rewrite Hrate. unfold Qlen. apply ratio_bounds.
    + apply filter_length_le.
    + destruct results; [congruence | simpl; lia].
  - rewrite Hcons.
    destruct (consistency_score_cases results)
      as [[_ Hzero] | (_ & _ & Hlo & Hhi)]; [rewrite Hzero |]; lra.
Qed.

(** One test case under one configuration: the entry that is recorded and
    what becomes of [self.test_results]. *)
Lemma run_test_case_returns (env : nat -> W * Clock) statistical_runs config
    (test_case : TestCase) recorded :
  exists recorded' entry,
    run_test_case env statistical_runs config test_case recorded
    = (recorded', Ret entry)
    /\ entry_of_mode statistical_runs entry
    /\ entry_in_range entry
    /\ ((1 < statistical_runs)%Z -> recorded' = recorded)
    /\ ((statistical_runs <= 1)%Z ->
        entry_consistency entry = 0
        /\ exists r,
             run_single_test (fst (env 0%nat)) (snd (env 0%nat)) config
               test_case = Ret r
             /\ recorded' = (recorded ++ [r])%list).
Proof.
  unfold run_test_case.
  destruct (1 <? statistical_runs)%Z eqn:Emode.
  - apply Z.ltb_lt in Emode.
    destruct (run_statistical_validation_returns env config test_case
                (Z.to_nat statistical_runs))
      as (results & st & Htrials & Hlen & Hst & Hrun); [lia |].
    rewrite Hrun. simpl. exists recorded, (StatisticalEntry st).
    split; [reflexivity |].
    destruct (statistical_analysis_fields _ _ _ _ _ Hst) as (Hind & _).
    destruct (statistical_analysis_header _ _ _ _ _ Hst)
      as (_ & _ & _ & Hn & _).
    split; [simpl; rewrite Hind; auto |].
    split; [eapply statistical_entry_in_range; exact Hst |].
    split; [reflexivity | lia].
  - apply Z.ltb_ge in Emode.
    rewrite run_single_test_paths. eexists. eexists.
    split; [reflexivity |].
    split; [simpl; split; [exact Emode | eexists; split; reflexivity] |].
    split.
    + unfold entry_in_range. simpl.
      match goal with |- context [if success ?r then _ else _] =>
        destruct (success r) end; lra.
    + split; [lia |]. intros _. split; [reflexivity |].
      eexists. split; reflexivity.
Qed.

(** The loop over the test cases of one configuration. *)
Lemma run_test_cases_returns (env : nat -> nat -> W * Clock) statistical_runs
    config (cases : list TestCase) :
  forall i results recorded,
    (forall item, In item results ->
       entry_of_mode statistical_runs (snd item)
       /\ entry_in_range (snd item)
       /\ ((statistical_runs <= 1)%Z -> entry_consistency (snd item) = 0)) ->
    exists recorded' results',
      run_test_cases env statistical_runs config cases i results recorded
      = (recorded', Ret results')
      /\ (forall item, In item results' ->
            entry_of_mode statistical_runs (snd item)
            /\ entry_in_range (snd item)
            /\ ((statistical_runs <= 1)%Z ->
                entry_consistency (snd item) = 0))
      /\ (forall k, In k (map fst results') <->
                    In k (test_case_ids cases) \/ In k (map fst results))
      /\ (NoDup (map fst results) -> NoDup (map fst results'))
      /\ ((1 < statistical_runs)%Z -> recorded' = recorded)
      /\ ((statistical_runs <= 1)%Z ->
          exists added,
            recorded' = (recorded ++ added)%list
            /\ List.length added = List.length cases).
Proof.
  induction cases as [| test_case rest IH]; intros i results recorded Hinit.
  - exists recorded, results. simpl. split; [reflexivity |].
    split; [exact Hinit |]. split; [intuition |]. split; [auto |].
    split; [auto |]. intros _. exists []. rewrite app_nil_r. auto.
  - simpl.
    destruct (run_test_case_returns (env i) statistical_runs config test_case
                recorded)
      as (recorded1 & entry & -> & Hmode & Hrange & Hkeep & Hsingle).
    destruct (IH (S i) (dict_set (id test_case) entry results) recorded1)
      as (recorded' & results' & Hrun & Hall & Hkeys & Hnd & Hstat & Hone).
    { intros [k e] Hin. apply dict_set_In in Hin as [[-> ->] | Hin].
      - simpl. split; [exact Hmode | split; [exact Hrange |]].
        intro Hle. apply (Hsingle Hle).
      - apply (Hinit _ Hin). }
    exists recorded', results'. split; [exact Hrun |].
    split; [exact Hall |]. split; [| split; [| split]].
    + intro k. rewrite Hkeys, dict_set_keys. simpl. intuition.
    + intro Hnd0. apply Hnd. apply dict_set_NoDup. exact Hnd0.
    + intro Hlt. rewrite (Hstat Hlt). apply Hkeep. exact Hlt.
    + intro Hle. destruct (Hone Hle) as (added & -> & Hlen).
      destruct (Hsingle Hle) as (_ & r & _ & ->).
      exists (r :: added). rewrite <- app_assoc. simpl. auto.
Qed.

End SuiteSteps.

Section SuiteLoop.
Context `{Runtime} {W : Type} `{AISystemInterface W}.

(** The loop over the configurations, for a non-empty list of test
    cases. *)
Lemma run_configurations_returns (env : nat -> nat -> nat -> W * Clock)
    statistical_runs (cases : list TestCase)
    (all_configs : list AIModelConfiguration) :
  cases <> [] ->
  forall configs c config_results recorded,
    (forall config, In config configs -> In config all_configs) ->
    (forall item, In item config_results ->
       recorded_for statistical_runs cases all_configs item) ->
    exists recorded' config_results',
      run_configurations env statistical_runs cases configs c config_results
        recorded
      = (recorded', Ret config_results')
      /\ (forall item, In item config_results' ->
            recorded_for statistical_runs cases all_configs item)
      /\ (forall h, In h (map fst config_results') <->
                    In h (map get_config_hash configs)
                    \/ In h (map fst config_results))
      /\ (NoDup (map fst config_results) -> NoDup (map fst config_results'))
      /\ (List.length config_results' <=
          List.length config_results + List.length configs)%nat
      /\ (NoDup (map get_config_hash configs) ->
          (forall config, In config configs ->
             ~ In (get_config_hash config) (map fst config_results)) ->
          List.length config_results'
          = (List.length config_results + List.length configs)%nat)
      /\ ((1 < statistical_runs)%Z -> recorded' = recorded)
      /\ ((statistical_runs <= 1)%Z ->
          exists added,
            recorded' = (recorded ++ added)%list
            /\ List.length added
               = (List.length configs * List.length cases)%nat).
Proof.
  intro Hcases.
  induction configs as [| config rest IH];
    intros c config_results recorded Hsub Hinit.
  - exists recorded, config_results. simpl. split; [reflexivity |].
    split; [exact Hinit |]. split; [intuition |]. split; [auto |].
    split; [lia |]. split; [intros; lia |]. split; [auto |].
    intros _. exists []. rewrite app_nil_r. auto.
  - simpl.
    destruct (run_test_cases_returns (env c) statistical_runs config cases
                0%nat [] recorded)
      as (recorded1 & results & -> & Hentries & Hkeys & Hnd & Hkeep & Hone).
    { intros item []. }
    assert (Hne : results <> []).
    { destruct cases as [| tc cs]; [congruence |].
      intros ->. apply (proj2 (Hkeys (id tc))). left. left. reflexivity. }
    destruct (overall_metrics_of_returns results Hne)
      as (metrics & -> & Hsum & Hmean & Hrate & Hcons & Hzero).
    { intros item Hin. apply (Hentries item Hin). }
    destruct (IH (S c)
                (dict_set (get_config_hash config)
                   {| configuration := config; test_case_results := results;
                      overall_metrics := metrics |} config_results)
                recorded1)
      as (recorded' & cr' & Hrun & Hall & Hk & Hnd' & Hlen & Hleneq & Hstat
          & Hsingle).
    { intros cfg Hin. apply Hsub. right. exact Hin. }
    { intros [h res] Hin. apply dict_set_In in Hin as [[-> ->] | Hin];
        [| apply (Hinit _ Hin)].
      unfold recorded_for. simpl.
      split; [exists config; split; [apply Hsub; left; reflexivity | auto] |].
      split; [apply Hnd; constructor |].
      split; [intro tid; rewrite Hkeys; simpl; intuition |].
      split; [intros e He; split; apply (Hentries e He) |].
      split; [exact Hsum |]. split; [exact Hmean |].
      split; [exact Hrate |]. split; [exact Hcons |].
      intro Hle. apply Hzero. intros item Hin. apply (Hentries item Hin).
      exact Hle. }
    exists recorded', cr'. split; [exact Hrun |]. split; [exact Hall |].
    pose proof (dict_set_length (get_config_hash config)
                  {| configuration := config; test_case_results := results;
                     overall_metrics := metrics |} config_results)
      as [Hle1 Hnew1].
    split; [| split; [| split; [| split; [| split]]]].
    + intro h. rewrite Hk, dict_set_keys. simpl. intuition.
    + intro Hnd0. apply Hnd'. apply dict_set_NoDup. exact Hnd0.
    + simpl. lia.
    + intros Hndh Hfresh. inversion Hndh as [| ? ? Hnotin Hndrest]; subst.
      rewrite Hleneq; [| exact Hndrest |].
      * rewrite Hnew1; [simpl; lia |]. apply Hfresh. left. reflexivity.
      * intros cfg Hin. rewrite dict_set_keys. intros [Heq | Hold].
        -- apply Hnotin. rewrite <- Heq. apply in_map. exact Hin.
        -- apply (Hfresh cfg); [right; exact Hin | exact Hold].
    + intro Hlt. rewrite (Hstat Hlt). apply Hkeep. exact Hlt.
    + intro Hle. destruct (Hsingle Hle) as (added & -> & Hadded).
      destruct (Hone Hle) as (added1 & -> & Hadded1).
      exists (added1 ++ added)%list. rewrite <- app_assoc.
      split; [reflexivity |]. rewrite length_app. simpl. lia.
Qed.

Lemma run_configurations_without_test_cases
    (env : nat -> nat -> nat -> W * Clock) statistical_runs config rest c
    config_results recorded :
  run_configurations env statistical_runs [] (config :: rest) c config_results
    recorded
  = (recorded, Raise "mean requires at least one data point").
Proof. reflexivity. Qed.

Lemma summary_statistics_returns (config_results : ConfigurationResults) :
  exists summary,
    _calculate_summary_statistics config_results = Ret summary
    /\ sm_configurations_tested summary = List.length config_results
    /\ total_tests_executed summary
       = fold_right Nat.add 0%nat
           (map (fun item => List.length (test_case_results (snd item)))
              config_results)
    /\ mean_or_0
         (map (fun item => overall_success_rate (overall_metrics (snd item)))
            config_results)
       = Ret (overall_avg_success_rate summary)
    /\ mean_or_0
         (map (fun item => avg_consistency (overall_metrics (snd item)))
            config_results)
       = Ret (overall_avg_consistency summary)
    /\ stdev_or_0
         (map (fun item => overall_success_rate (overall_metrics (snd item)))
            config_results)
       = Ret (success_rate_std summary)
    /\ stdev_or_0
         (map (fun item => avg_consistency (overall_metrics (snd item)))
            config_results)
       = Ret (consistency_std summary).
Proof.
  unfold _calculate_summary_statistics. cbv zeta.
  destruct (mean_or_0_returns
              (map (fun item => overall_success_rate (overall_metrics (snd item)))
                 config_results)) as [m1 ->].
  destruct (stdev_or_0_returns
              (map (fun item => overall_success_rate (overall_metrics (snd item)))
                 config_results)) as [s1 ->].
  destruct (mean_or_0_returns
              (map (fun item => avg_consistency (overall_metrics (snd item)))
                 config_results)) as [m2 ->].
  destruct (stdev_or_0_returns
              (map (fun item => avg_consistency (overall_metrics (snd item)))
                 config_results)) as [s2 ->].
  simpl. eexists. repeat split.
Qed.

End SuiteLoop.

Section Suite.
Context `{Runtime} {W : Type} `{AISystemInterface W}.

Lemma difficulty_analysis_keys (config_results : ConfigurationResults) :
  exists analysis,
    _analyze_test_case_difficulty config_results = Ret analysis
    /\ NoDup (map fst analysis)
    /\ forall tid,
         In tid (map fst analysis)
         <-> In tid (map fst (all_entries config_results)).
Proof.
  destruct (test_case_performance_spec config_results) as (Hnd & Hcover & Hspec).
  destruct (analyze_all_returns (test_case_performance_of config_results))
    as (analysis & Hall & Hkeys & _).
  { intros tid rs Hin. apply (Hspec tid rs Hin). }
  exists analysis. split; [exact Hall |]. rewrite Hkeys.
  split; [exact Hnd |]. intro tid. split; [| apply Hcover].
  rewrite test_case_performance_flat. intro Hin.
  apply grouped_keys in Hin as [Hin | []]. exact Hin.
Qed.

(** What a returned suite holds, read off the loop. *)
Lemma suite_returned (env : nat -> nat -> nat -> W * Clock)
    start_time end_time (self : Tester) statistical_runs recorded res :
  run_comprehensive_test_suite env start_time end_time self statistical_runs
  = (recorded, Ret res) ->
  (configurations self = [] \/ test_cases self <> [])
  /\ (forall item, In item (configuration_results res) ->
        recorded_for statistical_runs (test_cases self) (configurations self)
          item)
  /\ NoDup (map fst (configuration_results res))
  /\ (forall h, In h (map fst (configuration_results res))
                <-> In h (map get_config_hash (configurations self)))
  /\ (List.length (configuration_results res)
      <= List.length (configurations self))%nat
  /\ (NoDup (map get_config_hash (configurations self)) ->
      List.length (configuration_results res)
      = List.length (configurations self))
  /\ ((1 < statistical_runs)%Z -> recorded = test_results self)
  /\ ((statistical_runs <= 1)%Z ->
      exists added,
        recorded = (test_results self ++ added)%list
        /\ List.length added
           = (List.length (configurations self)
              * List.length (test_cases self))%nat)
  /\ test_metadata res
     = {| md_start_time := start_time;
          md_configurations_tested := List.length (configurations self);
          md_test_cases := List.length (test_cases self);
          md_statistical_runs_per_test := statistical_runs;
          md_end_time := end_time |}
  /\ model_comparison res
     = _analyze_model_comparison (configuration_results res)
  /\ _analyze_test_case_difficulty (configuration_results res)
     = Ret (test_case_analysis res)
  /\ _calculate_summary_statistics (configuration_results res)
     = Ret (summary_statistics res).
Proof.
  unfold run_comprehensive_test_suite.
  assert (Hloop :
            (configurations self <> [] /\ test_cases self = []
             /\ run_configurations env statistical_runs (test_cases self)
                  (configurations self) 0%nat [] (test_results self)
                = (test_results self,
                   Raise "mean requires at least one data point"))
            \/ ((configurations self = [] \/ test_cases self <> [])
                /\ exists recorded' cr,
                     run_configurations env statistical_runs (test_cases self)
                       (configurations self) 0%nat [] (test_results self)
                     = (recorded', Ret cr)
                     /\ (forall item, In item cr ->
                           recorded_for statistical_runs (test_cases self)
                             (configurations self) item)
                     /\ NoDup (map fst cr)
                     /\ (forall h, In h (map fst cr)
                                   <-> In h (map get_config_hash
                                               (configurations self)))
                     /\ (List.length cr
                         <= List.length (configurations self))%nat
                     /\ (NoDup (map get_config_hash (configurations self)) ->
                         List.length cr = List.length (configurations self))
                     /\ ((1 < statistical_runs)%Z ->
                         recorded' = test_results self)
                     /\ ((statistical_runs <= 1)%Z ->
                         exists added,
                           recorded' = (test_results self ++ added)%list
                           /\ List.length added
                              = (List.length (configurations self)
                                 * List.length (test_cases self))%nat))).
  { destruct (test_cases self) as [| tc cases] eqn:Ecases.
    - destruct (configurations self) as [| config rest] eqn:Econfigs.
      + right. split; [left; reflexivity |].
        exists (test_results self), []. simpl.
        split; [reflexivity |]. split; [intros item [] |].
        split; [constructor |]. split; [intuition |]. split; [lia |].
        split; [auto |]. split; [auto |].
        intros _. exists []. rewrite app_nil_r. auto.
      + left. split; [discriminate | split; reflexivity].
    - right. split; [right; discriminate |].
      destruct (run_configurations_returns env statistical_runs (tc :: cases)
                  (configurations self) ltac:(discriminate)
                  (configurations self) 0%nat [] (test_results self))
        as (recorded' & cr & Hrun & Hall & Hk & Hnd & Hlen & Hleneq & Hstat
            & Hsingle).
      { auto. }
      { intros item []. }
      exists recorded', cr. split; [exact Hrun |]. split; [exact Hall |].
      split; [apply Hnd; constructor |].
      split; [intro h; rewrite Hk; simpl; intuition |].
      split; [simpl in Hlen; lia |].
      split; [intro Hndh; rewrite Hleneq; auto |].
      split; [exact Hstat | exact Hsingle]. }
  destruct Hloop as [(_ & _ & ->) | (Hpre & recorded' & cr & -> & Hall & Hnd
                                     & Hk & Hlen & Hleneq & Hstat & Hsingle)];
    [discriminate |].
  destruct (difficulty_analysis_keys cr) as (analysis & Hana & _).
  destruct (summary_statistics_returns cr) as (summary & Hsum & _).
  rewrite Hana, Hsum. simpl. intros [= <- <-]. simpl.
  split; [exact Hpre |]. split; [exact Hall |]. split; [exact Hnd |].
  split; [exact Hk |]. split; [exact Hlen |]. split; [exact Hleneq |].
  split; [exact Hstat |]. split; [exact Hsingle |].
  split; [reflexivity |]. split; [reflexivity |].
  split; [exact Hana | exact Hsum].
Qed.

(** X16. A suite with at least one configuration and no test case raises
    the statistics error of an empty mean and leaves the recorded results
    untouched. In every other case (no configuration, or at least one test
    case) it returns; its metadata records the two timestamps, the numbers
    of configurations and of test cases and the requested number of runs,
    and its comparison, difficulty analysis and summary are those of its
    configuration results. *)
Theorem suite_needs_a_test_case (env : nat -> nat -> nat -> W * Clock)
    (start_time end_time : string) (self : Tester) (statistical_runs : Z) :
  (configurations self <> [] -> test_cases self = [] ->
   run_comprehensive_test_suite env start_time end_time self statistical_runs
   = (test_results self, Raise "mean requires at least one data point"))
  /\ (configurations self = [] \/ test_cases self <> [] ->
      exists recorded res,
        run_comprehensive_test_suite env start_time end_time self
          statistical_runs
        = (recorded, Ret res)
        /\ md_start_time (test_metadata res) = start_time
        /\ md_end_time (test_metadata res) = end_time
        /\ md_configurations_tested (test_metadata res)
           = List.length (configurations self)
        /\ md_test_cases (test_metadata res)
           = List.length (test_cases self)
        /\ md_statistical_runs_per_test (test_metadata res)
           = statistical_runs
        /\ model_comparison res
           = _analyze_model_comparison (configuration_results res)
        /\ _analyze_test_case_difficulty (configuration_results res)
           = Ret (test_case_analysis res)
        /\ _calculate_summary_statistics (configuration_results res)
           = Ret (summary_statistics res)).
Proof.
  split.
  - intros Hconfigs Hcases. unfold run_comprehensive_test_suite.
    rewrite Hcases.
    destruct (configurations self) as [| config rest]; [congruence |].
    reflexivity.
  - intro Hpre.
    assert (Hrun :
              exists recorded cr,
                run_configurations env statistical_runs (test_cases self)
                  (configurations self) 0%nat [] (test_results self)
                = (recorded, Ret cr)).
    { destruct (test_cases self) as [| tc cases] eqn:Ecases.
      - destruct Hpre as [-> | Habs]; [| congruence].
        exists (test_results self), []. reflexivity.
      - destruct (run_configurations_returns env statistical_runs
                    (tc :: cases) (configurations self) ltac:(discriminate)
                    (configurations self) 0%nat [] (test_results self))
          as (recorded & cr & Hrun & _); [auto | intros item [] |].
        exists recorded, cr. exact Hrun. }
    destruct Hrun as (recorded & cr & Hrun).
    destruct (difficulty_analysis_keys cr) as (analysis & Hana & _).
    destruct (summary_statistics_returns cr) as (summary & Hsum & _).
    unfold run_comprehensive_test_suite. rewrite Hrun, Hana, Hsum. simpl.
    do 2 eexists. split; [reflexivity |]. simpl. repeat split; auto.
Qed.

(** X17. How the requested number of runs decides the mode. With more than
    one run every entry is the summary of that many trials and nothing is
    added to the tester's recorded results. With one run or fewer (also 0
    or a negative number) every test case is still tried once per
    configuration: every entry holds one result and a success rate of 1.0
    or 0.0, one result per configuration and test case is appended to the
    recorded results, and every configuration's average consistency is
    0. *)
Theorem suite_run_modes (env : nat -> nat -> nat -> W * Clock)
    (start_time end_time : string) (self : Tester) (statistical_runs : Z)
    (recorded : list TestResult) (res : TestSuiteResults) :
  run_comprehensive_test_suite env start_time end_time self statistical_runs
  = (recorded, Ret res) ->
  (forall hash cfg tid entry,
     In (hash, cfg) (configuration_results res) ->
     In (tid, entry) (test_case_results cfg) ->
     entry_of_mode statistical_runs entry)
  /\ ((1 < statistical_runs)%Z -> recorded = test_results self)
  /\ ((statistical_runs <= 1)%Z ->
      (exists added,
         recorded = (test_results self ++ added)%list
         /\ List.length added
            = (List.length (configurations self)
               * List.length (test_cases self))%nat)
      /\ forall hash cfg,
           In (hash, cfg) (configuration_results res) ->
           avg_consistency (overall_metrics cfg) == 0).
Proof.
  intro Hrun.
  destruct (suite_returned _ _ _ _ _ _ _ Hrun)
    as (_ & Hall & _ & _ & _ & _ & Hstat & Hsingle & _).
  split; [| split; [exact Hstat |]].
  - intros hash cfg tid entry Hcfg Hentry.
    destruct (Hall _ Hcfg) as (_ & _ & _ & Hentries & _).
    apply (Hentries (tid, entry) Hentry).
  - intro Hle. split; [apply Hsingle; exact Hle |].
    intros hash cfg Hcfg.
    destruct (Hall _ Hcfg) as (_ & _ & _ & _ & _ & _ & _ & _ & Hzero).
    apply Hzero. exact Hle.
Qed.

(** X18. For every configuration entry of a returned suite: it is stored
    under the identifier of one of the tester's configurations; it holds
    exactly one entry per distinct test case identifier; tests passed plus
    tests failed is the number of those entries; the overall success rate
    is the mean of the entries' success rates; and the overall success rate
    and the average consistency lie in [0,1]. *)
Theorem suite_configuration_metrics (env : nat -> nat -> nat -> W * Clock)
    (start_time end_time : string) (self : Tester) (statistical_runs : Z)
    (recorded : list TestResult) (res : TestSuiteResults) :
  run_comprehensive_test_suite env start_time end_time self statistical_runs
  = (recorded, Ret res) ->
  forall hash cfg,
    In (hash, cfg) (configuration_results res) ->
    (exists config,
       In config (configurations self)
       /\ configuration cfg = config /\ hash = get_config_hash config)
    /\ NoDup (map fst (test_case_results cfg))
    /\ (forall tid, In tid (map fst (test_case_results cfg))
                    <-> In tid (test_case_ids (test_cases self)))
    /\ (tests_passed (overall_metrics cfg)
        + tests_failed (overall_metrics cfg))%nat
       = List.length (test_case_results cfg)
    /\ mean (map (fun e => entry_success_rate (snd e)) (test_case_results cfg))
       = Ret (overall_success_rate (overall_metrics cfg))
    /\ 0 <= overall_success_rate (overall_metrics cfg) <= 1
    /\ 0 <= avg_consistency (overall_metrics cfg) <= 1.
Proof.
  intros Hrun hash cfg Hcfg.
  destruct (suite_returned _ _ _ _ _ _ _ Hrun) as (_ & Hall & _).
  destruct (Hall _ Hcfg)
    as (Hconfig & Hnd & Hkeys & _ & Hsum & Hmean & Hrate & Hcons & _).
  simpl in *. auto 10.
Qed.

End Suite.

Lemma sum_of_constant {A} (f : A -> nat) (n : nat) (l : list A) :
  (forall x, In x l -> f x = n) ->
  fold_right Nat.add 0%nat (map f l) = (List.length l * n)%nat.
Proof.
  induction l as [| x t IH]; intro Hall; [reflexivity |].
  simpl. rewrite (Hall x) by (left; reflexivity).
  rewrite IH; [reflexivity |]. intros y Hy. apply Hall. right. exact Hy.
Qed.

Lemma distinct_keys_length (keys ids : list string) :
  NoDup keys -> (forall k, In k keys <-> In k ids) ->
  List.length keys = List.length (nodup string_dec ids).
Proof.
  intros Hnd Hiff. apply Permutation_length.
  apply NoDup_Permutation; [exact Hnd | apply NoDup_nodup |].
  intro k. rewrite nodup_In. apply Hiff.
Qed.

Lemma all_entries_keys (config_results : ConfigurationResults) tid :
  In tid (map fst (all_entries config_results))
  <-> exists item, In item config_results
                   /\ In tid (map fst (test_case_results (snd item))).
Proof.
  unfold all_entries. rewrite in_map_iff. split.
  - intros ([k e] & <- & Hin). apply in_flat_map in Hin as (item & Hitem & He).
    exists item. split; [exact Hitem |]. apply in_map_iff. exists (k, e). auto.
  - intros (item & Hitem & Hin). apply in_map_iff in Hin as (e & <- & He).
    exists e. split; [reflexivity |]. apply in_flat_map. eauto.
Qed.

Section SuiteAnalyses.
Context `{Runtime} {W : Type} `{AISystemInterface W}.

Lemma best_is_highest (config_results : ConfigurationResults) :
  config_results <> [] ->
  exists best,
    best_overall_configuration (_analyze_model_comparison config_results)
    = Some best
    /\ In best (map config_performance_of config_results)
    /\ forall c, In c (map config_performance_of config_results) ->
         cp_overall_success_rate c <= cp_overall_success_rate best.
Proof.
  intro Hne.
  destruct (rankings_are_sorted_input config_results) as [_ ->].
  pose proof (sort_by_rate_perm (map config_performance_of config_results))
    as Hperm.
  pose proof (sort_by_rate_sorted (map config_performance_of config_results))
    as Hsorted.
  destruct (sort_by_rate_desc (map config_performance_of config_results))
    as [| best rest].
  - apply Permutation_sym, Permutation_nil in Hperm.
    destruct config_results; [congruence | discriminate].
  - exists best. split; [reflexivity | split].
    + eapply Permutation_in; [apply Permutation_sym; exact Hperm |].
      left. reflexivity.
    + intros c Hc. apply (sorted_head_is_highest best rest Hsorted).
      eapply Permutation_in; eassumption.
Qed.

(** X19. A returned suite holds one configuration entry per distinct
    configuration identifier. The summary's number of configurations is the
    number of those entries; it never exceeds the metadata's number of
    configurations and equals it when the identifiers are pairwise
    distinct. The summary's total of tests executed is the number of
    configuration entries times the number of distinct test case
    identifiers: it counts pairs, not trials. *)
Theorem suite_counts (env : nat -> nat -> nat -> W * Clock)
    (start_time end_time : string) (self : Tester) (statistical_runs : Z)
    (recorded : list TestResult) (res : TestSuiteResults) :
  run_comprehensive_test_suite env start_time end_time self statistical_runs
  = (recorded, Ret res) ->
  NoDup (map fst (configuration_results res))
  /\ (forall h, In h (map fst (configuration_results res))
                <-> In h (map get_config_hash (configurations self)))
  /\ sm_configurations_tested (summary_statistics res)
     = List.length (configuration_results res)
  /\ (sm_configurations_tested (summary_statistics res)
      <= md_configurations_tested (test_metadata res))%nat
  /\ (NoDup (map get_config_hash (configurations self)) ->
      sm_configurations_tested (summary_statistics res)
      = md_configurations_tested (test_metadata res))
  /\ total_tests_executed (summary_statistics res)
     = (List.length (configuration_results res)
        * List.length
            (nodup string_dec (test_case_ids (test_cases self))))%nat.
Proof.
  intro Hrun.
  destruct (suite_returned _ _ _ _ _ _ _ Hrun)
    as (_ & Hall & Hnd & Hk & Hlen & Hleneq & _ & _ & Hmeta & _ & _ & Hsum).
  destruct (summary_statistics_returns (configuration_results res))
    as (summary & Hsum' & Hcount & Htotal & _).
  assert (summary = summary_statistics res) by congruence. subst summary.
  rewrite Hcount, Htotal, Hmeta. simpl.
  split; [exact Hnd |]. split; [exact Hk |]. split; [reflexivity |].
  split; [exact Hlen |]. split; [exact Hleneq |].
  apply sum_of_constant. intros item Hitem.
  destruct (Hall _ Hitem) as (_ & Hndk & Hkeys & _).
  rewrite <- (length_map fst). apply distinct_keys_length; assumption.
Qed.

(** X20. With no configuration the suite returns empty configuration
    results, an empty difficulty analysis and no best configuration, and
    records nothing. With at least one configuration the difficulty
    analysis holds exactly one entry per distinct test case identifier, and
    the best configuration is one of the tester's configurations, named by
    its identifier and model, with a mean success rate in [0,1] that no
    configuration entry exceeds. *)
Theorem suite_analyses (env : nat -> nat -> nat -> W * Clock)
    (start_time end_time : string) (self : Tester) (statistical_runs : Z)
    (recorded : list TestResult) (res : TestSuiteResults) :
  run_comprehensive_test_suite env start_time end_time self statistical_runs
  = (recorded, Ret res) ->
  (configurations self = [] ->
   configuration_results res = []
   /\ test_case_analysis res = []
   /\ best_overall_configuration (model_comparison res) = None
   /\ recorded = test_results self)
  /\ (configurations self <> [] ->
      NoDup (map fst (test_case_analysis res))
      /\ (forall tid, In tid (map fst (test_case_analysis res))
                      <-> In tid (test_case_ids (test_cases self)))
      /\ exists best config,
           best_overall_configuration (model_comparison res) = Some best
           /\ In config (configurations self)
           /\ cp_config_hash best = get_config_hash config
           /\ cp_model_id best = model_id config
           /\ 0 <= cp_overall_success_rate best <= 1
           /\ forall hash cfg,
                In (hash, cfg) (configuration_results res) ->
                overall_success_rate (overall_metrics cfg)
                <= cp_overall_success_rate best).
Proof.
  intro Hrun.
  destruct (suite_returned _ _ _ _ _ _ _ Hrun)
    as (_ & Hall & Hnd & Hk & Hlen & _ & Hstat & Hsingle & _ & Hcmp & Hana
        & _).
  split.
  - intro Hnone. rewrite Hnone in *. simpl in Hlen.
    assert (Hcr : configuration_results res = []).
    { destruct (configuration_results res); [reflexivity | simpl in Hlen; lia]. }
    rewrite Hcr in *. rewrite Hcmp.
    split; [reflexivity |]. split; [| split; [reflexivity |]].
    + unfold _analyze_test_case_difficulty in Hana. simpl in Hana.
      injection Hana as <-. reflexivity.
    + destruct (Z.ltb_spec 1 statistical_runs) as [Hlt | Hle];
        [apply Hstat; exact Hlt |].
      destruct (Hsingle Hle) as (added & -> & Hadded). simpl in Hadded.
      destruct added; [apply app_nil_r | discriminate].
  - intro Hsome.
    assert (Hcr : configuration_results res <> []).
    { destruct (configurations self) as [| config rest]; [congruence |].
      intro Hnil. rewrite Hnil in Hk.
      apply (proj2 (Hk (get_config_hash config))). left. reflexivity. }
    destruct (difficulty_analysis_keys (configuration_results res))
      as (analysis & Hana' & Hndk & Hkeys).
    assert (analysis = test_case_analysis res) by congruence. subst analysis.
    split; [exact Hndk |]. split.
    + intro tid. rewrite Hkeys, all_entries_keys. split.
      * intros (item & Hitem & Hin).
        destruct (Hall _ Hitem) as (_ & _ & Hids & _). apply Hids. exact Hin.
      * intro Hin. destruct (configuration_results res) as [| item rest] eqn:E;
          [congruence |].
        exists item. split; [left; reflexivity |].
        destruct (Hall item (or_introl eq_refl)) as (_ & _ & Hids & _).
        apply Hids. exact Hin.
    + destruct (best_is_highest _ Hcr) as (best & Hbest & Hin & Hmax).
      apply in_map_iff in Hin as ([hash cfg] & <- & Hitem).
      destruct (Hall _ Hitem)
        as ((config & Hconfig & Hcfg & Hhash) & _ & _ & _ & _ & _ & Hrate & _).
      simpl in *. exists (config_performance_of (hash, cfg)), config.
      rewrite Hcmp. split; [exact Hbest |]. split; [exact Hconfig |].
      split; [exact Hhash |]. split; [simpl; congruence |].
      split; [simpl; exact Hrate |].
      intros hash' cfg' Hitem'.
      apply (Hmax (config_performance_of (hash', cfg'))).
      apply in_map. exact Hitem'.
Qed.

End SuiteAnalyses.

(** The sample suite asked for 0 runs per test: each configuration still
    tries the test case once. *)
Example sample_suite_single_runs :
  exists recorded res,
    @run_comprehensive_test_suite Samples.suite_runtime _
      (@ProductionAISystem.production_system Samples.suite_runtime)
      Samples.suite_env "t0" "t1" Samples.sample_tester 0
    = (recorded, Ret res)
    /\ List.length recorded = 2%nat
    /\ map fst (configuration_results res) = ["pro"; "fla"]
    /\ map (fun item => overall_success_rate (overall_metrics (snd item)))
         (configuration_results res) = [1.0; 0.0]
    /\ map fst (test_case_analysis res) = ["addition"]
    /\ map (fun item => difficulty_assessment (snd item))
         (test_case_analysis res) = ["hard"].
Proof.
  do 2 eexists. split; [vm_compute; reflexivity |]. simpl. repeat split.
Qed.

(** X17, applied to the sample suite asked for 0 runs per test: two
    results are appended, one per configuration and test case. *)
Lemma suite_run_modes_witness :
  exists recorded res,
    @run_comprehensive_test_suite Samples.suite_runtime _
      (@ProductionAISystem.production_system Samples.suite_runtime)
      Samples.suite_env "t0" "t1" Samples.sample_tester 0
    = (recorded, Ret res)
    /\ exists added,
         recorded = (test_results Samples.sample_tester ++ added)%list
         /\ List.length added
            = (List.length (configurations Samples.sample_tester)
               * List.length (test_cases Samples.sample_tester))%nat.
Proof.
  do 2 eexists. split; [vm_compute; reflexivity |].
  refine (proj1 (proj2 (proj2
            (@suite_run_modes Samples.suite_runtime _
               (@ProductionAISystem.production_system Samples.suite_runtime)
               Samples.suite_env "t0" "t1" Samples.sample_tester 0 _ _ _))
            _)).
  - vm_compute. reflexivity.
  - discriminate.
Defined.

(** X18, applied to the sample suite with three runs per test. *)
Lemma suite_configuration_metrics_witness :
  exists recorded res,
    @run_comprehensive_test_suite Samples.suite_runtime _
      (@ProductionAISystem.production_system Samples.suite_runtime)
      Samples.suite_env "t0" "t1" Samples.sample_tester 3
    = (recorded, Ret res)
    /\ forall hash cfg,
         In (hash, cfg) (configuration_results res) ->
         (tests_passed (overall_metrics cfg)
          + tests_failed (overall_metrics cfg))%nat
         = List.length (test_case_results cfg)
         /\ 0 <= overall_success_rate (overall_metrics cfg) <= 1.
Proof.
  do 2 eexists. split; [vm_compute; reflexivity |].
  intros hash cfg Hin.
  refine (let Hm :=
            @suite_configuration_metrics Samples.suite_runtime _
              (@ProductionAISystem.production_system Samples.suite_runtime)
              Samples.suite_env "t0" "t1" Samples.sample_tester 3 _ _ _
              hash cfg Hin in
          conj (proj1 (proj2 (proj2 (proj2 Hm))))
            (proj1 (proj2 (proj2 (proj2 (proj2 (proj2 Hm))))))).
  vm_compute. reflexivity.
Defined.

(** X19, applied to the sample suite: two configuration entries, two
    tests counted. *)
Lemma suite_counts_witness :
  exists recorded res,
    @run_comprehensive_test_suite Samples.suite_runtime _
      (@ProductionAISystem.production_system Samples.suite_runtime)
      Samples.suite_env "t0" "t1" Samples.sample_tester 3
    = (recorded, Ret res)
    /\ sm_configurations_tested (summary_statistics res)
       = List.length (configuration_results res)
    /\ total_tests_executed (summary_statistics res)
       = (List.length (configuration_results res)
          * List.length
              (nodup string_dec
                 (test_case_ids (test_cases Samples.sample_tester))))%nat.
Proof.
  do 2 eexists. split; [vm_compute; reflexivity |].
  refine (let Hc :=
            @suite_counts Samples.suite_runtime _
              (@ProductionAISystem.production_system Samples.suite_runtime)
              Samples.suite_env "t0" "t1" Samples.sample_tester 3 _ _ _ in
          conj (proj1 (proj2 (proj2 Hc)))
            (proj2 (proj2 (proj2 (proj2 (proj2 Hc)))))).
  vm_compute. reflexivity.
Defined.

(** X20, applied to the sample suite: the difficulty analysis has its
    entries under distinct identifiers. *)
Lemma suite_analyses_witness :
  exists recorded res,
    @run_comprehensive_test_suite Samples.suite_runtime _
      (@ProductionAISystem.production_system Samples.suite_runtime)
      Samples.suite_env "t0" "t1" Samples.sample_tester 3
    = (recorded, Ret res)
    /\ NoDup (map fst (test_case_analysis res)).
Proof.
  do 2 eexists. split; [vm_compute; reflexivity |].
  refine (proj1 (proj2
            (@suite_analyses Samples.suite_runtime _
               (@ProductionAISystem.production_system Samples.suite_runtime)
               Samples.suite_env "t0" "t1" Samples.sample_tester 3 _ _ _)
            _)).
  - vm_compute. reflexivity.
  - discriminate.
Defined.

(** ** [AISystemTester._calculate_summary_statistics] *)

Section Summary.
Context `{Runtime}.

(** X21. The summary never raises. For no configuration every figure is 0.
    For a single configuration both standard deviations are 0 and the
    averages are that configuration's figures. When every configuration's
    overall success rate lies in [0,1], so does the overall average. *)
Theorem summary_statistics_edge_cases (config_results : ConfigurationResults) :
  exists summary,
    _calculate_summary_statistics config_results = Ret summary
    /\ sm_configurations_tested summary = List.length config_results
    /\ (config_results = [] ->
        overall_avg_success_rate summary = 0
        /\ success_rate_std summary = 0
        /\ overall_avg_consistency summary = 0
        /\ consistency_std summary = 0
        /\ total_tests_executed summary = 0%nat)
    /\ (forall item, config_results = [item] ->
          success_rate_std summary = 0
          /\ consistency_std summary = 0
          /\ overall_avg_success_rate summary
             == overall_success_rate (overall_metrics (snd item))
          /\ overall_avg_consistency summary
             == avg_consistency (overall_metrics (snd item))
          /\ total_tests_executed summary
             = List.length (test_case_results (snd item)))
    /\ ((forall item, In item config_results ->
           0 <= overall_success_rate (overall_metrics (snd item)) <= 1) ->
        0 <= overall_avg_success_rate summary <= 1).
Proof.
  destruct (summary_statistics_returns config_results)
    as (summary & Hsum & Hcount & Htotal & Hrate & Hcons & Hrstd & Hcstd).
  exists summary. split; [exact Hsum |]. split; [exact Hcount |].
  split; [| split].
  - intros ->. simpl in *. unfold stdev_or_0 in *. simpl in *.
    repeat split; congruence.
  - intros item ->. simpl in *. unfold stdev_or_0 in *. simpl in *.
    injection Hrate as <-. injection Hcons as <-.
    injection Hrstd as <-. injection Hcstd as <-.
    rewrite Htotal. repeat split; try lia; unfold Qlen; simpl; field.
  - intro Hrange.
    destruct config_results as [| item rest].
    + simpl in Hrate. injection Hrate as <-. lra.
    + destruct (mean_bounds 0 1
                  (map (fun item => overall_success_rate (overall_metrics (snd item)))
                     (item :: rest)))
        as (m & Hm & Hb); [discriminate | |].
      * intros x Hx. apply in_map_iff in Hx as (it & <- & Hin).
        apply Hrange. exact Hin.
      * simpl in Hrate, Hm. assert (m = overall_avg_success_rate summary)
          by congruence. subst m. exact Hb.
Qed.

End Summary.

(** ** [AISystemTester.generate_test_report] *)

Lemma ranking_lines_length `{Runtime} (rankings : list ConfigPerformance) :
  forall i, List.length (ranking_lines i rankings) = List.length rankings.
Proof.
  induction rankings as [| c rest IH]; intro i; simpl; [| rewrite IH];
    reflexivity.
Qed.

Lemma assessment_partition (difficulty : list (string * DifficultyEntry)) :
  (forall item, In item difficulty ->
     difficulty_assessment (snd item) = "easy"
     \/ difficulty_assessment (snd item) = "medium"
     \/ difficulty_assessment (snd item) = "hard") ->
  (List.length (tests_assessed "easy" difficulty)
   + List.length (tests_assessed "medium" difficulty)
   + List.length (tests_assessed "hard" difficulty))%nat
  = List.length difficulty.
Proof.
  unfold tests_assessed. rewrite !length_map.
  induction difficulty as [| item rest IH]; intro Hall; [reflexivity |].
  assert (Hrest : forall it, In it rest ->
                    difficulty_assessment (snd it) = "easy"
                    \/ difficulty_assessment (snd it) = "medium"
                    \/ difficulty_assessment (snd it) = "hard")
    by (intros it Hit; apply Hall; right; exact Hit).
  specialize (IH Hrest). simpl.
  destruct (Hall item (or_introl eq_refl)) as [-> | [-> | ->]]; simpl; lia.
Qed.

Lemma tests_assessed_In level (difficulty : list (string * DifficultyEntry)) tid :
  In tid (tests_assessed level difficulty)
  <-> exists entry,
        In (tid, entry) difficulty /\ difficulty_assessment entry = level.
Proof.
  unfold tests_assessed. rewrite in_map_iff. split.
  - intros ([k e] & <- & Hin). apply filter_In in Hin as [Hin Hlevel].
    apply String.eqb_eq in Hlevel. eauto.
  - intros (entry & Hin & Hlevel). exists (tid, entry). split; [reflexivity |].
    apply filter_In. split; [exact Hin |]. apply String.eqb_eq. exact Hlevel.
Qed.

Lemma unique_entry {A} (d : list (string * A)) k v v' :
  NoDup (map fst d) -> In (k, v) d -> In (k, v') d -> v = v'.
Proof.
  intros Hnd H1 H2.
  apply (dict_get_In _ _ _ Hnd) in H1, H2. congruence.
Qed.

Section Report.
Context `{Runtime}.

Lemma analysis_assessments (config_results : ConfigurationResults) analysis :
  _analyze_test_case_difficulty config_results = Ret analysis ->
  NoDup (map fst analysis)
  /\ forall item, In item analysis ->
       difficulty_assessment (snd item) = "easy"
       \/ difficulty_assessment (snd item) = "medium"
       \/ difficulty_assessment (snd item) = "hard".
Proof.
  intro Hana.
  destruct (test_case_performance_spec config_results) as (Hnd & _ & Hspec).
  destruct (analyze_all_returns (test_case_performance_of config_results))
    as (analysis' & Hall & Hkeys & Hentries).
  { intros tid rs Hin. apply (Hspec tid rs Hin). }
  assert (analysis' = analysis).
  { unfold _analyze_test_case_difficulty in Hana. congruence. }
  subst analysis'. rewrite Hkeys. split; [exact Hnd |].
  intros [tid entry] Hin.
  destruct (Hentries tid entry Hin) as (rs & Hin' & Hone).
  destruct (Hspec tid rs Hin') as (_ & Hne).
  destruct (analyze_one_returns rs Hne) as (entry' & Hone' & _ & Hlevel & _).
  assert (entry' = entry) by congruence. subst entry'. simpl.
  rewrite Hlevel.
  destruct (difficulty_level_cases (avg_success_rate entry))
    as [[_ ->] | [(_ & _ & ->) | [_ ->]]]; auto.
Qed.

(** X22. In the report of results whose difficulty analysis is the one
    computed from their configuration results, every test case is listed
    under exactly one of the three difficulty headings, so the three
    counts add up to the number of analysed test cases. The report has one
    ranking line per ranked configuration: 16 lines plus the ranking lines,
    plus the insights and two more lines when there is an insight. *)
Theorem report_covers_every_test_case (res : TestSuiteResults) :
  _analyze_test_case_difficulty (configuration_results res)
  = Ret (test_case_analysis res) ->
  let difficulty := test_case_analysis res in
  (List.length (tests_assessed "easy" difficulty)
   + List.length (tests_assessed "medium" difficulty)
   + List.length (tests_assessed "hard" difficulty))%nat
  = List.length difficulty
  /\ (forall tid,
        In tid (map fst difficulty) ->
        (In tid (tests_assessed "easy" difficulty)
         /\ ~ In tid (tests_assessed "medium" difficulty)
         /\ ~ In tid (tests_assessed "hard" difficulty))
        \/ (~ In tid (tests_assessed "easy" difficulty)
            /\ In tid (tests_assessed "medium" difficulty)
            /\ ~ In tid (tests_assessed "hard" difficulty))
        \/ (~ In tid (tests_assessed "easy" difficulty)
            /\ ~ In tid (tests_assessed "medium" difficulty)
            /\ In tid (tests_assessed "hard" difficulty)))
  /\ List.length (report_lines res)
     = (16 + List.length (configuration_rankings (model_comparison res))
        + match performance_insights (model_comparison res) with
          | [] => 0
          | insights => 2 + List.length insights
          end)%nat.
Proof.
  intro Hana. cbv zeta.
  destruct (analysis_assessments _ _ Hana) as [Hnd Hlevels].
  split; [apply assessment_partition; exact Hlevels | split].
  - intros tid Hin. apply in_map_iff in Hin as ([k entry] & <- & Hin).
    simpl. rewrite !tests_assessed_In.
    assert (Hother : forall level,
              (exists e, In (k, e) (test_case_analysis res)
                         /\ difficulty_assessment e = level) ->
              difficulty_assessment entry = level).
    { intros level (e & He & Hlevel).
      rewrite (unique_entry _ _ _ _ Hnd Hin He). exact Hlevel. }
    destruct (Hlevels _ Hin) as [Hl | [Hl | Hl]]; simpl in Hl.
    + left. split; [eauto |].
      split; intro Habs; apply Hother in Habs; congruence.
    + right; left. split; [| split; [eauto |]];
        intro Habs; apply Hother in Habs; congruence.
    + right; right. split; [| split; [| eauto]];
        intro Habs; apply Hother in Habs; congruence.
  - unfold report_lines. cbv zeta. rewrite !length_app, ranking_lines_length.
    destruct (performance_insights (model_comparison res)) as [| i rest];
      simpl; rewrite ?length_app, ?length_map; simpl; lia.
Qed.

End Report.

(** X22, applied to the report of the sample suite. *)
Lemma report_covers_every_test_case_witness :
  exists recorded res,
    @run_comprehensive_test_suite Samples.suite_runtime _
      (@ProductionAISystem.production_system Samples.suite_runtime)
      Samples.suite_env "t0" "t1" Samples.sample_tester 3
    = (recorded, Ret res)
    /\ (List.length (tests_assessed "easy" (test_case_analysis res))
        + List.length (tests_assessed "medium" (test_case_analysis res))
        + List.length (tests_assessed "hard" (test_case_analysis res)))%nat
       = List.length (test_case_analysis res).
Proof.
  do 2 eexists. split; [vm_compute; reflexivity |].
  refine (proj1
            (@report_covers_every_test_case Samples.suite_runtime _ _)).
  vm_compute. reflexivity.
Defined.
